(** * The forecast orchestrator: tool pipeline and JSON recovery

    A shallow embedding of [src/agent/orchestrator.py]
    ([ForecastOrchestrator.generate_forecast], [_extract_transcript_query]
    and [_extract_json]) together with the parts of the Python runtime the
    three methods lean on: [str] methods, [re.search] for the three patterns
    of [json_patterns], and [json.loads] / [json.dumps]; then of the three
    tools the orchestrator calls ([src/tools]), the document loader and the
    provider they use ([src/utils]), with the packages around them as a
    record of functions.

    Conventions.
    - A Python [str] is a Rocq [string]; its characters are the code points
      0..255.  On that range [str.lower], [str.isspace] and the regex class
      [\s] are modelled exactly.
    - A call that may raise returns an [outcome]: [Return v] or [Raise e].
      The exceptions are instances of [Exception]; interpreter signals
      ([KeyboardInterrupt], [SystemExit]) are not part of the model.
    - Log lines ([logger.info], [logger.warning], [logger.error]) carry no
      data back into the program and are left out. *)

From Stdlib Require Import String Ascii List ZArith NArith Bool Lia DecimalString DecimalPos DecimalN.
Import ListNotations.

Open Scope string_scope.

(** ** Exceptions and outcomes *)

Inductive exn_class : Type :=
| JSONDecodeError
| ValueError
| RecursionError
| TypeError
| AttributeError
| OtherError.

Record exn : Type := Exn { exn_type : exn_class; exn_str : string }.

Inductive outcome (A : Type) : Type :=
| Return (v : A)
| Raise (e : exn).

Arguments Return {A} v.
Arguments Raise {A} e.

Definition exn_class_eqb (a b : exn_class) : bool :=
  match a, b with
  | JSONDecodeError, JSONDecodeError
  | ValueError, ValueError
  | RecursionError, RecursionError
  | TypeError, TypeError
  | AttributeError, AttributeError
  | OtherError, OtherError => true
  | _, _ => false
  end.

(** [isinstance(e, json.JSONDecodeError)]: the test made by the clause
    [except json.JSONDecodeError].  [JSONDecodeError] derives from
    [ValueError], not the other way round. *)
Definition is_JSONDecodeError (e : exn) : bool :=
  exn_class_eqb (exn_type e) JSONDecodeError.

(** ** Python [str] primitives *)

Module Py.

Definition code (c : ascii) : N := N_of_ascii c.

Definition between (lo hi : N) (c : ascii) : bool :=
  ((lo <=? code c) && (code c <=? hi))%N.

(** [str.isspace] on one character, code points 0..255: TAB..CR, FS..US,
    SPACE, NEL (0x85) and NBSP (0xA0). *)
Definition isspace (c : ascii) : bool :=
  between 9 13 c || between 28 32 c || (code c =? 133)%N || (code c =? 160)%N.

(** [str.lower] on one character: A-Z and the Latin-1 capitals 0xC0..0xDE
    (without the multiplication sign 0xD7) move up by 32. *)
Definition lower_char (c : ascii) : ascii :=
  if between 65 90 c || between 192 214 c || between 216 222 c
  then ascii_of_N (code c + 32)
  else c.

Fixpoint lower (s : string) : string :=
  match s with
  | EmptyString => EmptyString
  | String c r => String (lower_char c) (lower r)
  end.

Fixpoint lstrip (s : string) : string :=
  match s with
  | EmptyString => EmptyString
  | String c r => if isspace c then lstrip r else s
  end.

Fixpoint rstrip (s : string) : string :=
  match s with
  | EmptyString => EmptyString
  | String c r =>
      match rstrip r with
      | EmptyString => if isspace c then EmptyString else String c EmptyString
      | r' => String c r'
      end
  end.

(** [s.strip()] *)
Definition strip (s : string) : string := rstrip (lstrip s).

(** [s.startswith(p)] *)
Fixpoint startswith (p s : string) : bool :=
  match p, s with
  | EmptyString, _ => true
  | String a p', String b s' => Ascii.eqb a b && startswith p' s'
  | String _ _, EmptyString => false
  end.

(** [sub in s] *)
Fixpoint contains (sub s : string) : bool :=
  startswith sub s ||
  match s with
  | EmptyString => false
  | String _ r => contains sub r
  end.

Open Scope Z_scope.

(** [s.find(sub)], counted from offset [i]: the lowest index, or -1. *)
Fixpoint find_from (sub s : string) (i : Z) : Z :=
  if startswith sub s then i
  else match s with
       | EmptyString => -1
       | String _ r => find_from sub r (i + 1)
       end.

Definition find (sub s : string) : Z := find_from sub s 0.

(** [s.rfind(sub)]: the highest index, or -1. *)
Fixpoint rfind_from (sub s : string) (i : Z) : Z :=
  match s with
  | EmptyString => if startswith sub s then i else -1
  | String _ r =>
      let j := rfind_from sub r (i + 1) in
      if j =? -1 then (if startswith sub s then i else -1) else j
  end.

Definition rfind (sub s : string) : Z := rfind_from sub s 0.

Definition len (s : string) : Z := Z.of_nat (String.length s).

(** One bound of a slice, as [PySlice_AdjustIndices] does for step 1:
    negative bounds count from the end, and both are clamped to [0, len]. *)
Definition adjust (n i : Z) : Z :=
  if i <? 0 then Z.max 0 (i + n) else Z.min i n.

(** [s[start:stop]] *)
Definition slice (s : string) (start stop : Z) : string :=
  let a := adjust (len s) start in
  let b := adjust (len s) stop in
  substring (Z.to_nat a) (Z.to_nat (b - a)) s.

Close Scope Z_scope.

(** [sep.join(parts)] *)
Fixpoint join (sep : string) (parts : list string) : string :=
  match parts with
  | [] => ""
  | [p] => p
  | p :: rest => p ++ sep ++ join sep rest
  end.

Definition newline : string := String "010"%char EmptyString.

(** The double-quote character; string constants of the source that
    contain it are written with [dq] spliced in. *)
Definition dq : string := String (ascii_of_nat 34) EmptyString.

End Py.

(** ** [re.search] for the patterns of [json_patterns]

    The patterns use literals, [\s], [.] (with [re.DOTALL]: any character),
    the negated set [[^{}]], concatenation, greedy and lazy stars, one
    capturing group and one non-capturing group.  The matcher is the usual
    backtracking one: alternatives are tried in the order the [re] module
    tries them, the first success wins. *)

Module Re.

Inductive regex : Type :=
| Lit (s : string)        (* the characters of [s], in order *)
| Space                   (* \s *)
| AnyChar                 (* .  under re.DOTALL *)
| NoneOf (s : string)     (* [^...] *)
| Cat (r1 r2 : regex)
| Star (r : regex)        (* r*  *)
| LazyStar (r : regex)    (* r*? *)
| Group (r : regex).      (* ( r ), group 1 *)

(** A match object, as far as the caller reads it: [m.group(1)], which is
    [None] when the group took no part in the match. *)
Record match_object : Type := MatchObject { group1 : option string }.

Definition cont : Type := list ascii -> option string -> option match_object.

Fixpoint drop_prefix (p s : list ascii) : option (list ascii) :=
  match p, s with
  | [], _ => Some s
  | a :: p', b :: s' => if Ascii.eqb a b then drop_prefix p' s' else None
  | _ :: _, [] => None
  end.

Fixpoint mem (c : ascii) (set : string) : bool :=
  match set with
  | EmptyString => false
  | String d r => Ascii.eqb c d || mem c r
  end.

Definition matcher : Type :=
  list ascii -> option string -> cont -> option match_object.

(** The iterations of a greedy star over [body]: one more iteration is
    tried first, the continuation [k] second.  An iteration that consumes
    nothing is given up, so [n = length s] iterations are enough. *)
Fixpoint greedy_loop (body : matcher) (k : cont) (n : nat)
  (s : list ascii) (g : option string) : option match_object :=
  match n with
  | O => k s g
  | S n' =>
      match body s g
              (fun s' g' =>
                 if (List.length s' <? List.length s)%nat
                 then greedy_loop body k n' s' g' else None) with
      | Some m => Some m
      | None => k s g
      end
  end.

(** The iterations of a lazy star: the continuation first, one more
    iteration second. *)
Fixpoint lazy_loop (body : matcher) (k : cont) (n : nat)
  (s : list ascii) (g : option string) : option match_object :=
  match k s g with
  | Some m => Some m
  | None =>
      match n with
      | O => None
      | S n' =>
          body s g
            (fun s' g' =>
               if (List.length s' <? List.length s)%nat
               then lazy_loop body k n' s' g' else None)
      end
  end.

(** [rmatch r s g k]: match [r] at the head of [s] with group 1 currently
    [g], then go on with [k] on what is left; [None] is a failed branch. *)
Fixpoint rmatch (r : regex) (s : list ascii) (g : option string) (k : cont)
  {struct r} : option match_object :=
  match r with
  | Lit p =>
      match drop_prefix (list_ascii_of_string p) s with
      | Some s' => k s' g
      | None => None
      end
  | Space =>
      match s with
      | c :: s' => if Py.isspace c then k s' g else None
      | [] => None
      end
  | AnyChar =>
      match s with
      | _ :: s' => k s' g
      | [] => None
      end
  | NoneOf set =>
      match s with
      | c :: s' => if mem c set then None else k s' g
      | [] => None
      end
  | Cat r1 r2 => rmatch r1 s g (fun s' g' => rmatch r2 s' g' k)
  | Star r1 => greedy_loop (rmatch r1) k (List.length s) s g
  | LazyStar r1 => lazy_loop (rmatch r1) k (List.length s) s g
  | Group r1 =>
      rmatch r1 s g
        (fun s' _ =>
           k s' (Some (string_of_list_ascii
                         (firstn (List.length s - List.length s') s))))
  end.

(** Try every start position from the left, the end of the text included. *)
Fixpoint search_from (r : regex) (s : list ascii) : option match_object :=
  match rmatch r s None (fun _ g => Some (MatchObject g)) with
  | Some m => Some m
  | None =>
      match s with
      | [] => None
      | _ :: s' => search_from r s'
      end
  end.

(** [re.search(pattern, text, re.DOTALL)] *)
Definition search (r : regex) (text : string) : option match_object :=
  search_from r (list_ascii_of_string text).

End Re.

(** ** [json.loads] and [json.dumps]

    JSON values as Python builds them.  A [str] value is kept as its list
    of code points, since a [\uXXXX] escape can denote any of them.  A
    float is kept as the lexeme it was read from (no binary rounding is
    modelled); [NaN], [Infinity] and [-Infinity], which [json.loads]
    accepts, are floats of that kind.  A [dict] is the list of its items in
    insertion order, each key once. *)

Module Json.

Definition ustr : Type := list N.

Definition ustr_of (s : string) : ustr :=
  map N_of_ascii (list_ascii_of_string s).

#[warnings="-register-all"]
Inductive json : Type :=
| JNull
| JBool (b : bool)
| JInt (z : Z)
| JFloat (lexeme : string)
| JStr (s : ustr)
| JList (items : list json)
| JDict (items : list (ustr * json)).

Fixpoint ustr_eqb (a b : ustr) : bool :=
  match a, b with
  | [], [] => true
  | x :: a', y :: b' => N.eqb x y && ustr_eqb a' b'
  | _, _ => false
  end.

(** [d[k] = v] *)
Fixpoint dict_set (k : ustr) (v : json) (d : list (ustr * json)) : list (ustr * json) :=
  match d with
  | [] => [(k, v)]
  | (k', v') :: r =>
      if ustr_eqb k k' then (k, v) :: r else (k', v') :: dict_set k v r
  end.

(** The dict built from the pairs of an object, in source order: a repeated
    key keeps its first position and takes its last value. *)
Definition dict_of_pairs (ps : list (ustr * json)) : list (ustr * json) :=
  fold_left (fun d kv => dict_set (fst kv) (snd kv) d) ps [].

(** [d.get(k)] *)
Fixpoint dict_get (k : ustr) (d : list (ustr * json)) : option json :=
  match d with
  | [] => None
  | (k', v) :: r => if ustr_eqb k k' then Some v else dict_get k r
  end.

(** *** Lexical level *)

Inductive token : Type :=
| TLBrace | TRBrace | TLBracket | TRBracket | TComma | TColon
| TString (s : ustr)
| TInt (negative : bool) (digits : list ascii)
| TFloat (lexeme : string)
| TConst (v : json)
| TBad.

Definition dquote : ascii := "034"%char.
Definition backslash : ascii := "092"%char.

Definition eqc (c : ascii) (d : ascii) : bool := Ascii.eqb c d.

(** The decoder's own whitespace: [ \t\n\r] and nothing else. *)
Definition json_ws (c : ascii) : bool :=
  eqc c " " || eqc c "009" || eqc c "010" || eqc c "013".

Definition is_digit (c : ascii) : bool := Py.between 48 57 c.

Definition hexval (c : ascii) : option N :=
  if Py.between 48 57 c then Some (Py.code c - 48)%N
  else if Py.between 97 102 c then Some (Py.code c - 87)%N
  else if Py.between 65 70 c then Some (Py.code c - 55)%N
  else None.

Definition hex4 (a b c d : ascii) : option N :=
  match hexval a, hexval b, hexval c, hexval d with
  | Some x, Some y, Some z, Some w => Some (((x * 16 + y) * 16 + z) * 16 + w)%N
  | _, _, _, _ => None
  end.

(** The one-letter escapes of [BACKSLASH]. *)
Definition unescape (e : ascii) : option N :=
  if eqc e dquote then Some 34%N
  else if eqc e backslash then Some 92%N
  else if eqc e "/" then Some 47%N
  else if eqc e "b" then Some 8%N
  else if eqc e "f" then Some 12%N
  else if eqc e "n" then Some 10%N
  else if eqc e "r" then Some 13%N
  else if eqc e "t" then Some 9%N
  else None.

Definition high_surrogate (u : N) : bool := ((55296 <=? u) && (u <=? 56319))%N.
Definition low_surrogate (u : N) : bool := ((56320 <=? u) && (u <=? 57343))%N.
Definition join_surrogates (u u2 : N) : N :=
  (65536 + N.lor (N.shiftl (u - 55296) 10) (u2 - 56320))%N.

(** [scanstring] in strict mode, entered after the opening quote: the
    token, and how many characters it took, closing quote included.  [acc]
    is the value so far, reversed. *)
Fixpoint scan_string (s : list ascii) (acc : list N) (n : nat) {struct s}
  : token * nat :=
  match s with
  | [] => (TBad, n)
  | c :: r =>
      if eqc c dquote then (TString (rev acc), S n)
      else if eqc c backslash then
        match r with
        | [] => (TBad, n)
        | e :: r1 =>
            if eqc e "u" then
              match r1 with
              | h1 :: h2 :: h3 :: h4 :: r2 =>
                  match hex4 h1 h2 h3 h4 with
                  | None => (TBad, n)
                  | Some u =>
                      match r2 with
                      | b :: v :: l1 :: l2 :: l3 :: l4 :: r3 =>
                          if high_surrogate u && eqc b backslash && eqc v "u" then
                            match hex4 l1 l2 l3 l4 with
                            | None => (TBad, n)
                            | Some u2 =>
                                if low_surrogate u2
                                then scan_string r3 (join_surrogates u u2 :: acc) (n + 12)
                                else scan_string r2 (u :: acc) (n + 6)
                            end
                          else scan_string r2 (u :: acc) (n + 6)
                      | _ => scan_string r2 (u :: acc) (n + 6)
                      end
                  end
              | _ => (TBad, n)
              end
            else
              match unescape e with
              | Some x => scan_string r1 (x :: acc) (n + 2)
              | None => (TBad, n)
              end
        end
      else if (Py.code c <? 32)%N then (TBad, n)
      else scan_string r (Py.code c :: acc) (S n)
  end.

Fixpoint span_digits (s : list ascii) : list ascii * list ascii :=
  match s with
  | c :: r =>
      if is_digit c then let '(ds, rest) := span_digits r in (c :: ds, rest)
      else ([], s)
  | [] => ([], [])
  end.

(** [NUMBER_RE] matched at the head of [s]: an optional minus sign and
    either 0 or a run of digits that starts with 1..9; then, optionally, a
    dot and one digit or more; then, optionally, e or E, a sign (optional)
    and one digit or more.  With a fraction or an exponent the number is a
    float, otherwise an int; the count is the length of the match. *)
Definition scan_number (s : list ascii) : option (token * nat) :=
  let '(neg, s1) :=
    match s with
    | c :: r => if eqc c "-" then (true, r) else (false, s)
    | [] => (false, s)
    end in
  let '(int_digits, s2) :=
    match s1 with
    | c :: r => if eqc c "0" then ([c], r) else span_digits s1
    | [] => ([], s1)
    end in
  match int_digits with
  | [] => None
  | _ :: _ =>
      let '(frac, s3) :=
        match s2 with
        | c :: r =>
            if eqc c "." then
              match span_digits r with
              | ([], _) => ([], s2)
              | (fd, r') => (c :: fd, r')
              end
            else ([], s2)
        | [] => ([], s2)
        end in
      let exp :=
        match s3 with
        | c :: r =>
            if eqc c "e" || eqc c "E" then
              let '(sign, r1) :=
                match r with
                | d :: r' => if eqc d "+" || eqc d "-" then ([d], r') else ([], r)
                | [] => ([], r)
                end in
              match span_digits r1 with
              | ([], _) => []
              | (ed, _) => (c :: sign ++ ed)%list
              end
            else []
        | [] => []
        end in
      let lexeme := ((if neg then ["-"%char] else []) ++ int_digits ++ frac ++ exp)%list in
      Some (match frac, exp with
            | [], [] => TInt neg int_digits
            | _, _ => TFloat (string_of_list_ascii lexeme)
            end, List.length lexeme)
  end.

Fixpoint starts (p : string) (s : list ascii) : bool :=
  match p, s with
  | EmptyString, _ => true
  | String a p', b :: s' => eqc a b && starts p' s'
  | String _ _, [] => false
  end.

(** What [scan_once] accepts besides strings and containers, in the order
    it tests them. *)
Definition scan_atom (s : list ascii) : option (token * nat) :=
  if starts "null" s then Some (TConst JNull, 4)
  else if starts "true" s then Some (TConst (JBool true), 4)
  else if starts "false" s then Some (TConst (JBool false), 5)
  else match scan_number s with
       | Some r => Some r
       | None =>
           if starts "NaN" s then Some (TConst (JFloat "NaN"), 3)
           else if starts "Infinity" s then Some (TConst (JFloat "Infinity"), 8)
           else if starts "-Infinity" s then Some (TConst (JFloat "-Infinity"), 9)
           else None
       end.

Definition punct (c : ascii) : option token :=
  if eqc c "{" then Some TLBrace
  else if eqc c "}" then Some TRBrace
  else if eqc c "[" then Some TLBracket
  else if eqc c "]" then Some TRBracket
  else if eqc c "," then Some TComma
  else if eqc c ":" then Some TColon
  else None.

(** The tokens of a text, left to right.  [skip] counts the characters
    still to pass over because the token before took them.  A text the
    scanner cannot read on ends in [TBad]. *)
Fixpoint tokenize (skip : nat) (s : list ascii) : list token :=
  match s with
  | [] => []
  | c :: r =>
      match skip with
      | S k => tokenize k r
      | O =>
          if json_ws c then tokenize 0 r
          else
            match punct c with
            | Some t => t :: tokenize 0 r
            | None =>
                if eqc c dquote then
                  match scan_string r [] 0 with
                  | (TBad, _) => [TBad]
                  | (t, n) => t :: tokenize n r
                  end
                else
                  match scan_atom s with
                  | Some (t, n) => t :: tokenize (n - 1) r
                  | None => [TBad]
                  end
            end
      end
  end.

(** *** Syntactic level

    The decoder descends into arrays and objects recursively; here the
    pending containers are kept on an explicit stack, innermost first, and
    the tokens are consumed one by one.  The first token that cannot be
    accepted decides the exception, as in the decoder, which reads the text
    left to right and stops at the first error. *)

Inductive frame : Type :=
| FList (items : list json)                       (* reversed *)
| FDict (pairs : list (ustr * json))              (* reversed *)
| FKey (pairs : list (ustr * json)) (key : ustr). (* a key waits for its value *)

Inductive expect : Type :=
| Value            (* a value *)
| ValueOrClose     (* just after [, a value or ] *)
| KeyOrClose       (* just after {, a key or } *)
| Key              (* after a comma in an object *)
| Colon
| CommaOrClose     (* after an element or a pair *)
| End (v : json).  (* the document is complete *)

(** The text of a decode error is indicative: the decoder says what it
    expected and adds the position, which no handler of the orchestrator
    reads. *)
Definition decode_error : exn := Exn JSONDecodeError "Expecting value".

(** [int(lexeme)] refused: the text names the number of digits of the
    lexeme, its sign apart. *)
Definition digits_error (digits : nat) : exn :=
  Exn ValueError
    ("Exceeds the limit (4300 digits) for integer string conversion: value has " ++
     NilEmpty.string_of_uint (Nat.to_uint digits) ++
     " digits; use sys.set_int_max_str_digits() to increase the limit").

(** The scanner gives up on entering one container too many; the text
    names its kind, "array" or "object". *)
Definition depth_error (container : string) : exn :=
  Exn RecursionError
    ("maximum recursion depth exceeded while decoding a JSON " ++ container ++
     " from a unicode string").

(** [sys.get_int_max_str_digits()], the interpreter's default. *)
Definition max_str_digits : nat := 4300.

(** [sys.getrecursionlimit()], the interpreter's default.  The frames of
    the callers count against it as well, so the decoder gives up a few
    levels earlier than this figure; the only text below that reaches the
    limit is nested a hundred times deeper. *)
Definition recursion_limit : nat := 1000.

Definition digit_value (c : ascii) : Z := Z.of_N (Py.code c - 48).

(** [int(lexeme)] for a lexeme of [NUMBER_RE] without fraction or exponent. *)
Definition int_of (negative : bool) (digits : list ascii) : Z :=
  let n := fold_left (fun acc c => acc * 10 + digit_value c)%Z digits 0%Z in
  if negative then (- n)%Z else n.

(** A value is complete: it goes to the container that waits for it. *)
Definition deliver (v : json) (st : list frame) : outcome (expect * list frame) :=
  match st with
  | [] => Return (End v, [])
  | FList items :: st' => Return (CommaOrClose, FList (v :: items) :: st')
  | FKey pairs k :: st' => Return (CommaOrClose, FDict ((k, v) :: pairs) :: st')
  | FDict _ :: _ => Raise decode_error
  end.

Definition container_kind (f : frame) : string :=
  match f with
  | FList _ => "array"
  | FDict _ | FKey _ _ => "object"
  end.

Definition open_container (f : frame) (e : expect) (st : list frame)
  : outcome (expect * list frame) :=
  if (recursion_limit <=? List.length st)%nat then Raise (depth_error (container_kind f))
  else Return (e, f :: st).

Definition step (t : token) (e : expect) (st : list frame)
  : outcome (expect * list frame) :=
  match e with
  | End _ => Raise decode_error
  | Value | ValueOrClose =>
      match t with
      | TLBracket => open_container (FList []) ValueOrClose st
      | TLBrace => open_container (FDict []) KeyOrClose st
      | TString s => deliver (JStr s) st
      | TInt neg ds =>
          if (max_str_digits <? List.length ds)%nat
          then Raise (digits_error (List.length ds))
          else deliver (JInt (int_of neg ds)) st
      | TFloat l => deliver (JFloat l) st
      | TConst v => deliver v st
      | TRBracket =>
          match e, st with
          | ValueOrClose, FList items :: st' => deliver (JList (rev items)) st'
          | _, _ => Raise decode_error
          end
      | _ => Raise decode_error
      end
  | KeyOrClose | Key =>
      match t with
      | TString k =>
          match st with
          | FDict pairs :: st' => Return (Colon, FKey pairs k :: st')
          | _ => Raise decode_error
          end
      | TRBrace =>
          match e, st with
          | KeyOrClose, FDict pairs :: st' =>
              deliver (JDict (dict_of_pairs (rev pairs))) st'
          | _, _ => Raise decode_error
          end
      | _ => Raise decode_error
      end
  | Colon =>
      match t with
      | TColon => Return (Value, st)
      | _ => Raise decode_error
      end
  | CommaOrClose =>
      match t, st with
      | TComma, FList _ :: _ => Return (Value, st)
      | TComma, FDict _ :: _ => Return (Key, st)
      | TRBracket, FList items :: st' => deliver (JList (rev items)) st'
      | TRBrace, FDict pairs :: st' =>
          deliver (JDict (dict_of_pairs (rev pairs))) st'
      | _, _ => Raise decode_error
      end
  end.

Fixpoint run (ts : list token) (e : expect) (st : list frame) : outcome json :=
  match ts with
  | [] =>
      match e with
      | End v => Return v
      | _ => Raise decode_error
      end
  | t :: ts' =>
      match step t e st with
      | Return (e', st') => run ts' e' st'
      | Raise x => Raise x
      end
  end.

(** [json.loads(s)] for a [str] argument *)
Definition loads (s : string) : outcome json :=
  run (tokenize 0 (list_ascii_of_string s)) Value [].

(** *** [json.dumps] of a list of [str], as [generate_forecast] uses it

    The default encoder: items separated by a comma and a space, every
    string between quotes with [ESCAPE_ASCII] applied. *)

Definition hex_digit (n : N) : ascii :=
  if (n <? 10)%N then ascii_of_N (48 + n) else ascii_of_N (87 + n).

Definition escape_char (c : ascii) : string :=
  if eqc c dquote then String backslash (String dquote "")
  else if eqc c backslash then String backslash (String backslash "")
  else if Py.between 32 126 c then String c ""
  else if eqc c "010" then String backslash "n"
  else if eqc c "013" then String backslash "r"
  else if eqc c "009" then String backslash "t"
  else if eqc c "008" then String backslash "b"
  else if eqc c "012" then String backslash "f"
  else String backslash
         ("u00" ++ String (hex_digit (Py.code c / 16)) (String (hex_digit (Py.code c mod 16)) "")).

Fixpoint escape (s : string) : string :=
  match s with
  | EmptyString => EmptyString
  | String c r => escape_char c ++ escape r
  end.

Definition dumps_str (s : string) : string := Py.dq ++ escape s ++ Py.dq.

Definition dumps_strs (l : list string) : string :=
  "[" ++ Py.join ", " (map dumps_str l) ++ "]".

End Json.

(** ** [ForecastOrchestrator] *)

Module Orchestrator.

Import Json.

(** String constants of the source that contain double quotes are written
    here with apostrophes and passed through [sq], which turns every
    apostrophe into a double quote.  None of those constants contains an
    apostrophe of its own. *)
Fixpoint sq (s : string) : string :=
  match s with
  | EmptyString => EmptyString
  | String c r => String (if Ascii.eqb c "'" then dquote else c) (sq r)
  end.

Definition jstr (s : string) : json := JStr (ustr_of s).
Definition key (s : string) : ustr := ustr_of s.

(** *** [_extract_transcript_query] *)

Definition _extract_transcript_query (task : string) : string :=
  let task_lower := Py.lower task in
  if Py.contains "ai" task_lower || Py.contains "artificial intelligence" task_lower then
    "What is management's outlook on AI and digital transformation?"
  else if Py.contains "outlook" task_lower || Py.contains "forecast" task_lower then
    "What is management's forward-looking guidance and outlook?"
  else if Py.contains "risk" task_lower then
    "What risks and challenges did management discuss?"
  else
    "What are the key themes and strategic focus areas discussed by management?".

(** *** [_extract_json] *)

Module PatternNotation.
Infix ";;" := Re.Cat (at level 61, right associativity).
End PatternNotation.

Import Re PatternNotation.

(** The three patterns, in the order of the source:
    - a fence opened by three backquotes and [json], white space, group 1
      (an opening brace, any characters, as few as possible, a closing
      brace), white space, three backquotes;
    - the same without [json];
    - group 1 alone: an opening brace, characters other than braces, any
      number of (brace-free text between one pair of braces, brace-free
      text), a closing brace. *)
Definition json_patterns : list regex :=
  [ Lit "```json" ;; Star Space ;;
      Group (Lit "{" ;; LazyStar AnyChar ;; Lit "}") ;;
      Star Space ;; Lit "```";
    Lit "```" ;; Star Space ;;
      Group (Lit "{" ;; LazyStar AnyChar ;; Lit "}") ;;
      Star Space ;; Lit "```";
    Group (Lit "{" ;; Star (NoneOf "{}") ;;
           Star (Lit "{" ;; Star (NoneOf "{}") ;; Lit "}" ;; Star (NoneOf "{}")) ;;
           Lit "}") ].

(** The record returned when nothing could be parsed. *)
Definition fallback (text : string) : json :=
  JDict
    [ (key "summary", jstr "Analysis completed. Check logs for full details.");
      (key "financial_trends",
       JList
         [ JDict
             [ (key "metric", jstr "General Analysis");
               (key "trend", jstr "stable");
               (key "percentage_change", JFloat "0.0");
               (key "analysis",
                jstr (if (200 <? Py.len text)%Z then Py.slice text 0 200 else text)) ] ]);
      (key "management_outlook",
       JDict
         [ (key "sentiment", jstr "neutral");
           (key "key_statements", JList [jstr "See raw output for details"]);
           (key "strategic_focus", JList [jstr "Multiple areas"]) ]);
      (key "risks_and_opportunities",
       JList
         [ JDict
             [ (key "type", jstr "opportunity");
               (key "description", jstr "Analysis in progress");
               (key "potential_impact", jstr "medium") ] ]);
      (key "quarterly_forecast",
       jstr (if (500 <? Py.len text)%Z then Py.slice text 0 500 else text));
      (key "confidence_level", jstr "medium");
      (key "data_sources_used", JList [jstr "analysis_tools"]) ].

(** [json.loads(match.group(1))]; a group that took no part is [None], on
    which [json.loads] raises [TypeError]. *)
Definition loads_group (m : match_object) : outcome json :=
  match group1 m with
  | Some span => loads span
  | None => Raise (Exn TypeError "the JSON object must be str, bytes or bytearray, not NoneType")
  end.

(** The [for pattern in json_patterns] loop: [Some v] when an iteration
    returns [v], [None] when the loop runs to its end.  The bare [except]
    of the loop body swallows every exception. *)
Fixpoint try_patterns (patterns : list regex) (text : string) : option json :=
  match patterns with
  | [] => None
  | pattern :: rest =>
      match search pattern text with
      | Some m =>
          match loads_group m with
          | Return v => Some v
          | Raise _ => try_patterns rest text
          end
      | None => try_patterns rest text
      end
  end.

(** The last resort: the span from the first opening brace to the last
    closing one.  Again every exception is swallowed. *)
Definition try_outer_braces (text : string) : option json :=
  let start := Py.find "{" text in
  let end_ := Py.rfind "}" text in
  if negb (start =? -1)%Z && negb (end_ =? -1)%Z then
    match loads (Py.slice text start (end_ + 1)) with
    | Return v => Some v
    | Raise _ => None
    end
  else None.

Definition _extract_json (text : string) : outcome json :=
  match loads (Py.strip text) with
  | Return v => Return v
  | Raise e =>
      if is_JSONDecodeError e then
        match try_patterns json_patterns text with
        | Some v => Return v
        | None =>
            match try_outer_braces text with
            | Some v => Return v
            | None => Return (fallback text)
            end
        end
      else Raise e
  end.

(** *** The shape of a forecast record

    [ForecastOutput] of [src/app/models.py] and the models it nests: which
    fields there are and what kind of value each holds. *)

Definition is_str (v : json) : bool :=
  match v with JStr _ => true | _ => false end.

Definition is_list_of (check : json -> bool) (v : json) : bool :=
  match v with JList l => forallb check l | _ => false end.

(** [Optional[float]]: a number or [None]. *)
Definition is_optional_float (v : json) : bool :=
  match v with JNull | JInt _ | JFloat _ => true | _ => false end.

Definition field (name : string) (check : json -> bool) (d : list (ustr * json)) : bool :=
  match dict_get (key name) d with
  | Some v => check v
  | None => false
  end.

(** A field with a default may be left out. *)
Definition optional_field (name : string) (check : json -> bool) (d : list (ustr * json)) : bool :=
  match dict_get (key name) d with
  | Some v => check v
  | None => true
  end.

Definition is_FinancialTrend (v : json) : bool :=
  match v with
  | JDict d =>
      field "metric" is_str d && field "trend" is_str d &&
      optional_field "percentage_change" is_optional_float d &&
      field "analysis" is_str d
  | _ => false
  end.

Definition is_ManagementOutlook (v : json) : bool :=
  match v with
  | JDict d =>
      field "sentiment" is_str d &&
      field "key_statements" (is_list_of is_str) d &&
      field "strategic_focus" (is_list_of is_str) d
  | _ => false
  end.

Definition is_RiskOpportunity (v : json) : bool :=
  match v with
  | JDict d =>
      field "type" is_str d && field "description" is_str d &&
      field "potential_impact" is_str d
  | _ => false
  end.

Definition is_ForecastOutput (v : json) : bool :=
  match v with
  | JDict d =>
      field "summary" is_str d &&
      field "financial_trends" (is_list_of is_FinancialTrend) d &&
      field "management_outlook" is_ManagementOutlook d &&
      field "risks_and_opportunities" (is_list_of is_RiskOpportunity) d &&
      field "quarterly_forecast" is_str d &&
      field "confidence_level" is_str d &&
      field "data_sources_used" (is_list_of is_str) d
  | _ => false
  end.

Definition required_fields : list string :=
  [ "summary"; "financial_trends"; "management_outlook";
    "risks_and_opportunities"; "quarterly_forecast"; "confidence_level";
    "data_sources_used" ].

(** The value is a dict and none of the seven fields is missing. *)
Definition has_required_fields (v : json) : bool :=
  match v with
  | JDict d =>
      forallb (fun name => match dict_get (key name) d with
                           | Some _ => true
                           | None => false
                           end) required_fields
  | _ => false
  end.

(** *** [generate_forecast]

    The method works on two local lists, calls four collaborators and may
    raise.  It is written in a monad that threads the two lists and the
    record of the calls made so far, and in which an exception leaves the
    state as it was when it was raised. *)

Inductive call : Type :=
| call_extract_financial_data (file_path : string)
| call_analyze_transcripts (query : string)
| call_fetch_market_data (symbol : string)
| call_llm_invoke (prompt : string).

Record state : Type := State {
  var_tools_used : list string;
  var_tool_outputs : list string;
  calls : list call
}.

Definition M (A : Type) : Type := state -> outcome A * state.

Definition ret {A : Type} (v : A) : M A := fun st => (Return v, st).

Definition raise {A : Type} (e : exn) : M A := fun st => (Raise e, st).

Definition bind {A B : Type} (m : M A) (k : A -> M B) : M B :=
  fun st =>
    match m st with
    | (Return v, st') => k v st'
    | (Raise e, st') => (Raise e, st')
    end.

(** [try: body / except Exception as e: handler] *)
Definition try_except {A : Type} (body : M A) (handler : exn -> M A) : M A :=
  fun st =>
    match body st with
    | (Return v, st') => (Return v, st')
    | (Raise e, st') => handler e st'
    end.

(** A call to a collaborator: it is recorded, and its outcome is the
    outcome of the step. *)
Definition invoke {A : Type} (c : call) (r : outcome A) : M A :=
  fun st =>
    (r, State (var_tools_used st) (var_tool_outputs st) (calls st ++ [c])).

Definition lift {A : Type} (r : outcome A) : M A := fun st => (r, st).

Definition assign_locals (used outputs : list string) : M unit :=
  fun st => (Return tt, State used outputs (calls st)).

Definition tool_outputs_append (s : string) : M unit :=
  fun st =>
    (Return tt, State (var_tools_used st) (var_tool_outputs st ++ [s]) (calls st)).

Definition tools_used_append (s : string) : M unit :=
  fun st =>
    (Return tt, State (var_tools_used st ++ [s]) (var_tool_outputs st) (calls st)).

Definition get_tools_used : M (list string) :=
  fun st => (Return (var_tools_used st), st).

Definition get_tool_outputs : M (list string) :=
  fun st => (Return (var_tool_outputs st), st).

Module MonadNotation.
Notation "'let*' x ':=' m 'in' k" := (bind m (fun x => k))
  (at level 10, x binder, m at level 100, k at level 200).
Notation "m '>>' k" := (bind m (fun _ => k))
  (at level 65, right associativity).
End MonadNotation.

Import MonadNotation.

(** What [llm.invoke] hands back: a message with a [content] attribute, or
    some other object, of which only the name of its type and
    [str(response)] show. *)
Inductive response : Type :=
| Message (content : string)
| Other (type_name str_ : string).

(** [response.content] *)
Definition content (r : response) : outcome string :=
  match r with
  | Message c => Return c
  | Other type_name _ =>
      Raise (Exn AttributeError
               ("'" ++ type_name ++ "' object has no attribute 'content'"))
  end.

(** The f-string of step 4.  The fixed lines are those of the source, each
    followed by a line break but the last. *)
Definition synthesis_prompt (task combined_data : string) (tools_used : list string) : string :=
  Py.join Py.newline
    [ "Based on the following data about TCS, generate a comprehensive forecast.";
      "";
      "Task: " ++ task;
      "";
      "Available Data:";
      combined_data;
      "";
      "Generate a forecast as a JSON object with this exact structure:";
      "{";
      sq "    'summary': '2-3 sentence executive summary',";
      sq "    'financial_trends': [";
      "        {";
      sq "            'metric': 'Revenue/Profit/Margin',";
      sq "            'trend': 'increasing/decreasing/stable',";
      sq "            'percentage_change': 5.2,";
      sq "            'analysis': 'Brief explanation'";
      "        }";
      "    ],";
      sq "    'management_outlook': {";
      sq "        'sentiment': 'positive/negative/neutral',";
      sq "        'key_statements': ['statement1', 'statement2'],";
      sq "        'strategic_focus': ['focus1', 'focus2']";
      "    },";
      sq "    'risks_and_opportunities': [";
      "        {";
      sq "            'type': 'risk' or 'opportunity',";
      sq "            'description': 'Clear description',";
      sq "            'potential_impact': 'high/medium/low'";
      "        }";
      "    ],";
      sq "    'quarterly_forecast': 'Detailed forecast for next quarter',";
      sq "    'confidence_level': 'high/medium/low',";
      sq "    'data_sources_used': " ++ dumps_strs tools_used;
      "}";
      "";
      "Return ONLY the JSON object, no other text." ].

(** The dict that [generate_forecast] returns. *)
Record forecast_result : Type := ForecastResult {
  forecast : json;
  tools_used : list string;
  raw_output : string
}.

(** The functions the module imports from [tools] and [utils]. *)
Record imports : Type := Imports {
  extract_financial_data : string -> outcome string;
  analyze_transcripts : string -> outcome string;
  fetch_market_data : string -> outcome string;
  get_provider_name : string
}.

(** The attributes of [self]; [llm_invoke] stands for [self.llm.invoke]. *)
Record ForecastOrchestrator : Type := Self {
  llm_invoke : string -> outcome response;
  reports_dir : string;
  transcripts_dir : string
}.

Definition generate_forecast (env : imports) (self : ForecastOrchestrator)
  (task : string) : M forecast_result :=
  try_except
    (assign_locals [] [] >>
     (* Step 1: Extract financial data *)
     try_except
       (let* financial_data :=
          invoke (call_extract_financial_data (reports_dir self))
                 (extract_financial_data env (reports_dir self)) in
        tool_outputs_append ("Financial Data:" ++ Py.newline ++ financial_data) >>
        tools_used_append "financial_data_extractor")
       (fun e =>
          tool_outputs_append ("Financial Data: Not available - " ++ exn_str e)) >>
     (* Step 2: Analyze transcripts *)
     try_except
       (let transcript_query := _extract_transcript_query task in
        let* transcript_analysis :=
          invoke (call_analyze_transcripts transcript_query)
                 (analyze_transcripts env transcript_query) in
        tool_outputs_append ("Transcript Analysis:" ++ Py.newline ++ transcript_analysis) >>
        tools_used_append "qualitative_analysis")
       (fun e =>
          tool_outputs_append ("Transcript Analysis: Not available - " ++ exn_str e)) >>
     (* Step 3: Get market data (optional) *)
     try_except
       (let* market_data :=
          invoke (call_fetch_market_data "TCS.NS") (fetch_market_data env "TCS.NS") in
        tool_outputs_append ("Market Data:" ++ Py.newline ++ market_data) >>
        tools_used_append "market_data")
       (fun e =>
          tool_outputs_append ("Market Data: Not available - " ++ exn_str e)) >>
     (* Step 4: Synthesize with LLM *)
     let* tool_outputs := get_tool_outputs in
     let* tools_used := get_tools_used in
     let combined_data := Py.join (Py.newline ++ Py.newline) tool_outputs in
     let synthesis := synthesis_prompt task combined_data tools_used in
     let* response := invoke (call_llm_invoke synthesis) (llm_invoke self synthesis) in
     let* output_text :=
       lift (if String.eqb (get_provider_name env) "openai" then content response
             else match response with
                  | Message c => Return c
                  | Other _ s => Return s
                  end) in
     let* forecast_json := lift (_extract_json output_text) in
     ret (ForecastResult forecast_json tools_used output_text))
    (fun e => raise e).

(** One call of the method, from a state in which nothing was called yet:
    what the caller gets, and the calls that were made. *)
Definition run_generate_forecast (env : imports) (self : ForecastOrchestrator)
  (task : string) : outcome forecast_result * list call :=
  let '(r, st) := generate_forecast env self task (State [] [] []) in (r, calls st).

End Orchestrator.

(** ** Vocabulary of the statements *)

Module Spec.

Import Json Orchestrator.

(** [kw] occurs in [task] up to letter case: some substring of [task] is
    [kw] once lowered. *)
Definition mentions (kw task : string) : Prop :=
  exists pre mid post, task = pre ++ mid ++ post /\ Py.lower mid = kw.

Definition ai_query : string :=
  "What is management's outlook on AI and digital transformation?".
Definition guidance_query : string :=
  "What is management's forward-looking guidance and outlook?".
Definition risk_query : string :=
  "What risks and challenges did management discuss?".
Definition generic_query : string :=
  "What are the key themes and strategic focus areas discussed by management?".

(** The first [n] characters of [s], all of [s] when it is shorter. *)
Definition first_chars (n : nat) (s : string) : string :=
  string_of_list_ascii (firstn n (list_ascii_of_string s)).

(** The character [c] occurs in [s]. *)
Definition occurs (c : ascii) (s : string) : Prop :=
  In c (list_ascii_of_string s).

Definition whitespace (s : string) : Prop :=
  Forall (fun c => Py.isspace c = true) (list_ascii_of_string s).

(** [v[name]] for a dict [v] *)
Definition field_of (name : string) (v : json) : option json :=
  match v with
  | JDict d => dict_get (key name) d
  | _ => None
  end.

(** The spans of [text] that the cascade may hand to [json.loads]: the
    trimmed text, group 1 of the leftmost match of a pattern, and the span
    between the outermost braces. *)
Definition candidate_span (text span : string) : Prop :=
  span = Py.strip text \/
  (exists p m, In p json_patterns /\ Re.search p text = Some m /\
               Re.group1 m = Some span) \/
  span = Py.slice text (Py.find "{" text) (Py.rfind "}" text + 1).

(** The whole-text parse fails the way its handler expects. *)
Definition decode_fails (r : outcome json) : bool :=
  match r with
  | Raise e => is_JSONDecodeError e
  | Return _ => false
  end.

Definition attempt_fails (r : outcome json) : bool :=
  match r with
  | Raise _ => true
  | Return _ => false
  end.

Definition pattern_attempt_fails (text : string) (p : Re.regex) : bool :=
  match Re.search p text with
  | None => true
  | Some m => attempt_fails (loads_group m)
  end.

Definition outer_attempt_fails (text : string) : bool :=
  (Py.find "{" text =? -1)%Z || (Py.rfind "}" text =? -1)%Z ||
  attempt_fails (loads (Py.slice text (Py.find "{" text) (Py.rfind "}" text + 1))).

(** Every parse attempt of the cascade fails on [text]. *)
Definition every_attempt_fails (text : string) : bool :=
  decode_fails (loads (Py.strip text)) &&
  forallb (pattern_attempt_fails text) json_patterns &&
  outer_attempt_fails text.

(** An integer literal of 4301 digits, and an array opened 100000 times. *)
Definition long_integer : string :=
  string_of_list_ascii (repeat "1"%char 4301).
Definition deep_array : string :=
  string_of_list_ascii (repeat "["%char (N.to_nat 100000)).

(** A forecast record, the text between the braces of its JSON form, and
    that form with white space around it. *)
Definition sample_record : json :=
  JDict
    [ (key "summary", jstr "ok");
      (key "financial_trends",
       JList [ JDict [ (key "metric", jstr "Revenue");
                       (key "trend", jstr "increasing");
                       (key "percentage_change", JFloat "5.2");
                       (key "analysis", jstr "up") ] ]);
      (key "management_outlook",
       JDict [ (key "sentiment", jstr "positive");
               (key "key_statements", JList [jstr "s1"; jstr "s2"]);
               (key "strategic_focus", JList [jstr "f1"]) ]);
      (key "risks_and_opportunities",
       JList [ JDict [ (key "type", jstr "risk");
                       (key "description", jstr "d");
                       (key "potential_impact", jstr "low") ] ]);
      (key "quarterly_forecast", jstr "growth");
      (key "confidence_level", jstr "high");
      (key "data_sources_used", JList [jstr "market_data"]) ].

Definition sample_body : string :=
  sq "'summary': 'ok', 'financial_trends': [{'metric': 'Revenue', 'trend': 'increasing', 'percentage_change': 5.2, 'analysis': 'up'}], " ++
  sq "'management_outlook': {'sentiment': 'positive', 'key_statements': ['s1', 's2'], 'strategic_focus': ['f1']}, " ++
  sq "'risks_and_opportunities': [{'type': 'risk', 'description': 'd', 'potential_impact': 'low'}], " ++
  sq "'quarterly_forecast': 'growth', 'confidence_level': 'high', 'data_sources_used': ['market_data']".

Definition sample_text : string :=
  Py.newline ++ "{" ++ sample_body ++ "}" ++ Py.newline.


(** What one tool step leaves in the context list: the labelled output of
    the adapter, or the labelled placeholder with the reason. *)
Definition context_block (label : string) (r : outcome string) : string :=
  match r with
  | Return data => label ++ ":" ++ Py.newline ++ data
  | Raise e => label ++ ": Not available - " ++ exn_str e
  end.

(** [part] is a piece of [text]. *)
Definition includes (part text : string) : Prop :=
  exists before after, text = before ++ part ++ after.

(** What one tool step adds to [tools_used]. *)
Definition used_if_ok (identifier : string) (r : outcome string) : list string :=
  match r with
  | Return _ => [identifier]
  | Raise _ => []
  end.

Definition expected_context (r1 r2 r3 : outcome string) : list string :=
  [ context_block "Financial Data" r1;
    context_block "Transcript Analysis" r2;
    context_block "Market Data" r3 ].

Definition expected_tools_used (r1 r2 r3 : outcome string) : list string :=
  (used_if_ok "financial_data_extractor" r1 ++
   used_if_ok "qualitative_analysis" r2 ++
   used_if_ok "market_data" r3)%list.

Definition expected_prompt (task : string) (r1 r2 r3 : outcome string) : string :=
  synthesis_prompt task
    (Py.join (Py.newline ++ Py.newline) (expected_context r1 r2 r3))
    (expected_tools_used r1 r2 r3).

(** The outcomes of the three adapters for a task. *)
Definition financial (env : imports) (self : ForecastOrchestrator) : outcome string :=
  extract_financial_data env (reports_dir self).
Definition transcripts (env : imports) (task : string) : outcome string :=
  analyze_transcripts env (_extract_transcript_query task).
Definition market (env : imports) : outcome string :=
  fetch_market_data env "TCS.NS".

(** The prompt the model is called with. *)
Definition prompt_of (env : imports) (self : ForecastOrchestrator) (task : string) : string :=
  expected_prompt task (financial env self) (transcripts env task) (market env).

(** [output_text] as step 4 reads it from the response. *)
Definition output_text_of (env : imports) (response : response) : outcome string :=
  if String.eqb (get_provider_name env) "openai" then content response
  else match response with
       | Message c => Return c
       | Other _ s => Return s
       end.

(** Collaborators for the examples: adapters that fail with a reason, one
    that answers, and a model that is down or answers with a refusal. *)
Definition failing_tool (reason : string) (_ : string) : outcome string :=
  Raise (Exn OtherError reason).
Definition working_tool (answer : string) (_ : string) : outcome string :=
  Return answer.
Definition model_down (_ : string) : outcome response :=
  Raise (Exn OtherError "connection refused").
Definition model_refuses (_ : string) : outcome response :=
  Return (Message "I cannot comply.").

Definition all_tools_fail : imports :=
  Imports (failing_tool "no reports found") (failing_tool "index not built")
    (failing_tool "network unreachable") "ollama".
Definition all_tools_work : imports :=
  Imports (working_tool "{}") (working_tool "{}") (working_tool "{}") "openai".
Definition orchestrator_with (llm : string -> outcome response) : ForecastOrchestrator :=
  Self llm "data/reports" "data/transcripts".



(** The two fenced patterns differ by their opening only. *)
Definition braces : Re.regex :=
  Re.Cat (Re.Lit "{") (Re.Cat (Re.LazyStar Re.AnyChar) (Re.Lit "}")).
Definition closing : Re.regex := Re.Cat (Re.Star Re.Space) (Re.Lit "```").
Definition fenced (opening : string) : Re.regex :=
  Re.Cat (Re.Lit opening) (Re.Cat (Re.Star Re.Space) (Re.Cat (Re.Group braces) closing)).

(** [s] without its prefix [p], when it starts with [p]. *)
Fixpoint after (p s : string) : option string :=
  match p, s with
  | EmptyString, _ => Some s
  | String a p', String b s' => if Ascii.eqb a b then after p' s' else None
  | String _ _, EmptyString => None
  end.





(** What [re.search] answers with at the end of a match. *)
Definition matched : Re.cont := fun _ g => Some (Re.MatchObject g).

(** A pattern that cannot match without the character [c]: [c] is in one
    of the literals it must go through. *)
Fixpoint requires (c : ascii) (r : Re.regex) : bool :=
  match r with
  | Re.Lit s => Re.mem c s
  | Re.Cat r1 r2 => requires c r1 || requires c r2
  | Re.Group r1 => requires c r1
  | _ => false
  end.

(** The text [s] is empty or starts with a character that is not white
    space. *)
Definition starts_without_space (s : list ascii) : Prop :=
  match s with
  | [] => True
  | c :: _ => Py.isspace c = false
  end.

(** [s'] is what is left of [s] after some prefix. *)
Definition suffix_of (s' s : list ascii) : Prop := exists p, s = (p ++ s')%list.

(** The last character of [s] is not white space. *)
Fixpoint ends_without_space (s : string) : Prop :=
  match s with
  | EmptyString => False
  | String c EmptyString => Py.isspace c = false
  | String _ r => ends_without_space r
  end.

End Spec.

(** ** Sequencing of calls that may raise *)

Module Try.

Definition and_then {A B : Type} (r : outcome A) (k : A -> outcome B) : outcome B :=
  match r with
  | Return v => k v
  | Raise e => Raise e
  end.

(** [try: body / except Exception as e: handler] without state *)
Definition catch {A : Type} (body : outcome A) (handler : exn -> outcome A) : outcome A :=
  match body with
  | Return v => Return v
  | Raise e => handler e
  end.

(** The results of a run of calls made from left to right: all of them, or
    the first exception. *)
Fixpoint sequence {A : Type} (l : list (outcome A)) : outcome (list A) :=
  match l with
  | [] => Return []
  | r :: rest =>
      match r with
      | Raise e => Raise e
      | Return v =>
          match sequence rest with
          | Raise e => Raise e
          | Return vs => Return (v :: vs)
          end
      end
  end.

(** A constructor call: the object, unless the constructor raises. *)
Definition construct {A : Type} (raises : option exn) (object : A) : outcome A :=
  match raises with
  | Some e => Raise e
  | None => Return object
  end.

Module Notations.
Notation "'let?' x ':=' m 'in' k" := (and_then m (fun x => k))
  (at level 10, x binder, m at level 100, k at level 200).
End Notations.

End Try.

(** ** [json.dumps]

    The encoder with its defaults ([ensure_ascii], [allow_nan], no sorting
    of keys), with or without [indent].  What it writes for a float is the
    interpreter's shortest representation of the float that was read, which
    is a parameter here, as the lexeme of a float is all this development
    keeps of it. *)

Module Encoder.

Import Json Try.

(** Four lower-case hexadecimal digits, as the format [04x] gives for a
    number below 65536. *)
Definition hex4_of (n : N) : string :=
  String (hex_digit (n / 4096))
    (String (hex_digit (n / 256 mod 16))
       (String (hex_digit (n / 16 mod 16))
          (String (hex_digit (n mod 16)) ""))).

Definition unicode_escape (n : N) : string :=
  String backslash (String "u" (hex4_of n)).

(** [replace] of [py_encode_basestring_ascii]: the entry of [ESCAPE_DCT],
    or the escape of the code point, a surrogate pair beyond the basic
    plane. *)
Definition replace (n : N) : string :=
  if (n =? 92)%N then String backslash (String backslash "")
  else if (n =? 34)%N then String backslash (String dquote "")
  else if (n =? 8)%N then String backslash "b"
  else if (n =? 12)%N then String backslash "f"
  else if (n =? 10)%N then String backslash "n"
  else if (n =? 13)%N then String backslash "r"
  else if (n =? 9)%N then String backslash "t"
  else if (n <? 65536)%N then unicode_escape n
  else
    let m := (n - 65536)%N in
    unicode_escape (N.lor 55296 (N.land (N.shiftr m 10) 1023)) ++
    unicode_escape (N.lor 56320 (N.land m 1023)).

(** [ESCAPE_ASCII] matches a backslash, a double quote and every character
    outside the range from space to tilde; the others are copied. *)
Definition escape_ascii (n : N) : string :=
  if ((n =? 92) || (n =? 34) || negb ((32 <=? n) && (n <=? 126)))%N
  then replace n
  else String (ascii_of_N n) "".

Definition py_encode_basestring_ascii (s : ustr) : string :=
  Py.dq ++ String.concat "" (map escape_ascii s) ++ Py.dq.

Definition conversion_error : exn :=
  Exn ValueError
    "Exceeds the limit (4300 digits) for integer string conversion; use sys.set_int_max_str_digits() to increase the limit".

(** The text is that of the compiled encoder, which runs when no indent
    is given.  With an indent the encoder is interpreted code, and the
    interpreter words the error by the call that reached the limit. *)
Definition depth_error : exn :=
  Exn RecursionError "maximum recursion depth exceeded while encoding a JSON object".

(** [int.__repr__]: the decimal digits, refused beyond the interpreter's
    limit on conversions. *)
Definition repr_int (z : Z) : outcome string :=
  let digits := NilEmpty.string_of_uint (N.to_uint (Z.abs_N z)) in
  if (max_str_digits <? String.length digits)%nat then Raise conversion_error
  else Return (NilZero.string_of_int (Z.to_int z)).

Definition spaces (n : nat) : string := string_of_list_ascii (repeat " "%char n).

(** The line break and the indentation of a nesting level, when an indent
    is asked for. *)
Definition newline_indent (indent : option nat) (level : nat) : string :=
  match indent with
  | Some width => Py.newline ++ spaces (width * level)
  | None => ""
  end.

(** The item separator is a comma and a space, and a bare comma when an
    indent is given; the key separator is a colon and a space. *)
Definition item_separator (indent : option nat) : string :=
  match indent with
  | Some _ => ","
  | None => ", "
  end.

Definition key_separator : string := ": ".

Definition container (opening closing : string) (indent : option nat) (level : nat)
  (chunks : list string) : string :=
  opening ++ newline_indent indent (S level) ++
  Py.join (item_separator indent ++ newline_indent indent (S level)) chunks ++
  newline_indent indent level ++ closing.

(** [_iterencode] with its chunks joined.  The encoder descends
    recursively and gives up at the interpreter's recursion limit, as the
    decoder does. *)
Fixpoint iterencode (floatstr : string -> string) (indent : option nat)
  (level : nat) (o : json) {struct o} : outcome string :=
  match o with
  | JStr s => Return (py_encode_basestring_ascii s)
  | JNull => Return "null"
  | JBool true => Return "true"
  | JBool false => Return "false"
  | JInt z => repr_int z
  | JFloat lexeme => Return (floatstr lexeme)
  | JList [] => Return "[]"
  | JList items =>
      if (recursion_limit <=? level)%nat then Raise depth_error
      else
        and_then
          (sequence (map (iterencode floatstr indent (S level)) items))
          (fun chunks => Return (container "[" "]" indent level chunks))
  | JDict [] => Return "{}"
  | JDict items =>
      if (recursion_limit <=? level)%nat then Raise depth_error
      else
        and_then
          (sequence
             (map (fun kv =>
                     and_then (iterencode floatstr indent (S level) (snd kv))
                       (fun chunk =>
                          Return (py_encode_basestring_ascii (fst kv) ++
                                  key_separator ++ chunk)))
                items))
          (fun chunks => Return (container "{" "}" indent level chunks))
  end.

(** [json.dumps(obj)] and [json.dumps(obj, indent=n)] *)
Definition dumps (floatstr : string -> string) (indent : option nat) (obj : json)
  : outcome string :=
  iterencode floatstr indent 0 obj.

End Encoder.

(** ** Operations of the interpreter on decoded values

    The methods and operators that the tools apply to what [json.loads] or
    [response.json()] gave them, with the exceptions of the interpreter and
    their messages ([IndexError] and [KeyError] are kept as [OtherError]
    with their text). *)

Module Value.

Import Json Orchestrator.

(** [type(v).__name__] *)
Definition type_name (v : json) : string :=
  match v with
  | JNull => "NoneType"
  | JBool _ => "bool"
  | JInt _ => "int"
  | JFloat _ => "float"
  | JStr _ => "str"
  | JList _ => "list"
  | JDict _ => "dict"
  end.

(** [v.get(name, default)]: only a dict has the method. *)
Definition get (v : json) (name : string) (default : json) : outcome json :=
  match v with
  | JDict d =>
      Return (match dict_get (key name) d with
              | Some x => x
              | None => default
              end)
  | _ =>
      Raise (Exn AttributeError
               ("'" ++ type_name v ++ "' object has no attribute 'get'"))
  end.

(** [v[0]] *)
Definition first_item (v : json) : outcome json :=
  match v with
  | JList (x :: _) => Return x
  | JList [] => Raise (Exn OtherError "list index out of range")
  | JStr (c :: _) => Return (JStr [c])
  | JStr [] => Raise (Exn OtherError "string index out of range")
  | JDict _ => Raise (Exn OtherError "0")
  | _ => Raise (Exn TypeError ("'" ++ type_name v ++ "' object is not subscriptable"))
  end.

(** [bool(v)]; whether a float is zero is the interpreter's business. *)
Definition truth (float_is_zero : string -> bool) (v : json) : bool :=
  match v with
  | JNull => false
  | JBool b => b
  | JInt z => negb (z =? 0)%Z
  | JFloat lexeme => negb (float_is_zero lexeme)
  | JStr s => match s with [] => false | _ :: _ => true end
  | JList l => match l with [] => false | _ :: _ => true end
  | JDict d => match d with [] => false | _ :: _ => true end
  end.

End Value.

(** ** What the tools find around them

    The packages the tools call ([pathlib], [langchain], [requests]) and the
    arithmetic of the interpreter on numbers: each a function of the
    arguments the source passes, which answers or raises.  An object of one
    of the packages is kept as the arguments it was built from. *)

Module World.

Import Json.

Record Document : Type := NewDocument {
  page_content : string;
  metadata : list (string * string)
}.

Record RecursiveCharacterTextSplitter : Type := NewSplitter {
  chunk_size : nat;
  chunk_overlap : nat;
  separators : list string
}.

(** A temperature is kept as the literal of the source. *)
Inductive llm : Type :=
| ChatOpenAI (model temperature : string) (api_key : option string)
| ChatOllama (base_url model temperature : string).

Inductive embeddings : Type :=
| OpenAIEmbeddings (api_key : option string)
| HuggingFaceEmbeddings (model_name : string).

Record Chroma : Type := NewChroma {
  documents : list Document;
  embedding : embeddings;
  collection_name : string
}.

(** A response of [requests]: [status_code] and what [json()] does. *)
Record Response : Type := NewResponse {
  status_code : Z;
  json_ : outcome json
}.

Record world : Type := World {
  (* numbers *)
  floatstr : string -> string;
  float_is_zero : string -> bool;
  sub : json -> json -> outcome json;
  truediv : json -> json -> outcome json;
  mul : json -> json -> outcome json;
  round_ : json -> Z -> outcome json;
  (* pathlib *)
  exists_ : string -> bool;
  is_dir : string -> bool;
  suffix : string -> string;
  glob : string -> string -> outcome (list string);
  (* document loaders and splitter *)
  splitter_raises : RecursiveCharacterTextSplitter -> option exn;
  PyPDFLoader_load : string -> outcome (list Document);
  TextLoader_load : string -> outcome (list Document);
  split_documents :
    RecursiveCharacterTextSplitter -> list Document -> outcome (list Document);
  (* models, embeddings, vector store, chains *)
  llm_raises : llm -> option exn;
  embeddings_raises : embeddings -> option exn;
  from_documents_raises : Chroma -> option exn;
  LLMChain_run : llm -> string -> outcome string;
  RetrievalQA_run : llm -> Chroma -> nat -> string -> outcome string;
  invoke_llm : llm -> string -> outcome Orchestrator.response;
  (* requests *)
  requests_get : string -> list (string * string) -> Z -> outcome Response
}.

End World.

(** ** [app/config.py]: the settings the provider reads *)

Module Config.

Record Settings : Type := NewSettings {
  openai_api_key : option string;
  ollama_base_url : string;
  ollama_model : string
}.

(** [bool(self.openai_api_key)]: a key that is given and not empty *)
Definition use_openai (self : Settings) : bool :=
  match openai_api_key self with
  | Some k => negb (String.eqb k "")
  | None => false
  end.

End Config.

(** ** [utils/llm_provider.py] *)

Module LlmProvider.

Import Try World Config.

Definition get_llm (w : world) (settings : Settings) (temperature : string)
  : outcome llm :=
  if use_openai settings then
    let model := ChatOpenAI "gpt-4o-mini" temperature (openai_api_key settings) in
    construct (llm_raises w model) model
  else
    let model :=
      ChatOllama (ollama_base_url settings) (ollama_model settings) temperature in
    construct (llm_raises w model) model.

Definition get_embeddings (w : world) (settings : Settings) : outcome embeddings :=
  if use_openai settings then
    let model := OpenAIEmbeddings (openai_api_key settings) in
    construct (embeddings_raises w model) model
  else
    let model := HuggingFaceEmbeddings "sentence-transformers/all-MiniLM-L6-v2" in
    construct (embeddings_raises w model) model.

Definition get_provider_name (settings : Settings) : string :=
  if use_openai settings then "openai" else "ollama".

End LlmProvider.

(** ** [utils/document_loader.py] *)

Module DocumentLoader.

Import Try Try.Notations World.

(** [self]: the splitter made by [__init__] *)
Record DocumentLoader : Type := Self {
  text_splitter : RecursiveCharacterTextSplitter
}.

Definition __init__ (w : world) (chunk_size chunk_overlap : nat)
  : outcome DocumentLoader :=
  let splitter :=
    NewSplitter chunk_size chunk_overlap [Py.newline ++ Py.newline; Py.newline; " "; ""] in
  let? text_splitter := construct (splitter_raises w splitter) splitter in
  Return (Self text_splitter).

Definition load_pdf (w : world) (self : DocumentLoader) (file_path : string)
  : list Document :=
  match (let? documents := PyPDFLoader_load w file_path in
         let? chunks := split_documents w (text_splitter self) documents in
         Return chunks) with
  | Return chunks => chunks
  | Raise _ => []
  end.

Definition load_text (w : world) (self : DocumentLoader) (file_path : string)
  : list Document :=
  match (let? documents := TextLoader_load w file_path in
         let? chunks := split_documents w (text_splitter self) documents in
         Return chunks) with
  | Return chunks => chunks
  | Raise _ => []
  end.

(** The loop of [load_directory] over the paths that [glob] gave. *)
Fixpoint load_files (w : world) (self : DocumentLoader) (file_extension : string)
  (paths : list string) (all_chunks : list Document) : list Document :=
  match paths with
  | [] => all_chunks
  | file_path :: rest =>
      let chunks :=
        if String.eqb file_extension ".pdf" then load_pdf w self file_path
        else load_text w self file_path in
      load_files w self file_extension rest (all_chunks ++ chunks)
  end.

Definition load_directory (w : world) (self : DocumentLoader)
  (directory_path file_extension : string) : outcome (list Document) :=
  let all_chunks := [] in
  if negb (exists_ w directory_path) then Return all_chunks
  else
    let? paths := glob w directory_path ("*" ++ file_extension) in
    Return (load_files w self file_extension paths all_chunks).

End DocumentLoader.

(** ** [tools/qualitative_analysis.py] *)

Module QualitativeAnalysis.

Import Json Orchestrator Try Try.Notations World Config LlmProvider.

(** The two globals of the module. *)
Record globals : Type := Globals {
  _vectorstore : option Chroma;
  _initialized : bool
}.

(** The body of the [try] of [initialize_vectorstore], up to the
    assignments: the store that was built, or [None]. *)
Definition build_vectorstore (w : world) (settings : Settings)
  (transcripts_dir : string) : outcome (option Chroma) :=
  if negb (exists_ w transcripts_dir) then Return None
  else
    let? document_loader := DocumentLoader.__init__ w 1000 150 in
    let? documents :=
      DocumentLoader.load_directory w document_loader transcripts_dir ".txt" in
    let? documents :=
      match documents with
      | [] => DocumentLoader.load_directory w document_loader transcripts_dir ".pdf"
      | _ :: _ => Return documents
      end in
    match documents with
    | [] => Return None
    | _ :: _ =>
        let? embeddings := get_embeddings w settings in
        let store := NewChroma documents embeddings "tcs_transcripts" in
        let? store := construct (from_documents_raises w store) store in
        Return (Some store)
    end.

(** The value returned, and the globals afterwards. *)
Definition initialize_vectorstore (w : world) (settings : Settings)
  (transcripts_dir : string) (g : globals) : option Chroma * globals :=
  if _initialized g then (_vectorstore g, g)
  else
    match build_vectorstore w settings transcripts_dir with
    | Return (Some store) => (Some store, Globals (Some store) true)
    | Return None => (None, g)
    | Raise _ => (None, g)
    end.

Definition enhanced_query (query : string) : string :=
  Py.join Py.newline
    [ "Based on the earnings call transcripts, answer this query:";
      query;
      "";
      "Provide:";
      "1. Direct quotes or paraphrased statements from management";
      "2. Overall sentiment (positive/negative/neutral)";
      "3. Key themes and strategic focus areas";
      "4. Any risks or opportunities mentioned";
      "";
      "Format as JSON." ].

(** The body of the [try] of [analyze_transcripts], the store being what
    [initialize_vectorstore] returned.  A vector store object is true in a
    condition: the class defines neither [__bool__] nor [__len__]. *)
Definition analyze (w : world) (settings : Settings) (query : string)
  (vectorstore : option Chroma) : outcome string :=
  match vectorstore with
  | None =>
      Encoder.dumps (floatstr w) None
        (JDict [ (key "error", jstr "No transcripts loaded");
                 (key "suggestion",
                  jstr "Add transcript files to data/transcripts/") ])
  | Some store =>
      let? llm := get_llm w settings "0.3" in
      let? result := RetrievalQA_run w llm store 4 (enhanced_query query) in
      catch
        (let? parsed := loads result in
         Encoder.dumps (floatstr w) (Some 2) parsed)
        (fun _ =>
           Encoder.dumps (floatstr w) (Some 2)
             (JDict [ (key "query", jstr query);
                      (key "analysis", jstr result);
                      (key "source", jstr "earnings_transcripts") ]))
  end.

Definition analyze_transcripts (w : world) (settings : Settings) (query : string)
  (g : globals) : outcome string * globals :=
  let '(vectorstore, g') := initialize_vectorstore w settings "data/transcripts" g in
  (catch (analyze w settings query vectorstore)
     (fun e =>
        Encoder.dumps (floatstr w) None (JDict [(key "error", jstr (exn_str e))])),
   g').

End QualitativeAnalysis.

(** ** [tools/financial_extractor.py] *)

Module FinancialExtractor.

Import Json Orchestrator Try Try.Notations World Config LlmProvider.

(** [EXTRACTION_PROMPT] with the report text filled in. *)
Definition EXTRACTION_PROMPT (report_text : string) : string :=
  Py.join Py.newline
    [ "You are a financial analyst expert. Extract key financial metrics from the provided quarterly report text.";
      "";
      "Report Text:";
      report_text;
      "";
      "Extract the following information and return ONLY a valid JSON object:";
      "{";
      sq "    'quarter': 'Q1/Q2/Q3/Q4',";
      sq "    'year': 2024,";
      sq "    'total_revenue': amount in crores,";
      sq "    'net_profit': amount in crores,";
      sq "    'operating_margin': percentage,";
      sq "    'revenue_growth': percentage compared to previous quarter or year,";
      sq "    'key_highlights': ['highlight1', 'highlight2', ...],";
      sq "    'segment_performance': {'segment_name': 'brief description'}";
      "}";
      "";
      "If any value is not found, use null. Be precise and extract only factual numbers mentioned in the report.";
      "";
      "JSON Output:" ].

(** The pattern of the second attempt: an opening brace, any characters,
    as many as possible, a closing brace.  The whole match is what
    [group()] gives; it is taken here as a group around the pattern. *)
Definition json_match_pattern : Re.regex :=
  Re.Group (Re.Cat (Re.Lit "{") (Re.Cat (Re.Star Re.AnyChar) (Re.Lit "}"))).

(** [match.group()] *)
Definition group (m : Re.match_object) : string :=
  match Re.group1 m with
  | Some s => s
  | None => ""
  end.

(** The choice of the loader by the kind of path. *)
Definition load_documents (w : world) (document_loader : DocumentLoader.DocumentLoader)
  (file_path : string) : outcome (list Document) :=
  if is_dir w file_path then
    DocumentLoader.load_directory w document_loader file_path ".pdf"
  else if String.eqb (suffix w file_path) ".pdf" then
    Return (DocumentLoader.load_pdf w document_loader file_path)
  else
    Return (DocumentLoader.load_text w document_loader file_path).

(** The inner [try] with its handler: what is made of the answer of the
    chain. *)
Definition parse_and_validate (w : world) (result : string) : outcome string :=
  match
    (let? parsed_result := loads (Py.strip result) in
     let? _ := Value.get parsed_result "quarter" (jstr "Unknown") in
     Encoder.dumps (floatstr w) (Some 2) parsed_result)
  with
  | Return s => Return s
  | Raise e =>
      if is_JSONDecodeError e then
        match Re.search json_match_pattern result with
        | Some json_match => Return (group json_match)
        | None =>
            Encoder.dumps (floatstr w) None
              (JDict [ (key "error", jstr "Failed to parse LLM output");
                       (key "raw", jstr result) ])
        end
      else Raise e
  end.

(** The body of the outer [try] of [extract_financial_data]. *)
Definition extract (w : world) (settings : Settings) (file_path : string)
  : outcome string :=
  let? llm := get_llm w settings "0.0" in
  let? document_loader := DocumentLoader.__init__ w 2000 200 in
  let? documents := load_documents w document_loader file_path in
  match documents with
  | [] =>
      Encoder.dumps (floatstr w) None
        (JDict [(key "error", jstr "No documents loaded")])
  | _ :: _ =>
      let combined_text :=
        Py.join (Py.newline ++ Py.newline)
          (map page_content (firstn 5 documents)) in
      let? result := LLMChain_run w llm (EXTRACTION_PROMPT combined_text) in
      parse_and_validate w result
  end.

Definition extract_financial_data (w : world) (settings : Settings)
  (file_path : string) : outcome string :=
  catch (extract w settings file_path)
    (fun e =>
       Encoder.dumps (floatstr w) None (JDict [(key "error", jstr (exn_str e))])).

End FinancialExtractor.

(** ** [tools/market_data.py] *)

Module MarketData.

Import Json Orchestrator Try Try.Notations World.

(** The body of the [try] of [fetch_market_data]. *)
Definition fetch (w : world) (symbol : string) : outcome string :=
  let url := "https://query1.finance.yahoo.com/v8/finance/chart/" ++ symbol in
  let params := [("interval", "1d"); ("range", "1mo")] in
  let? response := requests_get w url params 10 in
  if (status_code response =? 200)%Z then
    let? data := json_ response in
    (* Extract relevant information *)
    let? chart := Value.get data "chart" (JDict []) in
    let? results := Value.get chart "result" (JList [JDict []]) in
    let? result := Value.first_item results in
    let? meta := Value.get result "meta" (JDict []) in
    let? current_price := Value.get meta "regularMarketPrice" JNull in
    let? previous_close := Value.get meta "previousClose" JNull in
    let? currency := Value.get meta "currency" JNull in
    let? exchange := Value.get meta "exchangeName" JNull in
    let? timestamp := Value.get meta "regularMarketTime" JNull in
    let? low := Value.get meta "regularMarketDayLow" JNull in
    let? high := Value.get meta "regularMarketDayHigh" JNull in
    let market_data :=
      [ (key "symbol", jstr symbol);
        (key "current_price", current_price);
        (key "previous_close", previous_close);
        (key "currency", currency);
        (key "exchange", exchange);
        (key "timestamp", timestamp);
        (key "day_range", JDict [(key "low", low); (key "high", high)]) ] in
    (* Calculate change *)
    let? market_data :=
      if Value.truth (float_is_zero w) current_price &&
         Value.truth (float_is_zero w) previous_close then
        let? change := sub w current_price previous_close in
        let? ratio := truediv w change previous_close in
        let? change_percent := mul w ratio (JInt 100) in
        let? rounded_change := round_ w change 2 in
        let? rounded_percent := round_ w change_percent 2 in
        Return (dict_set (key "change_percent") rounded_percent
                  (dict_set (key "change") rounded_change market_data))
      else Return market_data in
    Encoder.dumps (floatstr w) (Some 2) (JDict market_data)
  else
    let? code := Encoder.repr_int (status_code response) in
    Encoder.dumps (floatstr w) None
      (JDict [ (key "error", jstr ("Failed to fetch data: " ++ code));
               (key "symbol", jstr symbol) ]).

Definition fetch_market_data (w : world) (symbol : string) : outcome string :=
  catch (fetch w symbol)
    (fun e =>
       Encoder.dumps (floatstr w) None
         (JDict [ (key "error", jstr (exn_str e));
                  (key "symbol", jstr symbol);
                  (key "note", jstr "Market data unavailable") ])).

End MarketData.

(** ** The orchestrator on top of the repository's own tools *)

Module Stack.

Import Orchestrator World Config.

(** [ForecastOrchestrator.__init__] *)
Definition __init__ (w : world) (settings : Settings)
  (reports_dir transcripts_dir : string) : outcome ForecastOrchestrator :=
  Try.and_then (LlmProvider.get_llm w settings "0.2")
    (fun llm => Return (Orchestrator.Self (invoke_llm w llm) reports_dir transcripts_dir)).

(** The names the orchestrator imports, bound to the functions of the
    repository; the transcript tool starts from the globals [g]. *)
Definition repository_imports (w : world) (settings : Settings)
  (g : QualitativeAnalysis.globals) : imports :=
  Imports
    (FinancialExtractor.extract_financial_data w settings)
    (fun query => fst (QualitativeAnalysis.analyze_transcripts w settings query g))
    (MarketData.fetch_market_data w)
    (LlmProvider.get_provider_name settings).

End Stack.


(** ** Vocabulary of the statements about the cascade and the tools *)

Module Terms.

Import Json Orchestrator Spec.

(** The third pattern of [json_patterns], in pieces. *)
Definition flat : Re.regex := Re.Star (Re.NoneOf "{}").
Definition nested : Re.regex :=
  Re.Cat (Re.Lit "{") (Re.Cat flat (Re.Cat (Re.Lit "}") flat)).
Definition balanced : Re.regex :=
  Re.Group (Re.Cat (Re.Lit "{")
              (Re.Cat flat (Re.Cat (Re.Star nested) (Re.Lit "}")))).

(** A text without braces. *)
Definition brace_free (s : list ascii) : Prop :=
  Forall (fun c => Re.mem c "{}" = false) s.

(** The text is empty or starts with a brace. *)
Definition starts_with_brace (s : list ascii) : Prop :=
  match s with
  | [] => True
  | c :: _ => Re.mem c "{}" = true
  end.

(** Inner objects one after the other, each followed by brace-free text:
    [(b, c)] stands for an opening brace, [b], a closing brace, [c]. *)
Fixpoint inner_objects (gs : list (string * string)) : string :=
  match gs with
  | [] => ""
  | (b, c) :: rest => "{" ++ b ++ "}" ++ c ++ inner_objects rest
  end.

Definition all_brace_free (gs : list (string * string)) : Prop :=
  Forall (fun bc => brace_free (list_ascii_of_string (fst bc)) /\
                    brace_free (list_ascii_of_string (snd bc))) gs.

(** No closing brace comes after an opening brace of [s]. *)
Definition unclosed (s : list ascii) : Prop :=
  forall p t, s = (p ++ "{"%char :: t)%list -> ~ In "}"%char t.

(** The tokens of the items of a list of strings, commas included. *)
Fixpoint items_tokens (l : list string) : list token :=
  match l with
  | [] => []
  | [s] => [TString (ustr_of s)]
  | s :: rest => TString (ustr_of s) :: TComma :: items_tokens rest
  end.

(** An object whose values are all strings, from its fields in order. *)
Definition flat_object (fields : list (string * string)) : json :=
  JDict (map (fun kv => (key (fst kv), jstr (snd kv))) fields).

(** One field as the encoder writes it, and the tokens of the fields. *)
Definition field_text (kv : string * string) : string :=
  dumps_str (fst kv) ++ ": " ++ dumps_str (snd kv).

Fixpoint fields_tokens (fields : list (string * string)) : list token :=
  match fields with
  | [] => []
  | [kv] => [TString (ustr_of (fst kv)); TColon; TString (ustr_of (snd kv))]
  | kv :: rest =>
      TString (ustr_of (fst kv)) :: TColon :: TString (ustr_of (snd kv)) ::
      TComma :: fields_tokens rest
  end.

(** No key of [keys] is [k]; no key occurs twice. *)
Definition fresh (k : ustr) (keys : list ustr) : bool :=
  forallb (fun k' => negb (ustr_eqb k' k)) keys.

Fixpoint distinct (keys : list ustr) : bool :=
  match keys with
  | [] => true
  | k :: rest => fresh k rest && distinct rest
  end.

(** A world for the examples: every file holds the chunks [chunks], the
    extraction chain answers [chain], the retrieval chain [qa] and the
    market service [net]; constructors succeed and numbers are never
    looked at. *)
Definition no_arithmetic (_ _ : json) : outcome json :=
  Raise (Exn TypeError "unsupported operand type(s)").

Definition sample_world (chunks : list World.Document)
  (chain qa : outcome string) (net : outcome World.Response) : World.world :=
  World.World
    (fun lexeme => lexeme) (fun _ => false)
    no_arithmetic no_arithmetic no_arithmetic (fun v _ => Return v)
    (fun _ => true) (fun _ => true) (fun _ => "")
    (fun _ _ => Return ["q1.txt"])
    (fun _ => None) (fun _ => Return chunks) (fun _ => Return chunks)
    (fun _ documents => Return documents)
    (fun _ => None) (fun _ => None) (fun _ => None)
    (fun _ _ => chain) (fun _ _ _ _ => qa)
    (fun _ _ => Return (Message ""))
    (fun _ _ _ => net).

Definition ollama_settings : Config.Settings :=
  Config.NewSettings None "http://localhost:11434" "gemma2:9b".

Definition openai_settings : Config.Settings :=
  Config.NewSettings (Some "sk-test") "http://localhost:11434" "gemma2:9b".

Definition one_chunk : list World.Document :=
  [World.NewDocument "Revenue grew 5% in Q1." []].

(** A directory of three transcripts, the second of which cannot be
    read. *)
Definition unreadable : exn := Exn OtherError "Error loading q2.txt".

Definition three_transcripts : World.world :=
  World.World
    (fun lexeme => lexeme) (fun _ => false)
    no_arithmetic no_arithmetic no_arithmetic (fun v _ => Return v)
    (fun _ => true) (fun _ => true) (fun _ => "")
    (fun _ _ => Return ["q1.txt"; "q2.txt"; "q3.txt"])
    (fun _ => None) (fun _ => Return one_chunk)
    (fun file_path =>
       if String.eqb file_path "q2.txt" then Raise unreadable
       else Return [World.NewDocument ("Transcript " ++ file_path) []])
    (fun _ documents => Return documents)
    (fun _ => None) (fun _ => None) (fun _ => None)
    (fun _ _ => Return "") (fun _ _ _ _ => Return "")
    (fun _ _ => Return (Message ""))
    (fun _ _ _ => Raise (Exn OtherError "offline")).

Definition no_globals : QualitativeAnalysis.globals :=
  QualitativeAnalysis.Globals None false.

(** The request that [fetch_market_data] makes for a symbol. *)
Definition chart_url (symbol : string) : string :=
  "https://query1.finance.yahoo.com/v8/finance/chart/" ++ symbol.

Definition chart_params : list (string * string) :=
  [("interval", "1d"); ("range", "1mo")].

(** The record of a symbol about which the service said nothing. *)
Definition empty_market_data (symbol : string) : json :=
  JDict [ (key "symbol", jstr symbol);
          (key "current_price", JNull);
          (key "previous_close", JNull);
          (key "currency", JNull);
          (key "exchange", JNull);
          (key "timestamp", JNull);
          (key "day_range", JDict [(key "low", JNull); (key "high", JNull)]) ].

(** The text of that record with an indent of two, around the symbol. *)
Definition empty_market_data_head : string :=
  "{" ++ Py.newline ++ sq "  'symbol': ".

Definition empty_market_data_tail : string :=
  Py.join Py.newline
    [ ",";
      sq "  'current_price': null,";
      sq "  'previous_close': null,";
      sq "  'currency': null,";
      sq "  'exchange': null,";
      sq "  'timestamp': null,";
      sq "  'day_range': {";
      sq "    'low': null,";
      sq "    'high': null";
      "  }";
      "}" ].

Definition is_dict (v : json) : bool :=
  match v with JDict _ => true | _ => false end.

(** The extraction chain was run for [file_path] and answered [result]:
    model and loader were built, some chunks were loaded, and the chain got
    the prompt with the first five of them. *)
Definition chain_answered (w : World.world) (settings : Config.Settings)
  (file_path result : string) : Prop :=
  exists llm document_loader documents,
    LlmProvider.get_llm w settings "0.0" = Return llm /\
    DocumentLoader.__init__ w 2000 200 = Return document_loader /\
    FinancialExtractor.load_documents w document_loader file_path = Return documents /\
    documents <> [] /\
    World.LLMChain_run w llm
      (FinancialExtractor.EXTRACTION_PROMPT
         (Py.join (Py.newline ++ Py.newline)
            (map World.page_content (firstn 5 documents)))) = Return result.

(** The retrieval chain was run for [query] from the globals [g] and
    answered [result]. *)
Definition retrieval_answered (w : World.world) (settings : Config.Settings)
  (query : string) (g : QualitativeAnalysis.globals) (result : string) : Prop :=
  exists store llm,
    fst (QualitativeAnalysis.initialize_vectorstore w settings "data/transcripts" g)
    = Some store /\
    LlmProvider.get_llm w settings "0.3" = Return llm /\
    World.RetrievalQA_run w llm store 4 (QualitativeAnalysis.enhanced_query query)
    = Return result.

(** The chunks of one file, as [load_directory] gets them. *)
Definition chunks_of (w : World.world) (self : DocumentLoader.DocumentLoader)
  (file_extension file_path : string) : list World.Document :=
  if String.eqb file_extension ".pdf" then DocumentLoader.load_pdf w self file_path
  else DocumentLoader.load_text w self file_path.

Definition is_ChatOpenAI (m : World.llm) : bool :=
  match m with World.ChatOpenAI _ _ _ => true | World.ChatOllama _ _ _ => false end.

Definition all_tools : list string :=
  ["financial_data_extractor"; "qualitative_analysis"; "market_data"].

(** *** Values that survive the encoder and the decoder *)

(** What may follow a number without being read as part of it. *)
Definition value_end (rest : list ascii) : bool :=
  match rest with
  | [] => true
  | c :: _ => negb (is_digit c || eqc c "." || eqc c "e" || eqc c "E")
  end.

(** A code point that the encoder writes and the decoder reads back as
    itself: any code point but a high surrogate, which the decoder would
    join with a low surrogate after it. *)
Definition plain_code (n : N) : bool :=
  (n <? 1114112)%N && negb (high_surrogate n).

Definition plain_ustr (s : ustr) : bool := forallb plain_code s.

(** The decimal digits of the absolute value of an integer. *)
Definition digits_of (z : Z) : string :=
  NilEmpty.string_of_uint (N.to_uint (Z.abs_N z)).

(** The nesting of containers. *)
Fixpoint depth (v : json) : nat :=
  match v with
  | JList l => S (list_max (map depth l))
  | JDict d => S (list_max (map (fun kv => depth (snd kv)) d))
  | _ => 0
  end.

(** No float, integers within the conversion limit, strings and keys of
    plain code points, and no key twice in a dict. *)
Fixpoint portable (v : json) : bool :=
  match v with
  | JNull | JBool _ => true
  | JInt z => (String.length (digits_of z) <=? max_str_digits)%nat
  | JFloat _ => false
  | JStr s => plain_ustr s
  | JList l => forallb portable l
  | JDict d =>
      forallb (fun kv => plain_ustr (fst kv) && portable (snd kv)) d &&
      distinct (map fst d)
  end.

(** Token runs with a comma between them. *)
Fixpoint separated (runs : list (list token)) : list token :=
  match runs with
  | [] => []
  | [r] => r
  | r :: rest => (r ++ TComma :: separated rest)%list
  end.

(** The tokens of a value. *)
Fixpoint tokens (v : json) : list token :=
  match v with
  | JNull => [TConst JNull]
  | JBool b => [TConst (JBool b)]
  | JInt z => [TInt (z <? 0)%Z (list_ascii_of_string (digits_of z))]
  | JFloat lexeme => [TFloat lexeme]
  | JStr s => [TString s]
  | JList l => (TLBracket :: separated (map tokens l) ++ [TRBracket])%list
  | JDict d =>
      (TLBrace ::
       separated (map (fun kv => TString (fst kv) :: TColon :: tokens (snd kv)) d) ++
       [TRBrace])%list
  end.

(** What the parser does when a value is complete: the container that
    waits for it takes it, and the remaining tokens are read. *)
Definition delivered (v : json) (ts : list token) (st : list frame) : outcome json :=
  match deliver v st with
  | Return (e, st') => run ts e st'
  | Raise x => Raise x
  end.

End Terms.

(** * Properties *)

Import Json Orchestrator Spec.

(** ** Strings *)

Lemma startswith_app (p r : string) : Py.startswith p (p ++ r) = true.
Proof.
  induction p as [|a p IH]; simpl; [reflexivity|].
  now rewrite Ascii.eqb_refl.
Qed.

Lemma startswith_inv (p s : string) :
  Py.startswith p s = true -> exists r, s = p ++ r.
Proof.
  revert s; induction p as [|a p IH]; intros s H; simpl in *.
  - now exists s.
  - destruct s as [|b s]; [discriminate|].
    apply andb_true_iff in H as [Hab Hps].
    apply Ascii.eqb_eq in Hab; subst b.
    destruct (IH _ Hps) as [r ->].
    now exists r.
Qed.

Lemma contains_startswith (sub s : string) :
  Py.startswith sub s = true -> Py.contains sub s = true.
Proof.
  intros H. destruct s; simpl; rewrite H; reflexivity.
Qed.

Lemma contains_intro (sub pre post : string) :
  Py.contains sub (pre ++ sub ++ post) = true.
Proof.
  induction pre as [|a pre IH].
  - change ("" ++ sub ++ post) with (sub ++ post).
    apply contains_startswith, startswith_app.
  - simpl. rewrite IH. apply orb_true_r.
Qed.

Lemma contains_inv (sub s : string) :
  Py.contains sub s = true -> exists pre post, s = pre ++ sub ++ post.
Proof.
  induction s as [|a s IH]; simpl; intros H.
  - rewrite orb_false_r in H.
    destruct (startswith_inv _ _ H) as [r Hr].
    exists "", r. exact Hr.
  - apply orb_true_iff in H as [H | H].
    + destruct (startswith_inv _ _ H) as [r Hr].
      exists "", r. exact Hr.
    + destruct (IH H) as (pre & post & ->).
      now exists (String a pre), post.
Qed.

Lemma append_assoc (a b c : string) : (a ++ b) ++ c = a ++ b ++ c.
Proof. induction a; simpl; congruence. Qed.

Lemma lower_app (a b : string) : Py.lower (a ++ b) = Py.lower a ++ Py.lower b.
Proof.
  induction a as [|c a IH]; simpl; [reflexivity | now rewrite IH].
Qed.

Lemma lower_split (s a b : string) :
  Py.lower s = a ++ b ->
  exists x y, s = x ++ y /\ Py.lower x = a /\ Py.lower y = b.
Proof.
  revert s; induction a as [|c a IH]; intros s H; simpl in H.
  - exists "", s. auto.
  - destruct s as [|d s]; [discriminate|].
    simpl in H. injection H as Hc Hs.
    destruct (IH _ Hs) as (x & y & -> & Hx & Hy).
    exists (String d x), y. simpl. now rewrite Hc, Hx.
Qed.

(** The test [kw in task.lower()] is the case-insensitive substring test. *)
Lemma contains_lower_mentions (kw task : string) :
  Py.contains kw (Py.lower task) = true <-> mentions kw task.
Proof.
  split.
  - intros H. apply contains_inv in H as (pre & post & H).
    apply lower_split in H as (x & y & -> & _ & Hy).
    apply lower_split in Hy as (mid & z & -> & Hmid & _).
    now exists x, mid, z.
  - intros (pre & mid & post & -> & <-).
    rewrite !lower_app. apply contains_intro.
Qed.

Lemma contains_lower_false (kw task : string) :
  ~ mentions kw task -> Py.contains kw (Py.lower task) = false.
Proof.
  intros H. destruct (Py.contains kw (Py.lower task)) eqn:E; [|reflexivity].
  now apply contains_lower_mentions in E.
Qed.

Lemma not_mentions (kw task : string) :
  Py.contains kw (Py.lower task) = false -> ~ mentions kw task.
Proof.
  intros E H. apply contains_lower_mentions in H. congruence.
Qed.

(** ** The transcript query selector *)

(** The selector as a decision list over the four keyword tests. *)
Lemma transcript_query_cases (task : string) :
  _extract_transcript_query task =
    if Py.contains "ai" (Py.lower task) ||
       Py.contains "artificial intelligence" (Py.lower task) then ai_query
    else if Py.contains "outlook" (Py.lower task) ||
            Py.contains "forecast" (Py.lower task) then guidance_query
    else if Py.contains "risk" (Py.lower task) then risk_query
    else generic_query.
Proof. reflexivity. Qed.

(** C7.  For every task the selector returns one of the four templates,
    chosen by case-insensitive substring tests in a fixed order: "ai" or
    "artificial intelligence" first, then "outlook" or "forecast", then
    "risk", else the generic template; the first rule that matches decides.
    The task "Analyze AI-driven growth outlook for TCS" mentions both "ai"
    and "outlook" and gets the AI template. *)
Theorem transcript_query_priority (task : string) :
  let q := _extract_transcript_query task in
  In q [ai_query; guidance_query; risk_query; generic_query] /\
  (mentions "ai" task \/ mentions "artificial intelligence" task ->
   q = ai_query) /\
  (~ mentions "ai" task -> ~ mentions "artificial intelligence" task ->
   mentions "outlook" task \/ mentions "forecast" task ->
   q = guidance_query) /\
  (~ mentions "ai" task -> ~ mentions "artificial intelligence" task ->
   ~ mentions "outlook" task -> ~ mentions "forecast" task ->
   mentions "risk" task ->
   q = risk_query) /\
  (~ mentions "ai" task -> ~ mentions "artificial intelligence" task ->
   ~ mentions "outlook" task -> ~ mentions "forecast" task ->
   ~ mentions "risk" task ->
   q = generic_query) /\
  (mentions "ai" "Analyze AI-driven growth outlook for TCS" /\
   mentions "outlook" "Analyze AI-driven growth outlook for TCS" /\
   _extract_transcript_query "Analyze AI-driven growth outlook for TCS" = ai_query).
Proof.
  intros q. subst q. rewrite transcript_query_cases.
  repeat split.
  - destruct (Py.contains "ai" _ || _); [simpl; tauto|].
    destruct (Py.contains "outlook" _ || _); [simpl; tauto|].
    destruct (Py.contains "risk" _); simpl; tauto.
  - intros [H | H]; apply contains_lower_mentions in H; rewrite H;
      [reflexivity | now rewrite orb_true_r].
  - intros Hai HAI [H | H]; apply contains_lower_mentions in H;
      rewrite (contains_lower_false _ _ Hai), (contains_lower_false _ _ HAI), H;
      [reflexivity | now rewrite orb_true_r].
  - intros Hai HAI Ho Hf H. apply contains_lower_mentions in H.
    now rewrite (contains_lower_false _ _ Hai), (contains_lower_false _ _ HAI),
      (contains_lower_false _ _ Ho), (contains_lower_false _ _ Hf), H.
  - intros Hai HAI Ho Hf Hr.
    now rewrite (contains_lower_false _ _ Hai), (contains_lower_false _ _ HAI),
      (contains_lower_false _ _ Ho), (contains_lower_false _ _ Hf),
      (contains_lower_false _ _ Hr).
  - now exists "Analyze ", "AI", "-driven growth outlook for TCS".
  - now exists "Analyze AI-driven growth ", "outlook", " for TCS".
Qed.

Lemma transcript_query_priority_witness :
  mentions "risk" "Key RISK factors" /\
  _extract_transcript_query "Key RISK factors" = risk_query.
Proof.
  assert (H : mentions "risk" "Key RISK factors")
    by now exists "Key ", "RISK", " factors".
  split; [exact H|].
  apply (transcript_query_priority "Key RISK factors");
    try (apply not_mentions; reflexivity); exact H.
Defined.

(** C8, as stated, fails: the task below mentions "outlook", and the
    selector answers with the AI template, not the guidance template. *)
Lemma outlook_query_counterexample :
  mentions "outlook" "Analyze AI-driven growth outlook for TCS" /\
  _extract_transcript_query "Analyze AI-driven growth outlook for TCS"
    <> guidance_query.
Proof.
  split.
  - now exists "Analyze AI-driven growth ", "outlook", " for TCS".
  - discriminate.
Qed.

(** C8, amended.  A task that mentions "outlook" and mentions neither "ai"
    nor "artificial intelligence" gets the guidance template verbatim. *)
Theorem outlook_query_without_ai (task : string) :
  mentions "outlook" task ->
  ~ mentions "ai" task ->
  ~ mentions "artificial intelligence" task ->
  _extract_transcript_query task =
    "What is management's forward-looking guidance and outlook?".
Proof.
  intros Ho Hai HAI. rewrite transcript_query_cases.
  apply contains_lower_mentions in Ho.
  now rewrite (contains_lower_false _ _ Hai), (contains_lower_false _ _ HAI), Ho.
Qed.

Lemma outlook_query_without_ai_witness :
  _extract_transcript_query "Give the Outlook for next quarter" =
    "What is management's forward-looking guidance and outlook?".
Proof.
  apply (outlook_query_without_ai "Give the Outlook for next quarter").
  - now exists "Give the ", "Outlook", " for next quarter".
  - apply not_mentions. reflexivity.
  - apply not_mentions. reflexivity.
Defined.

(** ** Output recovery *)

Lemma chars_length (s : string) :
  List.length (list_ascii_of_string s) = String.length s.
Proof. induction s; simpl; congruence. Qed.

Lemma chars_app (a b : string) :
  list_ascii_of_string (a ++ b) =
  (list_ascii_of_string a ++ list_ascii_of_string b)%list.
Proof. induction a; simpl; congruence. Qed.

Lemma substring_firstn (n : nat) (s : string) :
  substring 0 n s = first_chars n s.
Proof.
  unfold first_chars. revert n; induction s as [|c s IH]; intros [|n]; simpl;
    try reflexivity.
  now rewrite IH.
Qed.

Lemma first_chars_all (n : nat) (s : string) :
  (String.length s <= n)%nat -> first_chars n s = s.
Proof.
  unfold first_chars. intros H.
  rewrite firstn_all2.
  - apply string_of_list_ascii_of_string.
  - now rewrite chars_length.
Qed.

(** [text[:n] if len(text) > n else text] is the first [n] characters. *)
Lemma slice_or_all (n : nat) (text : string) :
  (if (Z.of_nat n <? Py.len text)%Z then Py.slice text 0 (Z.of_nat n) else text)
  = first_chars n text.
Proof.
  unfold Py.len. destruct (Z.ltb_spec (Z.of_nat n) (Z.of_nat (String.length text))) as [H | H].
  - unfold Py.slice, Py.adjust, Py.len.
    replace (0 <? 0)%Z with false by reflexivity.
    replace (Z.of_nat n <? 0)%Z with false by (symmetry; apply Z.ltb_ge; lia).
    rewrite Z.min_l by lia. rewrite Z.min_l by lia.
    rewrite Z.sub_0_r, Nat2Z.id. apply substring_firstn.
  - symmetry. apply first_chars_all. lia.
Qed.

Lemma try_patterns_none (text : string) (ps : list Re.regex) :
  try_patterns ps text = None <->
  forallb (pattern_attempt_fails text) ps = true.
Proof.
  induction ps as [|p ps IH]; simpl; [tauto|].
  unfold pattern_attempt_fails at 1.
  destruct (Re.search p text) as [m|]; simpl; [|exact IH].
  destruct (loads_group m); simpl; [|exact IH].
  split; discriminate.
Qed.

Lemma try_patterns_some (text : string) (ps : list Re.regex) (v : json) :
  try_patterns ps text = Some v ->
  exists p m span,
    In p ps /\ Re.search p text = Some m /\ Re.group1 m = Some span /\
    loads span = Return v.
Proof.
  induction ps as [|p ps IH]; simpl; [discriminate|].
  destruct (Re.search p text) as [m|] eqn:Es.
  - destruct (loads_group m) as [w|e] eqn:El.
    + intros [= ->]. unfold loads_group in El.
      destruct (Re.group1 m) as [span|] eqn:Eg; [|discriminate].
      exists p, m, span. auto.
    + intros H. destruct (IH H) as (q & m' & span & ? & ? & ? & ?).
      exists q, m', span. auto.
  - intros H. destruct (IH H) as (q & m' & span & ? & ? & ? & ?).
    exists q, m', span. auto.
Qed.

Lemma try_outer_braces_none (text : string) :
  try_outer_braces text = None <-> outer_attempt_fails text = true.
Proof.
  unfold try_outer_braces, outer_attempt_fails.
  destruct (Py.find "{" text =? -1)%Z; simpl; [tauto|].
  destruct (Py.rfind "}" text =? -1)%Z; simpl; [tauto|].
  destruct (loads _); simpl; split; auto; discriminate.
Qed.

Lemma try_outer_braces_some (text : string) (v : json) :
  try_outer_braces text = Some v ->
  loads (Py.slice text (Py.find "{" text) (Py.rfind "}" text + 1)) = Return v.
Proof.
  unfold try_outer_braces.
  destruct (negb _ && negb _); [|discriminate].
  destruct (loads _); [now intros [= ->] | discriminate].
Qed.

(** The fallback is a complete record, whatever the text. *)
Lemma fallback_valid (text : string) :
  has_required_fields (fallback text) = true /\
  is_ForecastOutput (fallback text) = true.
Proof. split; reflexivity. Qed.

(** The function raises only when the whole-text parse raises something
    else than a decode error. *)
Lemma extract_json_raises (text : string) (e : exn) :
  _extract_json text = Raise e <->
  loads (Py.strip text) = Raise e /\ is_JSONDecodeError e = false.
Proof.
  unfold _extract_json.
  destruct (loads (Py.strip text)) as [v|e0]; [split; [discriminate | intros [? _]; discriminate]|].
  destruct (is_JSONDecodeError e0) eqn:Ed.
  - destruct (try_patterns _ _); [|destruct (try_outer_braces _)];
      (split; [discriminate | intros [[= ->] ?]; congruence]).
  - split; [intros [= ->]; auto | now intros [[= ->] _]].
Qed.

(** When every attempt fails, the fallback is returned. *)
Lemma extract_json_fallback (text : string) :
  every_attempt_fails text = true ->
  _extract_json text = Return (fallback text).
Proof.
  unfold every_attempt_fails. intros H.
  apply andb_true_iff in H as [H Ho]. apply andb_true_iff in H as [Hd Hp].
  apply try_patterns_none in Hp. apply try_outer_braces_none in Ho.
  unfold _extract_json.
  destruct (loads (Py.strip text)) as [v|e]; [discriminate|].
  simpl in Hd. now rewrite Hd, Hp, Ho.
Qed.

(** C10.  When the trimmed text parses, the parsed value is returned as it
    is: nothing checks it against the record shape.  A parsed value that is
    not an object (a number, a string, an array, null) therefore comes out
    unchanged; it has none of the required fields and is not the fallback. *)
Theorem extract_json_returns_parsed_value (text : string) (v : json) :
  loads (Py.strip text) = Return v ->
  _extract_json text = Return v /\
  ((forall d, v <> JDict d) ->
   has_required_fields v = false /\ is_ForecastOutput v = false /\
   v <> fallback text).
Proof.
  intros H. split.
  - unfold _extract_json. now rewrite H.
  - intros Hd.
    destruct v as [ | b | z | l | s | l | d ];
      try (split; [reflexivity | split; [reflexivity | discriminate]]).
    now destruct (Hd d).
Qed.

Lemma extract_json_returns_parsed_value_witness :
  _extract_json " 42 " = Return (JInt 42) /\
  _extract_json (sq "'I cannot comply.'") = Return (jstr "I cannot comply.") /\
  _extract_json "[1, 2.5, true]" = Return (JList [JInt 1; JFloat "2.5"; JBool true]) /\
  _extract_json "null" = Return JNull /\
  has_required_fields (JInt 42) = false.
Proof.
  split; [|split; [|split; [|split]]].
  - apply (extract_json_returns_parsed_value " 42 "). reflexivity.
  - apply (extract_json_returns_parsed_value (sq "'I cannot comply.'")). reflexivity.
  - apply (extract_json_returns_parsed_value "[1, 2.5, true]"). reflexivity.
  - apply (extract_json_returns_parsed_value "null"). reflexivity.
  - apply (extract_json_returns_parsed_value " 42 " (JInt 42)); [reflexivity | discriminate].
Defined.

(** C1, as stated, fails: this text is valid JSON, so the parsed object is
    returned, and six of the seven required fields are missing from it. *)
Lemma extract_json_partial_record_counterexample :
  _extract_json (sq "{'summary': 'ok'}") = Return (JDict [(key "summary", jstr "ok")]) /\
  has_required_fields (JDict [(key "summary", jstr "ok")]) = false /\
  field_of "quarterly_forecast" (JDict [(key "summary", jstr "ok")]) = None.
Proof. repeat split; reflexivity. Qed.

(** C1, amended.  Whenever the function returns, the value is either the
    parsed value of one of the candidate spans of the text, handed back
    without any check of its shape, or, when every attempt failed, the
    fallback record, which has all seven required fields with values of the
    kinds the record model asks for. *)
Theorem extract_json_parsed_or_fallback (text : string) (v : json) :
  _extract_json text = Return v ->
  (exists span, candidate_span text span /\ loads span = Return v) \/
  (every_attempt_fails text = true /\ v = fallback text /\
   has_required_fields v = true /\ is_ForecastOutput v = true).
Proof.
  unfold _extract_json.
  destruct (loads (Py.strip text)) as [w|e] eqn:E0.
  - intros [= ->]. left. exists (Py.strip text). split; [now left | exact E0].
  - destruct (is_JSONDecodeError e) eqn:Ed; [|discriminate].
    destruct (try_patterns json_patterns text) as [w|] eqn:Ep.
    + intros [= ->]. left.
      apply try_patterns_some in Ep as (p & m & span & Hin & Hs & Hg & Hl).
      exists span. split; [|exact Hl]. right; left. now exists p, m.
    + destruct (try_outer_braces text) as [w|] eqn:Eo.
      * intros [= ->]. left. apply try_outer_braces_some in Eo.
        eexists. split; [|exact Eo]. now right; right.
      * intros [= <-]. right.
        apply try_patterns_none in Ep. apply try_outer_braces_none in Eo.
        unfold every_attempt_fails. rewrite E0, Ep, Eo. simpl. rewrite Ed.
        repeat split; reflexivity.
Qed.

Lemma extract_json_parsed_or_fallback_witness :
  (exists span, candidate_span "I cannot comply." span /\
                loads span = Return (fallback "I cannot comply.")) \/
  (every_attempt_fails "I cannot comply." = true /\
   fallback "I cannot comply." = fallback "I cannot comply." /\
   has_required_fields (fallback "I cannot comply.") = true /\
   is_ForecastOutput (fallback "I cannot comply.") = true).
Proof.
  apply (extract_json_parsed_or_fallback "I cannot comply.").
  reflexivity.
Defined.

Lemma field_present (name : string) (check : json -> bool) (d : list (ustr * json)) :
  field name check d = true ->
  match dict_get (key name) d with Some _ => true | None => false end = true.
Proof. unfold field. now destruct (dict_get (key name) d). Qed.

(** A value of the record shape has the seven required fields. *)
Lemma record_shape_has_required_fields (v : json) :
  is_ForecastOutput v = true -> has_required_fields v = true.
Proof.
  destruct v as [ | b | z | l | s | l | d ]; try discriminate.
  unfold is_ForecastOutput, has_required_fields, required_fields.
  intros H. repeat (apply andb_true_iff in H as [H ?]).
  cbn [forallb]. repeat (apply andb_true_iff; split);
    solve [eapply field_present; eassumption | reflexivity].
Qed.

(** C4.  A text whose trimmed form is valid JSON of the record shape comes
    back as exactly the structure it spells out: writing a record down and
    recovering it gives the record, complete, not the fallback. *)
Theorem extract_json_round_trip (text : string) (v : json) :
  loads (Py.strip text) = Return v ->
  is_ForecastOutput v = true ->
  _extract_json text = Return v /\ has_required_fields v = true.
Proof.
  intros H Hv. split.
  - unfold _extract_json. now rewrite H.
  - now apply record_shape_has_required_fields.
Qed.

Lemma extract_json_round_trip_witness :
  _extract_json sample_text = Return sample_record /\
  has_required_fields sample_record = true.
Proof.
  apply (extract_json_round_trip sample_text sample_record); reflexivity.
Defined.

(** C2 does not hold of the code.  The whole-text parse is guarded by
    [except json.JSONDecodeError] only, while an integer literal beyond the
    interpreter's digit limit makes [json.loads] raise a plain [ValueError],
    and an array nested too deep a [RecursionError]; both leave the
    function.  These are the only ways out: see [extract_json_raises]. *)
Theorem extract_json_raises_on_long_integer :
  _extract_json long_integer = Raise (digits_error 4301) /\
  is_JSONDecodeError (digits_error 4301) = false /\
  _extract_json deep_array = Raise (depth_error "array") /\
  is_JSONDecodeError (depth_error "array") = false.
Proof. vm_compute. repeat split. Qed.

(** X27.  When the whole-text parse fails with a decode error and every
    later attempt of the cascade fails, the function returns the fallback
    record: the fixed summary; one trend entry that is "stable" with change
    0.0 and the first 200 characters of the text as analysis; a "neutral"
    outlook; one entry of type "opportunity" and impact "medium"; the first
    500 characters of the text as quarterly forecast; confidence "medium";
    and the single source "analysis_tools". *)
Theorem fallback_when_every_attempt_fails (text : string) :
  every_attempt_fails text = true ->
  exists record trend outlook risk,
    _extract_json text = Return record /\
    field_of "summary" record =
      Some (jstr "Analysis completed. Check logs for full details.") /\
    field_of "financial_trends" record = Some (JList [trend]) /\
    field_of "trend" trend = Some (jstr "stable") /\
    field_of "percentage_change" trend = Some (JFloat "0.0") /\
    field_of "analysis" trend = Some (jstr (first_chars 200 text)) /\
    field_of "management_outlook" record = Some outlook /\
    field_of "sentiment" outlook = Some (jstr "neutral") /\
    field_of "risks_and_opportunities" record = Some (JList [risk]) /\
    field_of "type" risk = Some (jstr "opportunity") /\
    field_of "potential_impact" risk = Some (jstr "medium") /\
    field_of "quarterly_forecast" record = Some (jstr (first_chars 500 text)) /\
    field_of "confidence_level" record = Some (jstr "medium") /\
    field_of "data_sources_used" record = Some (JList [jstr "analysis_tools"]).
Proof.
  intros H. apply extract_json_fallback in H.
  pose proof (slice_or_all 200 text) as H200.
  pose proof (slice_or_all 500 text) as H500.
  change (Z.of_nat 200) with 200%Z in H200.
  change (Z.of_nat 500) with 500%Z in H500.
  eexists (fallback text), _, _, _. split; [exact H|].
  unfold fallback. rewrite H200, H500.
  repeat (split; [reflexivity|]). reflexivity.
Qed.

Lemma fallback_when_every_attempt_fails_witness :
  exists record trend outlook risk,
    _extract_json "I cannot comply." = Return record /\
    field_of "summary" record =
      Some (jstr "Analysis completed. Check logs for full details.") /\
    field_of "financial_trends" record = Some (JList [trend]) /\
    field_of "trend" trend = Some (jstr "stable") /\
    field_of "percentage_change" trend = Some (JFloat "0.0") /\
    field_of "analysis" trend = Some (jstr "I cannot comply.") /\
    field_of "management_outlook" record = Some outlook /\
    field_of "sentiment" outlook = Some (jstr "neutral") /\
    field_of "risks_and_opportunities" record = Some (JList [risk]) /\
    field_of "type" risk = Some (jstr "opportunity") /\
    field_of "potential_impact" risk = Some (jstr "medium") /\
    field_of "quarterly_forecast" record = Some (jstr "I cannot comply.") /\
    field_of "confidence_level" record = Some (jstr "medium") /\
    field_of "data_sources_used" record = Some (JList [jstr "analysis_tools"]).
Proof.
  apply (fallback_when_every_attempt_fails "I cannot comply.").
  reflexivity.
Defined.

(** ** The pipeline *)

(** What the model call and the recovery make of a prompt. *)
Lemma generate_forecast_unfold (env : imports) (self : ForecastOrchestrator)
  (task : string) (st0 : state) :
  generate_forecast env self task st0 =
  (match llm_invoke self (prompt_of env self task) with
   | Raise e => Raise e
   | Return response =>
       match output_text_of env response with
       | Raise e => Raise e
       | Return output_text =>
           match _extract_json output_text with
           | Raise e => Raise e
           | Return forecast_json =>
               Return (ForecastResult forecast_json
                         (expected_tools_used (financial env self)
                            (transcripts env task) (market env))
                         output_text)
           end
       end
   end,
   State
     (expected_tools_used (financial env self) (transcripts env task) (market env))
     (expected_context (financial env self) (transcripts env task) (market env))
     (calls st0 ++
      [ call_extract_financial_data (reports_dir self);
        call_analyze_transcripts (_extract_transcript_query task);
        call_fetch_market_data "TCS.NS";
        call_llm_invoke (prompt_of env self task) ])).
Proof.
  unfold generate_forecast, prompt_of, output_text_of,
    financial, transcripts, market, expected_prompt,
    expected_context, expected_tools_used, context_block, used_if_ok,
    try_except, bind, invoke, lift, ret, raise, assign_locals,
    tool_outputs_append, tools_used_append, get_tool_outputs, get_tools_used.
  cbn [var_tools_used var_tool_outputs calls].
  destruct (extract_financial_data env (reports_dir self)) as [d1|e1];
    destruct (analyze_transcripts env (_extract_transcript_query task)) as [d2|e2];
    destruct (fetch_market_data env "TCS.NS") as [d3|e3];
    cbn [var_tools_used var_tool_outputs calls app];
    rewrite <- !app_assoc; cbn [app];
    (destruct (llm_invoke self _) as [resp|e]; [|reflexivity]);
    (destruct (if String.eqb (get_provider_name env) "openai" then _ else _)
       as [output_text|e]; [|reflexivity]);
    (destruct (_extract_json output_text) as [v|e]; reflexivity).
Qed.

Lemma includes_refl (s : string) : includes s s.
Proof.
  exists "", "". cbn [append].
  induction s as [|c s IH]; cbn [append]; [reflexivity | now rewrite <- IH].
Qed.

Lemma includes_trans (a b c : string) : includes a b -> includes b c -> includes a c.
Proof.
  intros (p & q & ->) (p' & q' & ->). exists (p' ++ p), (q ++ q').
  now rewrite !append_assoc.
Qed.

Lemma includes_left (a b c : string) : includes a b -> includes a (b ++ c).
Proof.
  intros (p & q & ->). exists p, (q ++ c). now rewrite !append_assoc.
Qed.

Lemma includes_right (a b c : string) : includes a c -> includes a (b ++ c).
Proof.
  intros (p & q & ->). exists (b ++ p), q. now rewrite !append_assoc.
Qed.

(** Every part that is joined is a piece of the result. *)
Lemma includes_join (sep part : string) (parts : list string) :
  In part parts -> includes part (Py.join sep parts).
Proof.
  induction parts as [|p rest IH]; [intros []|].
  intros [-> | H].
  - destruct rest; cbn [Py.join]; [apply includes_refl|].
    apply includes_left, includes_refl.
  - destruct rest as [|p' rest']; [destruct H|].
    change (Py.join sep (p :: p' :: rest'))
      with (p ++ sep ++ Py.join sep (p' :: rest')).
    now apply includes_right, includes_right, IH.
Qed.

(** The data handed to the f-string of step 4 stand in the prompt, on the
    lines after "Available Data:". *)
Lemma synthesis_prompt_shows_data (task combined_data : string) (used : list string) :
  includes ("Available Data:" ++ Py.newline ++ combined_data ++ Py.newline)
    (synthesis_prompt task combined_data used).
Proof.
  unfold synthesis_prompt, includes.
  match goal with
  | |- context [Py.join _ (?l1 :: ?l2 :: ?l3 :: ?l4 :: ?l5 :: ?l6 :: ?rest)] =>
      exists (l1 ++ Py.newline ++ l2 ++ Py.newline ++ l3 ++ Py.newline ++ l4 ++ Py.newline),
             (Py.join Py.newline rest);
      change (Py.join Py.newline (l1 :: l2 :: l3 :: l4 :: l5 :: l6 :: rest))
        with (l1 ++ Py.newline ++ l2 ++ Py.newline ++ l3 ++ Py.newline ++ l4 ++
              Py.newline ++ l5 ++ Py.newline ++ l6 ++ Py.newline ++
              Py.join Py.newline rest)
  end.
  now rewrite !append_assoc.
Qed.

(** C3.  Whatever the three adapters do, the method runs all of its steps:
    a step whose adapter raises leaves the placeholder "<Label>: Not
    available - <reason>" in the context list and adds nothing to
    tools_used, and the next step follows.  The model is then called, and
    the text it is called with shows the three blocks of the context list,
    in their order with a blank line between them, on the lines after
    "Available Data:".  When all three adapters raise, the text the model
    is called with holds the three placeholders, and the tools_used that
    comes back is empty. *)
Theorem tool_failures_do_not_abort (env : imports) (self : ForecastOrchestrator)
  (task : string) (st0 : state) :
  let result := fst (generate_forecast env self task st0) in
  let final := snd (generate_forecast env self task st0) in
  var_tool_outputs final =
    [ context_block "Financial Data" (financial env self);
      context_block "Transcript Analysis" (transcripts env task);
      context_block "Market Data" (market env) ] /\
  var_tools_used final =
    (used_if_ok "financial_data_extractor" (financial env self) ++
     used_if_ok "qualitative_analysis" (transcripts env task) ++
     used_if_ok "market_data" (market env))%list /\
  (exists prompt,
     calls final =
       (calls st0 ++
        [ call_extract_financial_data (reports_dir self);
          call_analyze_transcripts (_extract_transcript_query task);
          call_fetch_market_data "TCS.NS";
          call_llm_invoke prompt ])%list /\
     prompt =
       synthesis_prompt task
         (Py.join (Py.newline ++ Py.newline) (var_tool_outputs final))
         (var_tools_used final) /\
     includes
       ("Available Data:" ++ Py.newline ++
        context_block "Financial Data" (financial env self) ++
        Py.newline ++ Py.newline ++
        context_block "Transcript Analysis" (transcripts env task) ++
        Py.newline ++ Py.newline ++
        context_block "Market Data" (market env) ++ Py.newline)
       prompt /\
     (forall block, In block (var_tool_outputs final) -> includes block prompt)) /\
  (forall r, result = Return r -> tools_used r = var_tools_used final) /\
  (forall label e,
     context_block label (Raise e) = label ++ ": Not available - " ++ exn_str e) /\
  (forall identifier e, used_if_ok identifier (Raise e) = []) /\
  (forall e1 e2 e3,
     financial env self = Raise e1 ->
     transcripts env task = Raise e2 ->
     market env = Raise e3 ->
     (exists prompt,
        In (call_llm_invoke prompt) (calls final) /\
        prompt =
          synthesis_prompt task
            ("Financial Data: Not available - " ++ exn_str e1 ++
             Py.newline ++ Py.newline ++
             "Transcript Analysis: Not available - " ++ exn_str e2 ++
             Py.newline ++ Py.newline ++
             "Market Data: Not available - " ++ exn_str e3)
            [] /\
        includes ("Financial Data: Not available - " ++ exn_str e1) prompt /\
        includes ("Transcript Analysis: Not available - " ++ exn_str e2) prompt /\
        includes ("Market Data: Not available - " ++ exn_str e3) prompt) /\
     var_tools_used final = [] /\
     (forall r, result = Return r -> tools_used r = [])).
Proof.
  intros result final. subst result final.
  rewrite generate_forecast_unfold. cbn [fst snd var_tool_outputs var_tools_used calls].
  assert (Hres : forall r,
    match llm_invoke self (prompt_of env self task) with
    | Return response =>
        match output_text_of env response with
        | Return output_text =>
            match _extract_json output_text with
            | Return forecast_json =>
                Return (ForecastResult forecast_json
                          (expected_tools_used (financial env self)
                             (transcripts env task) (market env)) output_text)
            | Raise e => Raise e
            end
        | Raise e => Raise e
        end
    | Raise e => Raise e
    end = Return r ->
    tools_used r =
    expected_tools_used (financial env self) (transcripts env task) (market env)).
  { intros r.
    destruct (llm_invoke self _) as [resp|e]; [|discriminate].
    destruct (output_text_of env resp) as [t|e]; [|discriminate].
    destruct (_extract_json t) as [v|e]; [|discriminate].
    now intros [= <-]. }
  assert (Hblocks : forall block,
    In block (expected_context (financial env self) (transcripts env task) (market env)) ->
    includes block (prompt_of env self task)).
  { intros block Hin. unfold prompt_of, expected_prompt.
    eapply includes_trans; [|apply synthesis_prompt_shows_data].
    apply includes_right, includes_right, includes_left.
    now apply includes_join. }
  split; [reflexivity|]. split; [reflexivity|].
  split.
  { exists (prompt_of env self task).
    split; [reflexivity|]. split; [reflexivity|]. split; [|exact Hblocks].
    unfold prompt_of, expected_prompt.
    eapply includes_trans; [|apply synthesis_prompt_shows_data].
    unfold expected_context. cbn [Py.join].
    rewrite !append_assoc. apply includes_refl. }
  split; [exact Hres|]. split; [reflexivity|]. split; [reflexivity|].
  intros e1 e2 e3 H1 H2 H3.
  assert (Hused : expected_tools_used (financial env self) (transcripts env task)
                    (market env) = []).
  { unfold expected_tools_used. now rewrite H1, H2, H3. }
  split; [|split; [exact Hused|]].
  - exists (prompt_of env self task).
    split; [apply in_or_app; right; do 3 right; now left|].
    assert (Hctx : expected_context (financial env self) (transcripts env task)
                     (market env) =
                   [ "Financial Data: Not available - " ++ exn_str e1;
                     "Transcript Analysis: Not available - " ++ exn_str e2;
                     "Market Data: Not available - " ++ exn_str e3 ]).
    { unfold expected_context. now rewrite H1, H2, H3. }
    split.
    + unfold prompt_of, expected_prompt. rewrite Hused, Hctx. reflexivity.
    + rewrite Hctx in Hblocks.
      repeat split; apply Hblocks; cbn [In]; auto.
  - intros r Hr. rewrite (Hres r Hr). exact Hused.
Qed.

Lemma tool_failures_do_not_abort_witness :
  let final :=
    snd (generate_forecast all_tools_fail (orchestrator_with model_refuses)
           "Forecast Q4" (State [] [] [])) in
  (exists prompt,
     In (call_llm_invoke prompt) (calls final) /\
     prompt =
       synthesis_prompt "Forecast Q4"
         ("Financial Data: Not available - no reports found" ++
          Py.newline ++ Py.newline ++
          "Transcript Analysis: Not available - index not built" ++
          Py.newline ++ Py.newline ++
          "Market Data: Not available - network unreachable")
         [] /\
     includes "Financial Data: Not available - no reports found" prompt /\
     includes "Transcript Analysis: Not available - index not built" prompt /\
     includes "Market Data: Not available - network unreachable" prompt) /\
  var_tools_used final = [].
Proof.
  pose proof (tool_failures_do_not_abort all_tools_fail
                (orchestrator_with model_refuses) "Forecast Q4" (State [] [] []))
    as H.
  destruct H as (_ & _ & _ & _ & _ & _ & H).
  destruct (H (Exn OtherError "no reports found") (Exn OtherError "index not built")
              (Exn OtherError "network unreachable") eq_refl eq_refl eq_refl)
    as (Hcall & Hused & _).
  split; [exact Hcall | exact Hused].
Defined.

(** C9.  An exception raised by the model call, or by what follows it
    (reading the response, recovering the record), reaches the caller as it
    is: the method returns nothing in that case.  The prompt itself is built
    by string formatting from values that are already strings, which cannot
    raise. *)
Theorem synthesis_failure_propagates (env : imports) (self : ForecastOrchestrator)
  (task : string) (st0 : state) (e : exn) :
  llm_invoke self (prompt_of env self task) = Raise e \/
  (exists response,
     llm_invoke self (prompt_of env self task) = Return response /\
     output_text_of env response = Raise e) \/
  (exists response output_text,
     llm_invoke self (prompt_of env self task) = Return response /\
     output_text_of env response = Return output_text /\
     _extract_json output_text = Raise e) ->
  fst (generate_forecast env self task st0) = Raise e /\
  fst (run_generate_forecast env self task) = Raise e.
Proof.
  intros H. unfold run_generate_forecast.
  rewrite !generate_forecast_unfold. cbn [fst].
  destruct H as [H | [(resp & H & Ho) | (resp & t & H & Ho & Hx)]]; rewrite H.
  - split; reflexivity.
  - rewrite Ho. split; reflexivity.
  - rewrite Ho, Hx. split; reflexivity.
Qed.

Lemma synthesis_failure_propagates_witness :
  fst (generate_forecast all_tools_work (orchestrator_with model_down)
         "Forecast Q4" (State [] [] []))
    = Raise (Exn OtherError "connection refused") /\
  fst (run_generate_forecast all_tools_work (orchestrator_with model_down)
         "Forecast Q4")
    = Raise (Exn OtherError "connection refused").
Proof.
  apply (synthesis_failure_propagates all_tools_work (orchestrator_with model_down)
           "Forecast Q4" (State [] [] []) (Exn OtherError "connection refused")).
  left. reflexivity.
Defined.

(** ** The fenced patterns *)

Import Re.


Lemma drop_prefix_inv (p s t : list ascii) :
  drop_prefix p s = Some t -> s = (p ++ t)%list.
Proof.
  revert s; induction p as [|a p IH]; intros s; simpl.
  - now intros [= ->].
  - destruct s as [|b s]; [discriminate|].
    destruct (Ascii.eqb a b) eqn:E; [|discriminate].
    apply Ascii.eqb_eq in E; subst b.
    intros H. now rewrite (IH _ H).
Qed.

(** A pattern that opens with a literal cannot match where the text shows
    another character. *)
Lemma literal_head_mismatch (a c : ascii) (lit : string) (rest : regex)
  (t : list ascii) (g : option string) (k : cont) :
  a <> c ->
  rmatch (Cat (Lit (String a lit)) rest) (c :: t) g k = None.
Proof.
  intros H. cbn [rmatch list_ascii_of_string drop_prefix].
  destruct (Ascii.eqb a c) eqn:E; [|reflexivity].
  apply Ascii.eqb_eq in E. contradiction.
Qed.







Lemma firstn_length_diff (a y : list ascii) :
  firstn (List.length (a ++ y)%list - List.length y) (a ++ y)%list = a.
Proof.
  rewrite length_app, Nat.add_sub.
  rewrite firstn_app, Nat.sub_diag, firstn_all. cbn [firstn]. apply app_nil_r.
Qed.


Lemma search_from_here (r : regex) (s : list ascii) (m : match_object) :
  rmatch r s None matched = Some m -> search_from r s = Some m.
Proof.
  intros H. unfold matched in H. destruct s; cbn [search_from]; now rewrite H.
Qed.


Lemma not_occurs_by_mem (c : ascii) (s : string) :
  mem c s = false -> ~ occurs c s.
Proof.
  unfold occurs. induction s as [|d s IH]; cbn [mem list_ascii_of_string In]; [tauto|].
  intros H. apply orb_false_iff in H as [Hd Hs].
  intros [-> | Hin]; [now rewrite Ascii.eqb_refl in Hd | now apply IH].
Qed.






Lemma lstrip_whitespace (w x : string) :
  whitespace w -> Py.lstrip (w ++ x) = Py.lstrip x.
Proof.
  unfold whitespace. induction w as [|c w IH]; cbn [list_ascii_of_string append];
    intros H; [reflexivity|].
  inversion H as [|? ? Hc Hw]; subst. cbn [Py.lstrip]. rewrite Hc. now apply IH.
Qed.















(** ** Texts without braces *)

Lemma suffix_refl (s : list ascii) : suffix_of s s.
Proof. now exists []. Qed.

Lemma suffix_tail (c : ascii) (s : list ascii) : suffix_of s (c :: s).
Proof. now exists [c]. Qed.

Lemma suffix_trans (a b c : list ascii) :
  suffix_of a b -> suffix_of b c -> suffix_of a c.
Proof.
  intros [p ->] [q ->]. exists (q ++ p)%list. now rewrite app_assoc.
Qed.

(** A continuation that fails on every suffix makes the loops fail. *)
Lemma greedy_loop_none (body : matcher) (k : cont) :
  (forall s g k', (forall s' g', suffix_of s' s -> k' s' g' = None) ->
                  body s g k' = None) ->
  forall n s g, (forall s' g', suffix_of s' s -> k s' g' = None) ->
                greedy_loop body k n s g = None.
Proof.
  intros Hbody. induction n as [|n IH]; intros s g Hk; cbn [greedy_loop].
  - apply Hk, suffix_refl.
  - rewrite Hbody; [apply Hk, suffix_refl|].
    intros s' g' Hs'. destruct (_ <? _)%nat; [|reflexivity].
    apply IH. intros s'' g'' Hs''. apply Hk. eapply suffix_trans; eassumption.
Qed.

Lemma lazy_loop_none (body : matcher) (k : cont) :
  (forall s g k', (forall s' g', suffix_of s' s -> k' s' g' = None) ->
                  body s g k' = None) ->
  forall n s g, (forall s' g', suffix_of s' s -> k s' g' = None) ->
                lazy_loop body k n s g = None.
Proof.
  intros Hbody. induction n as [|n IH]; intros s g Hk; cbn [lazy_loop];
    rewrite (Hk s g (suffix_refl s)); [reflexivity|].
  apply Hbody.
  intros s' g' Hs'. destruct (_ <? _)%nat; [|reflexivity].
  apply IH. intros s'' g'' Hs''. apply Hk. eapply suffix_trans; eassumption.
Qed.

(** A match ends in its continuation, called on a suffix of the text. *)
Lemma rmatch_none (r : regex) :
  forall s g k, (forall s' g', suffix_of s' s -> k s' g' = None) ->
                rmatch r s g k = None.
Proof.
  induction r as [p| | |set|r1 IH1 r2 IH2|r1 IH1|r1 IH1|r1 IH1];
    intros s g k Hk; cbn [rmatch].
  - destruct (drop_prefix _ s) as [s'|] eqn:E; [|reflexivity].
    apply Hk. apply drop_prefix_inv in E. now exists (list_ascii_of_string p).
  - destruct s as [|c s]; [reflexivity|].
    destruct (Py.isspace c); [apply Hk, suffix_tail | reflexivity].
  - destruct s as [|c s]; [reflexivity | apply Hk, suffix_tail].
  - destruct s as [|c s]; [reflexivity|].
    destruct (mem c set); [reflexivity | apply Hk, suffix_tail].
  - apply IH1. intros s' g' Hs'. apply IH2.
    intros s'' g'' Hs''. apply Hk. eapply suffix_trans; eassumption.
  - apply greedy_loop_none; [exact IH1 | exact Hk].
  - apply lazy_loop_none; [exact IH1 | exact Hk].
  - apply IH1. intros s' g' Hs'. now apply Hk.
Qed.

Lemma mem_In (c : ascii) (s : string) :
  mem c s = true -> In c (list_ascii_of_string s).
Proof.
  induction s as [|d s IH]; cbn [mem list_ascii_of_string In]; [discriminate|].
  intros H. apply orb_true_iff in H as [H | H].
  - left. symmetry. now apply Ascii.eqb_eq.
  - right. now apply IH.
Qed.

(** A pattern that requires [c] matches nowhere in a text without [c]. *)
Lemma requires_sound (c : ascii) (r : regex) :
  requires c r = true ->
  forall s g k, ~ In c s -> rmatch r s g k = None.
Proof.
  induction r as [p| | |set|r1 IH1 r2 IH2|r1 IH1|r1 IH1|r1 IH1];
    cbn [requires]; try discriminate; intros Hr s g k Hs; cbn [rmatch].
  - destruct (drop_prefix _ s) as [s'|] eqn:E; [|reflexivity].
    apply drop_prefix_inv in E. exfalso. apply Hs. rewrite E.
    apply in_or_app. left. now apply mem_In.
  - apply orb_true_iff in Hr as [Hr | Hr]; [now apply IH1|].
    apply rmatch_none. intros s' g' [p ->]. apply IH2; [exact Hr|].
    intros Hin. apply Hs, in_or_app. now right.
  - now apply IH1.
Qed.

Lemma search_requires (c : ascii) (r : regex) (text : string) :
  requires c r = true -> ~ occurs c text -> search r text = None.
Proof.
  unfold search, occurs. intros Hr.
  induction (list_ascii_of_string text) as [|d s IH]; intros Hs; cbn [search_from].
  - now rewrite (requires_sound c r Hr).
  - rewrite (requires_sound c r Hr) by exact Hs.
    apply IH. intros Hin. apply Hs. now right.
Qed.

Lemma find_char_absent (c : ascii) (s : string) (i : Z) :
  ~ occurs c s -> Py.find_from (String c "") s i = (-1)%Z.
Proof.
  unfold occurs. revert i; induction s as [|d s IH]; intros i H;
    cbn [Py.find_from Py.startswith]; [reflexivity|].
  destruct (Ascii.eqb c d) eqn:E.
  - apply Ascii.eqb_eq in E. subst d. exfalso. apply H. now left.
  - cbn [andb]. apply IH. intros Hin. apply H. now right.
Qed.

(** The example of C5: in a text without an opening brace that is not
    valid JSON, no pattern matches and there is no outer span to try, so
    every attempt fails. *)
Lemma no_braces_every_attempt_fails (text : string) :
  ~ occurs "{" text ->
  decode_fails (loads (Py.strip text)) = true ->
  every_attempt_fails text = true.
Proof.
  intros Hb Hd. unfold every_attempt_fails. rewrite Hd. cbn [andb].
  apply andb_true_iff. split.
  - apply forallb_forall. intros p Hp. unfold pattern_attempt_fails.
    rewrite (search_requires "{" p); [reflexivity | | exact Hb].
    cbn [json_patterns In] in Hp.
    destruct Hp as [<- | [<- | [<- | []]]]; reflexivity.
  - unfold outer_attempt_fails, Py.find.
    now rewrite (find_char_absent "{" text 0 Hb).
Qed.

(** C5 does not hold of the code.  On the integer literal of 4301 digits
    every parse attempt fails: the whole-text parse raises, no pattern
    matches a text without braces, and there is no outer span to try.  The
    fallback record is not returned all the same: the first failure is a
    [ValueError], which the handler of the whole-text parse lets through,
    and the function raises.  This is the defect of C2, seen from the
    fallback. *)
Theorem fallback_missed_on_long_integer :
  ~ occurs "{" long_integer /\
  attempt_fails (loads (Py.strip long_integer)) = true /\
  forallb (pattern_attempt_fails long_integer) json_patterns = true /\
  outer_attempt_fails long_integer = true /\
  _extract_json long_integer = Raise (digits_error 4301) /\
  is_JSONDecodeError (digits_error 4301) = false /\
  (forall record, _extract_json long_integer <> Return record).
Proof.
  assert (E : _extract_json long_integer = Raise (digits_error 4301))
    by (vm_compute; reflexivity).
  split; [apply not_occurs_by_mem; vm_compute; reflexivity|].
  split; [vm_compute; reflexivity|].
  split; [vm_compute; reflexivity|].
  split; [vm_compute; reflexivity|].
  split; [exact E|]. split; [reflexivity|].
  intros record H. rewrite E in H. discriminate H.
Qed.

(** ** The star loops never run out of iterations

    The loops count down from the length of the text.  Every iteration
    that goes on consumes a character, so a larger count changes nothing. *)

Lemma greedy_loop_ext (body : matcher) (k1 k2 : cont) :
  (forall s g ka kb, (forall s' g', ka s' g' = kb s' g') ->
                     body s g ka = body s g kb) ->
  (forall s g, k1 s g = k2 s g) ->
  forall n s g, greedy_loop body k1 n s g = greedy_loop body k2 n s g.
Proof.
  intros Hbody Hk. induction n as [|n IH]; intros s g; cbn [greedy_loop].
  - apply Hk.
  - rewrite (Hbody s g _
               (fun s' g' => if (List.length s' <? List.length s)%nat
                             then greedy_loop body k2 n s' g' else None)).
    + now rewrite Hk.
    + intros s' g'. destruct (_ <? _)%nat; [apply IH | reflexivity].
Qed.

Lemma lazy_loop_ext (body : matcher) (k1 k2 : cont) :
  (forall s g ka kb, (forall s' g', ka s' g' = kb s' g') ->
                     body s g ka = body s g kb) ->
  (forall s g, k1 s g = k2 s g) ->
  forall n s g, lazy_loop body k1 n s g = lazy_loop body k2 n s g.
Proof.
  intros Hbody Hk. induction n as [|n IH]; intros s g; cbn [lazy_loop];
    rewrite Hk; [reflexivity|].
  destruct (k2 s g); [reflexivity|].
  apply Hbody. intros s' g'. destruct (_ <? _)%nat; [apply IH | reflexivity].
Qed.

(** The matcher reads its continuation through its values only. *)
Lemma rmatch_ext (r : regex) :
  forall s g k1 k2, (forall s' g', k1 s' g' = k2 s' g') ->
                    rmatch r s g k1 = rmatch r s g k2.
Proof.
  induction r as [p| | |set|r1 IH1 r2 IH2|r1 IH1|r1 IH1|r1 IH1];
    intros s g k1 k2 Hk; cbn [rmatch].
  - destruct (drop_prefix _ s); [apply Hk | reflexivity].
  - destruct s as [|c s]; [reflexivity|].
    destruct (Py.isspace c); [apply Hk | reflexivity].
  - destruct s as [|c s]; [reflexivity | apply Hk].
  - destruct s as [|c s]; [reflexivity|].
    destruct (mem c set); [reflexivity | apply Hk].
  - apply IH1. intros s' g'. now apply IH2.
  - apply greedy_loop_ext; [exact IH1 | exact Hk].
  - apply lazy_loop_ext; [exact IH1 | exact Hk].
  - apply IH1. intros s' g'. apply Hk.
Qed.

Lemma suffix_length (s' s : list ascii) :
  suffix_of s' s -> (List.length s' <= List.length s)%nat.
Proof. intros [p ->]. rewrite length_app. lia. Qed.

Lemma greedy_loop_fuel (r : regex) (k : cont) (n n' : nat) :
  forall s g,
    (List.length s <= n)%nat -> (List.length s <= n')%nat ->
    greedy_loop (rmatch r) k n s g = greedy_loop (rmatch r) k n' s g.
Proof.
  revert n'. induction n as [|n IH]; intros n' s g Hn Hn'.
  - destruct s; [|cbn in Hn; lia].
    destruct n' as [|n']; cbn [greedy_loop]; [reflexivity|].
    rewrite rmatch_none; [reflexivity|].
    intros s' g' Hs'. apply suffix_length in Hs'. cbn in Hs'.
    now replace (List.length s' <? List.length (@nil ascii))%nat with false
      by (symmetry; apply Nat.ltb_ge; cbn; lia).
  - destruct n' as [|n'].
    + destruct s; [|cbn in Hn'; lia].
      cbn [greedy_loop]. rewrite rmatch_none; [reflexivity|].
      intros s' g' Hs'. apply suffix_length in Hs'. cbn in Hs'.
      now replace (List.length s' <? List.length (@nil ascii))%nat with false
        by (symmetry; apply Nat.ltb_ge; cbn; lia).
    + cbn [greedy_loop].
      rewrite (rmatch_ext r s g _
                 (fun s' g' => if (List.length s' <? List.length s)%nat
                               then greedy_loop (rmatch r) k n' s' g' else None));
        [reflexivity|].
      intros s' g'. destruct (Nat.ltb_spec (List.length s') (List.length s));
        [|reflexivity].
      apply IH; lia.
Qed.

Lemma lazy_loop_fuel (r : regex) (k : cont) (n n' : nat) :
  forall s g,
    (List.length s <= n)%nat -> (List.length s <= n')%nat ->
    lazy_loop (rmatch r) k n s g = lazy_loop (rmatch r) k n' s g.
Proof.
  revert n'. induction n as [|n IH]; intros n' s g Hn Hn'.
  - destruct s; [|cbn in Hn; lia].
    destruct n' as [|n']; cbn [lazy_loop]; [reflexivity|].
    destruct (k [] g); [reflexivity|].
    rewrite rmatch_none; [reflexivity|].
    intros s' g' Hs'. apply suffix_length in Hs'. cbn in Hs'.
    now replace (List.length s' <? List.length (@nil ascii))%nat with false
      by (symmetry; apply Nat.ltb_ge; cbn; lia).
  - destruct n' as [|n'].
    + destruct s; [|cbn in Hn'; lia].
      cbn [lazy_loop]. destruct (k [] g); [reflexivity|].
      rewrite rmatch_none; [reflexivity|].
      intros s' g' Hs'. apply suffix_length in Hs'. cbn in Hs'.
      now replace (List.length s' <? List.length (@nil ascii))%nat with false
        by (symmetry; apply Nat.ltb_ge; cbn; lia).
    + cbn [lazy_loop]. destruct (k s g); [reflexivity|].
      apply rmatch_ext.
      intros s' g'. destruct (Nat.ltb_spec (List.length s') (List.length s));
        [|reflexivity].
      apply IH; lia.
Qed.

(** ** Trimming *)

Lemma rstrip_whitespace (w : string) :
  whitespace w -> Py.rstrip w = "".
Proof.
  unfold whitespace. induction w as [|c w IH]; cbn [list_ascii_of_string]; intros H.
  - reflexivity.
  - inversion H as [|? ? Hc Hw]; subst. cbn [Py.rstrip]. rewrite (IH Hw). now rewrite Hc.
Qed.

Lemma rstrip_trimmed (s w : string) :
  ends_without_space s -> whitespace w -> Py.rstrip (s ++ w) = s.
Proof.
  intros Hs Hw. induction s as [|c s IH]; [destruct Hs|].
  destruct s as [|d s].
  - cbn [append Py.rstrip]. rewrite (rstrip_whitespace w Hw).
    cbn [ends_without_space] in Hs. now rewrite Hs.
  - change ((String c (String d s)) ++ w) with (String c (String d s ++ w)).
    cbn [Py.rstrip]. rewrite (IH Hs). reflexivity.
Qed.

(** White space around a text that itself starts and ends with other
    characters is what [strip] removes. *)
Lemma strip_surrounding_whitespace (w1 s w2 : string) :
  whitespace w1 -> whitespace w2 ->
  starts_without_space (list_ascii_of_string s) -> ends_without_space s ->
  Py.strip (w1 ++ s ++ w2) = s.
Proof.
  intros H1 H2 Hs He. unfold Py.strip. rewrite lstrip_whitespace by exact H1.
  destruct s as [|c s]; [destruct He|].
  cbn [list_ascii_of_string starts_without_space] in Hs.
  change (String c s ++ w2) with (String c (s ++ w2)). cbn [Py.lstrip]. rewrite Hs.
  change (String c (s ++ w2)) with (String c s ++ w2).
  now apply rstrip_trimmed.
Qed.

(** A JSON text with white space around it is recovered as it parses. *)
Lemma extract_json_ignores_surrounding_whitespace (w1 s w2 : string) (v : json) :
  whitespace w1 -> whitespace w2 ->
  starts_without_space (list_ascii_of_string s) -> ends_without_space s ->
  loads s = Return v ->
  _extract_json (w1 ++ s ++ w2) = Return v.
Proof.
  intros H1 H2 Hs He Hv. unfold _extract_json.
  now rewrite strip_surrounding_whitespace, Hv.
Qed.

(** * The cascade in detail, and the tools *)

Import Terms.

(** ** Objects in running text *)

Ltac lengths := repeat (first [rewrite length_app | progress cbn [List.length]]).

Ltac flatten_apps :=
  repeat (first [rewrite <- app_assoc | progress cbn [app list_ascii_of_string]]).

Lemma json_patterns_balanced :
  json_patterns = [fenced "```json"; fenced "```"; balanced].
Proof. reflexivity. Qed.

(** A greedy run over a negated set takes all of [w] when the rest of the
    pattern matches right after it. *)
Lemma greedy_noneof_all (set : string) (w x : list ascii) (g : option string)
  (k : cont) (m : match_object) (n : nat) :
  Forall (fun c => mem c set = false) w ->
  match x with [] => True | c :: _ => mem c set = true end ->
  k x g = Some m ->
  (List.length w <= n)%nat ->
  greedy_loop (rmatch (NoneOf set)) k n (w ++ x)%list g = Some m.
Proof.
  intros Hw Hx Hk. revert n.
  induction Hw as [|c w Hc Hw IH]; intros n Hn.
  - destruct n as [|n]; cbn [app greedy_loop]; [exact Hk|].
    destruct x as [|c x]; cbn [rmatch]; [now rewrite Hk|].
    now rewrite Hx, Hk.
  - destruct n as [|n]; [cbn in Hn; lia|].
    cbn [app greedy_loop rmatch]. rewrite Hc.
    replace (List.length (w ++ x)%list <? List.length (c :: w ++ x)%list)%nat
      with true by (symmetry; apply Nat.ltb_lt; cbn; lia).
    rewrite IH by (cbn in Hn; lia). reflexivity.
Qed.

Lemma greedy_noneof_none (set : string) (n : nat) (s : list ascii)
  (g : option string) (k : cont) :
  (forall w x, s = (w ++ x)%list -> Forall (fun c => mem c set = false) w ->
               k x g = None) ->
  greedy_loop (rmatch (NoneOf set)) k n s g = None.
Proof.
  revert s; induction n as [|n IH]; intros s H; cbn [greedy_loop].
  - apply (H [] s); [reflexivity | constructor].
  - assert (Hk : k s g = None) by (apply (H [] s); [reflexivity | constructor]).
    destruct s as [|c s]; cbn [rmatch]; [exact Hk|].
    destruct (mem c set) eqn:Ec; [exact Hk|].
    replace (List.length s <? List.length (c :: s))%nat
      with true by (symmetry; apply Nat.ltb_lt; cbn; lia).
    rewrite IH; [exact Hk|].
    intros w x -> Hw. apply (H (c :: w) x); [reflexivity | now constructor].
Qed.

(** Where a brace-free prefix of [u ++ c0 :: rest] can end when [u] is
    brace-free and [c0] is a brace. *)
Lemma brace_free_prefix_split (w x u rest : list ascii) (c0 : ascii) :
  (w ++ x = u ++ c0 :: rest)%list ->
  brace_free w -> mem c0 "{}" = true ->
  exists u', u = (w ++ u')%list /\ x = (u' ++ c0 :: rest)%list.
Proof.
  intros E Hw Hc. revert u E.
  induction Hw as [|c w Hcw Hw IH]; intros u E.
  - exists u. auto.
  - destruct u as [|d u]; cbn in E; injection E as -> E.
    + congruence.
    + destruct (IH _ E) as (u' & -> & ->). now exists u'.
Qed.

Lemma chars_inner_objects_cons (b c : string) (gs : list (string * string)) :
  list_ascii_of_string (inner_objects ((b, c) :: gs)) =
  ("{"%char :: list_ascii_of_string b ++
   "}"%char :: list_ascii_of_string c ++
   list_ascii_of_string (inner_objects gs))%list.
Proof.
  cbn [inner_objects]. rewrite !chars_app. reflexivity.
Qed.

(** One inner object and the text after it. *)
Lemma nested_matches (b c x : list ascii) (g : option string) (k : cont)
  (m : match_object) :
  brace_free b -> brace_free c -> starts_with_brace x ->
  k x g = Some m ->
  rmatch nested ("{"%char :: b ++ "}"%char :: c ++ x)%list g k = Some m.
Proof.
  intros Hb Hc Hx Hk. unfold nested, flat.
  cbn [rmatch list_ascii_of_string drop_prefix]. rewrite Ascii.eqb_refl.
  apply greedy_noneof_all; [exact Hb | reflexivity | | rewrite length_app; lia].
  cbn [rmatch list_ascii_of_string drop_prefix]. rewrite Ascii.eqb_refl.
  apply greedy_noneof_all; [exact Hc | exact Hx | exact Hk | rewrite length_app; lia].
Qed.

Lemma inner_objects_start (gs : list (string * string)) (x : list ascii) :
  starts_with_brace x ->
  starts_with_brace (list_ascii_of_string (inner_objects gs) ++ x)%list.
Proof.
  intros Hx. destruct gs as [|[b c] gs]; [exact Hx|].
  rewrite chars_inner_objects_cons. reflexivity.
Qed.

(** The greedy run over inner objects takes them all. *)
Lemma greedy_nested_all (gs : list (string * string)) (x : list ascii)
  (g : option string) (k : cont) (m : match_object) :
  all_brace_free gs ->
  k ("}"%char :: x)%list g = Some m ->
  forall n,
    (List.length (list_ascii_of_string (inner_objects gs)) <= n)%nat ->
    greedy_loop (rmatch nested) k n
      (list_ascii_of_string (inner_objects gs) ++ "}"%char :: x)%list g = Some m.
Proof.
  intros Hgs Hk. induction Hgs as [|[b c] gs [Hb Hc] Hgs IH]; intros n Hn.
  - cbn [inner_objects list_ascii_of_string app].
    destruct n as [|n]; cbn [greedy_loop]; [exact Hk|].
    unfold nested at 1. cbn [rmatch list_ascii_of_string drop_prefix].
    replace (Ascii.eqb "{" "}") with false by reflexivity. exact Hk.
  - rewrite chars_inner_objects_cons in *. cbn [fst snd] in Hb, Hc.
    destruct n as [|n]; [cbn in Hn; lia|].
    cbn [greedy_loop].
    replace (("{"%char :: list_ascii_of_string b ++ "}"%char ::
              list_ascii_of_string c ++ list_ascii_of_string (inner_objects gs)) ++
             "}"%char :: x)%list
      with ("{"%char :: list_ascii_of_string b ++ "}"%char ::
            list_ascii_of_string c ++
            (list_ascii_of_string (inner_objects gs) ++ "}"%char :: x))%list
      by (cbn [app]; rewrite <- !app_assoc; cbn [app]; now rewrite <- !app_assoc).
    erewrite nested_matches; [reflexivity | exact Hb | exact Hc | |].
    + now apply inner_objects_start.
    + replace (_ <? _)%nat with true
        by (symmetry; apply Nat.ltb_lt; lengths; lia).
      apply IH. revert Hn. lengths. lia.
Qed.

(** The third pattern, tried at the opening brace of an object with at
    most one level of nesting, captures the object. *)
Lemma balanced_matches (b0 : string) (gs : list (string * string)) (post : list ascii) :
  brace_free (list_ascii_of_string b0) -> all_brace_free gs ->
  rmatch balanced
    (list_ascii_of_string ("{" ++ b0 ++ inner_objects gs ++ "}") ++ post)%list
    None matched
  = Some (MatchObject (Some ("{" ++ b0 ++ inner_objects gs ++ "}"))).
Proof.
  intros Hb Hgs. unfold balanced, flat.
  set (obj := "{" ++ b0 ++ inner_objects gs ++ "}").
  assert (Eobj : (list_ascii_of_string obj ++ post)%list =
                 ("{"%char :: list_ascii_of_string b0 ++
                  (list_ascii_of_string (inner_objects gs) ++ "}"%char :: post))%list).
  { unfold obj. rewrite !chars_app. cbn [list_ascii_of_string app].
    rewrite <- !app_assoc. reflexivity. }
  cbn [rmatch]. rewrite Eobj at 1.
  cbn [list_ascii_of_string drop_prefix]. rewrite Ascii.eqb_refl.
  apply greedy_noneof_all;
    [exact Hb | now apply inner_objects_start | | rewrite length_app; lia].
  apply greedy_nested_all; [exact Hgs | | rewrite length_app; lia].
  cbn [rmatch list_ascii_of_string drop_prefix]. rewrite Ascii.eqb_refl.
  unfold matched. rewrite firstn_length_diff.
  now rewrite string_of_list_ascii_of_string.
Qed.

Lemma search_skips_prefix (r : regex) (pre s : list ascii) :
  (forall c t, In c pre -> rmatch r (c :: t) None matched = None) ->
  search_from r (pre ++ s)%list = search_from r s.
Proof.
  induction pre as [|c pre IH]; intros H; [reflexivity|].
  cbn [app search_from].
  pose proof (H c (pre ++ s)%list (or_introl eq_refl)) as Hc.
  unfold matched in Hc. rewrite Hc.
  apply IH. intros d t Hd. apply H. now right.
Qed.

Lemma balanced_head_mismatch (c : ascii) (t : list ascii) (g : option string)
  (k : cont) :
  c <> "{"%char -> rmatch balanced (c :: t) g k = None.
Proof.
  intros H. unfold balanced. cbn [rmatch list_ascii_of_string drop_prefix].
  destruct (Ascii.eqb "{" c) eqn:E; [|reflexivity].
  apply Ascii.eqb_eq in E. congruence.
Qed.

(** [re.search] with the third pattern finds the first opening brace when
    an object with at most one level of nesting starts there. *)
Lemma search_balanced (pre b0 : string) (gs : list (string * string)) (post : string) :
  ~ occurs "{" pre ->
  brace_free (list_ascii_of_string b0) -> all_brace_free gs ->
  search balanced (pre ++ ("{" ++ b0 ++ inner_objects gs ++ "}") ++ post)
  = Some (MatchObject (Some ("{" ++ b0 ++ inner_objects gs ++ "}"))).
Proof.
  intros Hpre Hb Hgs. unfold search.
  rewrite chars_app, search_skips_prefix.
  - apply search_from_here. rewrite chars_app. now apply balanced_matches.
  - intros c t Hc. apply balanced_head_mismatch. intros ->. now apply Hpre.
Qed.

(** Both fenced patterns need a backquote. *)
Lemma search_fenced_without_backquote (opening text : string) :
  ~ occurs "`" text -> search (fenced (String "`" opening)) text = None.
Proof.
  intros H. apply (search_requires "`"); [|exact H].
  cbn [fenced requires mem]. now rewrite Ascii.eqb_refl.
Qed.

(** What the cascade does with a text without backquotes that is not
    valid JSON: the capture of the third pattern decides. *)
Lemma extract_json_balanced (text span : string) (v : json) :
  ~ occurs "`" text ->
  decode_fails (loads (Py.strip text)) = true ->
  search balanced text = Some (MatchObject (Some span)) ->
  loads span = Return v ->
  _extract_json text = Return v.
Proof.
  intros Hq Hfail Hs Hv. unfold _extract_json.
  destruct (loads (Py.strip text)) as [w|e]; [discriminate|].
  cbn [decode_fails] in Hfail. rewrite Hfail.
  rewrite json_patterns_balanced. cbn [try_patterns].
  rewrite !search_fenced_without_backquote by exact Hq.
  rewrite Hs. cbn [loads_group group1]. now rewrite Hv.
Qed.

(** X1.  An object with at most one level of nested braces that stands in
    running text, after a prefix without opening brace, in a text without
    backquotes that is not valid JSON as a whole, is recovered. *)
Theorem object_in_prose_recovered
  (text pre b0 : string) (gs : list (string * string)) (post : string) (v : json) :
  text = pre ++ ("{" ++ b0 ++ inner_objects gs ++ "}") ++ post ->
  ~ occurs "{" pre -> ~ occurs "`" text ->
  brace_free (list_ascii_of_string b0) -> all_brace_free gs ->
  loads ("{" ++ b0 ++ inner_objects gs ++ "}") = Return v ->
  decode_fails (loads (Py.strip text)) = true ->
  _extract_json text = Return v.
Proof.
  intros Htext Hpre Hq Hb Hgs Hv Hfail.
  apply (extract_json_balanced text ("{" ++ b0 ++ inner_objects gs ++ "}"));
    try assumption.
  rewrite Htext. now apply search_balanced.
Qed.

Lemma rmatch_cat (r1 r2 : regex) (s : list ascii) (g : option string) (k : cont) :
  rmatch (Cat r1 r2) s g k = rmatch r1 s g (fun s' g' => rmatch r2 s' g' k).
Proof. reflexivity. Qed.

Lemma rmatch_star (r : regex) (s : list ascii) (g : option string) (k : cont) :
  rmatch (Star r) s g k = greedy_loop (rmatch r) k (List.length s) s g.
Proof. reflexivity. Qed.

Lemma rmatch_group (r : regex) (s : list ascii) (g : option string) (k : cont) :
  rmatch (Group r) s g k =
  rmatch r s g
    (fun s' _ => k s' (Some (string_of_list_ascii
                               (firstn (List.length s - List.length s') s)))).
Proof. reflexivity. Qed.

Lemma rmatch_char (c : ascii) (t : list ascii) (g : option string) (k : cont) :
  rmatch (Lit (String c "")) (c :: t) g k = k t g.
Proof.
  cbn [rmatch list_ascii_of_string drop_prefix]. now rewrite Ascii.eqb_refl.
Qed.

Lemma rmatch_char_mismatch (c d : ascii) (lit : string) (t : list ascii)
  (g : option string) (k : cont) :
  c <> d -> rmatch (Lit (String c lit)) (d :: t) g k = None.
Proof.
  intros H. cbn [rmatch list_ascii_of_string drop_prefix].
  destruct (Ascii.eqb c d) eqn:E; [|reflexivity].
  apply Ascii.eqb_eq in E. contradiction.
Qed.

(** A loop whose body fails and whose continuation fails fails. *)
Lemma greedy_loop_stuck (body : matcher) (k : cont) (n : nat) (s : list ascii)
  (g : option string) :
  (forall k', body s g k' = None) -> k s g = None ->
  greedy_loop body k n s g = None.
Proof.
  intros Hb Hk. destruct n; cbn [greedy_loop]; [exact Hk|]. now rewrite Hb.
Qed.

Lemma brace_free_head (c : ascii) (s : list ascii) :
  brace_free (c :: s) -> c <> "{"%char /\ c <> "}"%char.
Proof.
  intros H. inversion H as [|? ? Hc _]; subst.
  split; intros ->; discriminate.
Qed.

(** After an opening brace that is followed, before any closing brace, by
    two more opening braces, the third pattern cannot be completed. *)
Lemma deep_inner_fails (a b y : list ascii) (g : option string) (k : cont) :
  brace_free a -> brace_free b ->
  rmatch (Cat flat (Cat (Star nested) (Lit "}")))
    (a ++ "{"%char :: b ++ "{"%char :: y)%list g k = None.
Proof.
  intros Ha Hb. rewrite rmatch_cat. unfold flat at 1. rewrite rmatch_star.
  apply greedy_noneof_none. intros w x E Hw.
  destruct (brace_free_prefix_split _ _ _ _ _ (eq_sym E) Hw eq_refl) as (a' & -> & ->).
  apply Forall_app in Ha as [_ Ha'].
  rewrite rmatch_cat, rmatch_star.
  apply greedy_loop_stuck.
  - intros k'. unfold nested. destruct a' as [|d a']; cbn [app].
    + rewrite rmatch_cat, rmatch_char. rewrite rmatch_cat. unfold flat at 1.
      rewrite rmatch_star. apply greedy_noneof_none. intros w' x' E' Hw'.
      destruct (brace_free_prefix_split _ _ _ _ _ (eq_sym E') Hw' eq_refl)
        as (b' & -> & ->).
      apply Forall_app in Hb as [_ Hb'].
      rewrite rmatch_cat.
      destruct b' as [|d b']; cbn [app].
      * now apply rmatch_char_mismatch.
      * apply rmatch_char_mismatch. apply brace_free_head in Hb'. intuition congruence.
    + apply literal_head_mismatch. apply brace_free_head in Ha'. intuition congruence.
  - destruct a' as [|d a']; cbn [app].
    + now apply rmatch_char_mismatch.
    + apply rmatch_char_mismatch. apply brace_free_head in Ha'. intuition congruence.
Qed.

Lemma balanced_fails_on_deep (a b y : list ascii) (g : option string) (k : cont) :
  brace_free a -> brace_free b ->
  rmatch balanced ("{"%char :: a ++ "{"%char :: b ++ "{"%char :: y)%list g k = None.
Proof.
  intros Ha Hb. unfold balanced.
  rewrite rmatch_group, rmatch_cat, rmatch_char.
  now apply deep_inner_fails.
Qed.

(** X2.  Nesting beyond one level is not refused: when an object holds,
    after brace-free text, an object with one level of nesting, it is the
    inner object that is returned. *)
Theorem deeper_nesting_returns_inner_object
  (text pre a b c e : string) (gs : list (string * string)) (post : string)
  (v : json) :
  text = (pre ++ "{" ++ a) ++
         ("{" ++ b ++ inner_objects ((c, e) :: gs) ++ "}") ++ post ->
  ~ occurs "{" pre -> ~ occurs "`" text ->
  brace_free (list_ascii_of_string a) ->
  brace_free (list_ascii_of_string b) -> all_brace_free ((c, e) :: gs) ->
  loads ("{" ++ b ++ inner_objects ((c, e) :: gs) ++ "}") = Return v ->
  decode_fails (loads (Py.strip text)) = true ->
  _extract_json text = Return v.
Proof.
  intros Htext Hpre Hq Ha Hb Hgs Hv Hfail.
  apply (extract_json_balanced text
           ("{" ++ b ++ inner_objects ((c, e) :: gs) ++ "}")); try assumption.
  rewrite Htext. unfold search.
  rewrite !chars_app, <- !app_assoc.
  rewrite (search_skips_prefix balanced (list_ascii_of_string pre))
    by (intros d t Hd; apply balanced_head_mismatch; intros ->; now apply Hpre).
  change (list_ascii_of_string "{") with ["{"%char].
  cbn [app search_from].
  rewrite chars_inner_objects_cons.
  replace (rmatch balanced _ None _) with (@None match_object).
  2:{ symmetry. cbn [app]. rewrite <- !app_assoc. cbn [app].
      apply (balanced_fails_on_deep (list_ascii_of_string a) (list_ascii_of_string b));
        assumption. }
  rewrite search_skips_prefix.
  - apply search_from_here.
    pose proof (balanced_matches b ((c, e) :: gs) (list_ascii_of_string post) Hb Hgs) as H.
    rewrite !chars_app, chars_inner_objects_cons in H.
    change (list_ascii_of_string "{") with ["{"%char] in H.
    change (list_ascii_of_string "}") with ["}"%char] in H.
    rewrite <- H. f_equal. flatten_apps. reflexivity.
  - intros d t Hd. apply balanced_head_mismatch. intros ->.
    unfold brace_free in Ha. rewrite Forall_forall in Ha.
    now specialize (Ha _ Hd).
Qed.

Lemma brace_free_by_forallb (s : string) :
  forallb (fun c => negb (mem c "{}")) (list_ascii_of_string s) = true ->
  brace_free (list_ascii_of_string s).
Proof.
  intros H. apply Forall_forall. intros c Hc.
  rewrite forallb_forall in H. specialize (H c Hc). now apply negb_true_iff.
Qed.

(** ** The span between the outermost braces *)

Lemma find_from_first (c : ascii) (pre rest : string) (i : Z) :
  ~ occurs c pre ->
  Py.find_from (String c "") (pre ++ String c rest) i
  = (i + Z.of_nat (String.length pre))%Z.
Proof.
  unfold occurs. revert i; induction pre as [|d pre IH]; intros i H;
    cbn [append Py.find_from Py.startswith String.length list_ascii_of_string] in *.
  - rewrite Ascii.eqb_refl. cbn. lia.
  - destruct (Ascii.eqb c d) eqn:E.
    + apply Ascii.eqb_eq in E. subst d. exfalso. apply H. now left.
    + cbn [andb]. rewrite IH by (intros Hin; apply H; now right). lia.
Qed.

Lemma rfind_from_absent (c : ascii) (s : string) (i : Z) :
  ~ occurs c s -> Py.rfind_from (String c "") s i = (-1)%Z.
Proof.
  unfold occurs. revert i; induction s as [|d s IH]; intros i H;
    cbn [Py.rfind_from Py.startswith list_ascii_of_string] in *; [reflexivity|].
  rewrite IH by (intros Hin; apply H; now right). cbn [Z.eqb Pos.eqb].
  destruct (Ascii.eqb c d) eqn:E; [|reflexivity].
  apply Ascii.eqb_eq in E. subst d. exfalso. apply H. now left.
Qed.

Lemma rfind_from_last (c : ascii) (pre post : string) (i : Z) :
  ~ occurs c post -> (0 <= i)%Z ->
  Py.rfind_from (String c "") (pre ++ String c post) i
  = (i + Z.of_nat (String.length pre))%Z.
Proof.
  intros Hpost. revert i; induction pre as [|d pre IH]; intros i Hi;
    cbn [append Py.rfind_from Py.startswith String.length].
  - rewrite rfind_from_absent by exact Hpost. cbn [Z.eqb Pos.eqb].
    rewrite Ascii.eqb_refl. cbn. lia.
  - rewrite IH by lia.
    replace (_ =? -1)%Z with false by (symmetry; apply Z.eqb_neq; lia). lia.
Qed.

Lemma substring_prefix (mid post : string) :
  substring 0 (String.length mid) (mid ++ post) = mid.
Proof. induction mid as [|c mid IH]; cbn; [now destruct post | now rewrite IH]. Qed.

Lemma substring_middle (pre mid post : string) :
  substring (String.length pre) (String.length mid) (pre ++ mid ++ post) = mid.
Proof. induction pre as [|c pre IH]; cbn; [apply substring_prefix | exact IH]. Qed.

Lemma length_append (a b : string) :
  String.length (a ++ b) = (String.length a + String.length b)%nat.
Proof. induction a; cbn; congruence. Qed.

(** [text[start:stop]] for the indices of a middle part. *)
Lemma slice_middle (pre mid post : string) :
  Py.slice (pre ++ mid ++ post) (Z.of_nat (String.length pre))
    (Z.of_nat (String.length pre) + Z.of_nat (String.length mid))
  = mid.
Proof.
  unfold Py.slice, Py.adjust, Py.len. rewrite !length_append.
  replace (Z.of_nat (String.length pre) <? 0)%Z with false
    by (symmetry; apply Z.ltb_ge; lia).
  replace (Z.of_nat (String.length pre) + Z.of_nat (String.length mid) <? 0)%Z
    with false by (symmetry; apply Z.ltb_ge; lia).
  rewrite !Z.min_l by lia.
  replace (Z.of_nat (String.length pre) + Z.of_nat (String.length mid) -
           Z.of_nat (String.length pre))%Z with (Z.of_nat (String.length mid)) by lia.
  rewrite !Nat2Z.id. apply substring_middle.
Qed.

(** The last resort reads the text from its first opening brace to its
    last closing brace. *)
Lemma outer_span (pre mid post : string) :
  ~ occurs "{" pre -> ~ occurs "}" post ->
  let text := pre ++ ("{" ++ mid ++ "}") ++ post in
  Py.find "{" text = Z.of_nat (String.length pre) /\
  Py.rfind "}" text = Z.of_nat (String.length pre + S (String.length mid)) /\
  Py.slice text (Py.find "{" text) (Py.rfind "}" text + 1) = "{" ++ mid ++ "}".
Proof.
  intros Hpre Hpost text.
  assert (Hf : Py.find "{" text = Z.of_nat (String.length pre)).
  { unfold Py.find, text. cbn [append]. now rewrite find_from_first. }
  assert (Hr : Py.rfind "}" text = Z.of_nat (String.length pre + S (String.length mid))).
  { unfold Py.rfind, text.
    replace (pre ++ ("{" ++ mid ++ "}") ++ post)
      with ((pre ++ "{" ++ mid) ++ String "}" post)
      by (rewrite !append_assoc; reflexivity).
    rewrite rfind_from_last by (exact Hpost || lia).
    rewrite !length_append. cbn [String.length]. lia. }
  split; [exact Hf|]. split; [exact Hr|].
  rewrite Hf, Hr. unfold text.
  replace (Z.of_nat (String.length pre + S (String.length mid)) + 1)%Z
    with (Z.of_nat (String.length pre) +
          Z.of_nat (String.length ("{" ++ mid ++ "}")))%Z
    by (rewrite !length_append; cbn [String.length]; lia).
  apply slice_middle.
Qed.

(** X3.  When the whole text is not valid JSON and no pattern yields a
    parse, the function parses the span from the first opening brace to the
    last closing brace and returns its value. *)
Theorem outermost_braces_recovered (text pre mid post : string) (v : json) :
  text = pre ++ ("{" ++ mid ++ "}") ++ post ->
  ~ occurs "{" pre -> ~ occurs "}" post ->
  decode_fails (loads (Py.strip text)) = true ->
  forallb (pattern_attempt_fails text) json_patterns = true ->
  loads ("{" ++ mid ++ "}") = Return v ->
  _extract_json text = Return v.
Proof.
  intros -> Hpre Hpost Hfail Hpat Hv.
  destruct (outer_span pre mid post Hpre Hpost) as (Hf & Hr & Hs).
  unfold _extract_json.
  destruct (loads (Py.strip _)) as [w|e]; [discriminate|].
  cbn [decode_fails] in Hfail. rewrite Hfail.
  apply try_patterns_none in Hpat. rewrite Hpat.
  unfold try_outer_braces. rewrite Hs, Hv.
  rewrite Hf, Hr.
  replace (negb (_ =? -1)%Z && negb (_ =? -1)%Z) with true; [reflexivity|].
  symmetry. apply andb_true_iff.
  split; apply negb_true_iff, Z.eqb_neq; lia.
Qed.

(** ** Replies cut off before the closing brace *)

Lemma unclosed_suffix (s' s : list ascii) :
  suffix_of s' s -> unclosed s -> unclosed s'.
Proof.
  intros [q ->] H p t E. apply (H (q ++ p)%list t).
  rewrite E, <- app_assoc. reflexivity.
Qed.

Lemma unclosed_intro (a b : string) :
  ~ occurs "{" a -> ~ occurs "}" b ->
  unclosed (list_ascii_of_string (a ++ "{" ++ b)).
Proof.
  unfold occurs. rewrite chars_app. cbn [append list_ascii_of_string].
  generalize (list_ascii_of_string a) (list_ascii_of_string b).
  intros la lb Ha Hb. induction la as [|d la IH]; intros p t E.
  - destruct p as [|c p]; cbn [app] in E.
    + injection E as <-. exact Hb.
    + injection E as _ ->. intros Hin. apply Hb.
      apply in_or_app. right. now right.
  - destruct p as [|c p]; cbn [app] in E.
    + injection E as -> _. exfalso. apply Ha. now left.
    + injection E as _ E. apply (IH (fun Hin => Ha (or_intror Hin)) p t E).
Qed.

Lemma opening_needs_closing (rest : regex) :
  requires "}" rest = true ->
  forall s g k, unclosed s -> rmatch (Cat (Lit "{") rest) s g k = None.
Proof.
  intros Hr s g k Hs. rewrite rmatch_cat.
  destruct s as [|c t]; [reflexivity|].
  destruct (Ascii.ascii_dec "{" c) as [<- | Hc].
  - rewrite rmatch_char. apply (requires_sound "}" rest Hr).
    apply (Hs [] t). reflexivity.
  - now apply rmatch_char_mismatch.
Qed.

Lemma patterns_need_closing (p : regex) :
  In p json_patterns ->
  forall s g k, unclosed s -> rmatch p s g k = None.
Proof.
  rewrite json_patterns_balanced. cbn [In].
  intros [<- | [<- | [<- | []]]] s g k Hs.
  - unfold fenced. rewrite rmatch_cat. apply rmatch_none. intros s1 g1 H1.
    rewrite rmatch_cat. apply rmatch_none. intros s2 g2 H2.
    rewrite rmatch_cat, rmatch_group. apply opening_needs_closing; [reflexivity|].
    eapply unclosed_suffix; [|exact Hs]. eapply suffix_trans; eassumption.
  - unfold fenced. rewrite rmatch_cat. apply rmatch_none. intros s1 g1 H1.
    rewrite rmatch_cat. apply rmatch_none. intros s2 g2 H2.
    rewrite rmatch_cat, rmatch_group. apply opening_needs_closing; [reflexivity|].
    eapply unclosed_suffix; [|exact Hs]. eapply suffix_trans; eassumption.
  - unfold balanced. rewrite rmatch_group.
    apply opening_needs_closing; [reflexivity | exact Hs].
Qed.

Lemma search_unclosed (p : regex) (text : string) :
  In p json_patterns -> unclosed (list_ascii_of_string text) ->
  search p text = None.
Proof.
  unfold search. intros Hp.
  induction (list_ascii_of_string text) as [|c s IH]; intros Hs;
    cbn [search_from]; rewrite (patterns_need_closing p Hp) by exact Hs;
    [reflexivity|].
  apply IH. eapply unclosed_suffix; [apply suffix_tail | exact Hs].
Qed.

Lemma rfind_from_bound (c : ascii) (a rest : string) (i : Z) :
  ~ occurs c rest -> (0 <= i)%Z ->
  Py.rfind_from (String c "") (a ++ rest) i = (-1)%Z \/
  (i <= Py.rfind_from (String c "") (a ++ rest) i < i + Z.of_nat (String.length a))%Z.
Proof.
  intros Hr. revert i; induction a as [|d a IH]; intros i Hi; cbn [append].
  - left. now apply rfind_from_absent.
  - cbn [Py.rfind_from String.length].
    destruct (IH (i + 1)%Z ltac:(lia)) as [-> | H].
    + cbn [Z.eqb Pos.eqb]. destruct (Py.startswith _ _); [right; lia | now left].
    + destruct (_ =? -1)%Z eqn:E.
      * destruct (Py.startswith _ _); [right; lia | now left].
      * right. lia.
Qed.

Lemma substring_none (n : nat) (s : string) : substring n 0 s = "".
Proof. revert n; induction s as [|c s IH]; intros [|n]; cbn; auto. Qed.

Lemma slice_backwards (s : string) (start stop : Z) :
  (0 <= stop <= start)%Z -> Py.slice s start stop = "".
Proof.
  intros H. unfold Py.slice, Py.adjust.
  replace (start <? 0)%Z with false by (symmetry; apply Z.ltb_ge; lia).
  replace (stop <? 0)%Z with false by (symmetry; apply Z.ltb_ge; lia).
  replace (Z.to_nat (Z.min stop (Py.len s) - Z.min start (Py.len s))) with 0%nat
    by lia.
  apply substring_none.
Qed.

Lemma unclosed_every_attempt_fails (a b : string) :
  ~ occurs "{" a -> ~ occurs "}" b ->
  decode_fails (loads (Py.strip (a ++ "{" ++ b))) = true ->
  every_attempt_fails (a ++ "{" ++ b) = true.
Proof.
  intros Ha Hb Hd. unfold every_attempt_fails. rewrite Hd. cbn [andb].
  apply andb_true_iff. split.
  - apply forallb_forall. intros p Hp. unfold pattern_attempt_fails.
    rewrite (search_unclosed p); [reflexivity | exact Hp |].
    now apply unclosed_intro.
  - unfold outer_attempt_fails.
    assert (Hf : Py.find "{" (a ++ "{" ++ b) = Z.of_nat (String.length a)).
    { unfold Py.find. cbn [append]. now rewrite find_from_first. }
    rewrite Hf.
    assert (Hx : ~ occurs "}" ("{" ++ b)).
    { unfold occurs. cbn [append list_ascii_of_string In].
      intros [E | Hin]; [discriminate | contradiction]. }
    destruct (rfind_from_bound "}" a ("{" ++ b) 0 Hx ltac:(lia)) as [E | E].
    + unfold Py.rfind. rewrite E.
      apply orb_true_iff. left. apply orb_true_iff. now right.
    + unfold Py.rfind. rewrite slice_backwards by (cbn [append] in *; lia).
      apply orb_true_iff. now right.
Qed.

(** X4.  A reply cut off before its closing brace (no closing brace after
    the first opening brace) that is not valid JSON as a whole defeats
    every attempt and comes back as the fallback record. *)
Theorem unclosed_object_falls_back (text a b : string) :
  text = a ++ "{" ++ b ->
  ~ occurs "{" a -> ~ occurs "}" b ->
  decode_fails (loads (Py.strip text)) = true ->
  _extract_json text = Return (fallback text).
Proof.
  intros -> Ha Hb Hd. apply extract_json_fallback.
  now apply unclosed_every_attempt_fails.
Qed.

Lemma unclosed_object_falls_back_witness :
  _extract_json (sq "Forecast: {'summary': 'Revenue grew")
  = Return (fallback (sq "Forecast: {'summary': 'Revenue grew")).
Proof.
  apply (unclosed_object_falls_back _ "Forecast: " (sq "'summary': 'Revenue grew")).
  - reflexivity.
  - apply not_occurs_by_mem. reflexivity.
  - apply not_occurs_by_mem. reflexivity.
  - reflexivity.
Defined.

Lemma outermost_braces_recovered_witness :
  _extract_json (sq "Result: {'a': 'x{y'} done")
  = Return (JDict [(key "a", jstr "x{y")]).
Proof.
  apply (outermost_braces_recovered _ "Result: " (sq "'a': 'x{y'") " done").
  - reflexivity.
  - apply not_occurs_by_mem. reflexivity.
  - apply not_occurs_by_mem. reflexivity.
  - reflexivity.
  - reflexivity.
  - reflexivity.
Defined.

Lemma object_in_prose_recovered_witness :
  _extract_json
    (sq "Here is the forecast: {'summary': 'ok', 'meta': {'n': 1}} Hope it helps")
  = Return (JDict [(key "summary", jstr "ok");
                   (key "meta", JDict [(key "n", JInt 1)])]).
Proof.
  apply (object_in_prose_recovered _ "Here is the forecast: "
           (sq "'summary': 'ok', 'meta': ") [(sq "'n': 1", "")] " Hope it helps").
  - reflexivity.
  - apply not_occurs_by_mem. reflexivity.
  - apply not_occurs_by_mem. reflexivity.
  - apply brace_free_by_forallb. reflexivity.
  - constructor; [|constructor].
    split; apply brace_free_by_forallb; reflexivity.
  - reflexivity.
  - reflexivity.
Defined.

Lemma deeper_nesting_returns_inner_object_witness :
  _extract_json (sq "Result: {'a': {'b': {'c': 1}}} done")
  = Return (JDict [(key "b", JDict [(key "c", JInt 1)])]).
Proof.
  apply (deeper_nesting_returns_inner_object _ "Result: " (sq "'a': ") (sq "'b': ")
           (sq "'c': 1") "" [] "} done").
  - reflexivity.
  - apply not_occurs_by_mem. reflexivity.
  - apply not_occurs_by_mem. reflexivity.
  - apply brace_free_by_forallb. reflexivity.
  - apply brace_free_by_forallb. reflexivity.
  - constructor; [|constructor].
    split; apply brace_free_by_forallb; reflexivity.
  - reflexivity.
  - reflexivity.
Defined.

(** X5.  The function returns a value exactly when the whole-text parse
    returns one or fails with a decode error; any other exception of the
    parser is the only way out by exception. *)
Theorem extract_json_returns_iff (text : string) :
  (exists v, _extract_json text = Return v) <->
  (exists v, loads (Py.strip text) = Return v) \/
  decode_fails (loads (Py.strip text)) = true.
Proof.
  split.
  - intros [v Hv]. destruct (loads (Py.strip text)) as [w|e] eqn:E.
    + left. now exists w.
    + right. cbn [decode_fails]. destruct (is_JSONDecodeError e) eqn:Ed; [reflexivity|].
      assert (H : _extract_json text = Raise e) by (apply extract_json_raises; auto).
      congruence.
  - intros H. destruct (_extract_json text) as [v|e] eqn:E; [now exists v|].
    apply extract_json_raises in E as [E Ed]. rewrite E in H.
    destruct H as [[v Hv] | H]; [discriminate | cbn [decode_fails] in H; congruence].
Qed.

(** ** Strings written by the encoder and read by the decoder *)

Lemma hex4_hex_digit (c : ascii) :
  hex4 "0" "0" (hex_digit (Py.code c / 16)) (hex_digit (Py.code c mod 16))
  = Some (Py.code c).
Proof. destruct c as [[] [] [] [] [] [] [] []]; vm_compute; reflexivity. Qed.

Lemma code_not_surrogate (c : ascii) : high_surrogate (Py.code c) = false.
Proof. destruct c as [[] [] [] [] [] [] [] []]; vm_compute; reflexivity. Qed.

Lemma scan_string_unicode (h1 h2 h3 h4 : ascii) (u : N) (r : list ascii)
  (acc : list N) (n : nat) :
  hex4 h1 h2 h3 h4 = Some u -> high_surrogate u = false ->
  scan_string (backslash :: "u"%char :: h1 :: h2 :: h3 :: h4 :: r) acc n
  = scan_string r (u :: acc) (n + 6).
Proof.
  intros Hh Hs. cbn [scan_string].
  change (eqc backslash dquote) with false.
  change (eqc backslash backslash) with true.
  change (eqc "u" "u") with true. cbv iota. rewrite Hh, Hs. cbn [andb].
  destruct r as [|? [|? [|? [|? [|? [|? r]]]]]]; reflexivity.
Qed.

Lemma scan_string_plain (c : ascii) (r : list ascii) (acc : list N) (n : nat) :
  eqc c dquote = false -> eqc c backslash = false -> (Py.code c <? 32)%N = false ->
  scan_string (c :: r) acc n = scan_string r (Py.code c :: acc) (S n).
Proof. intros E1 E2 E3. cbn [scan_string]. now rewrite E1, E2, E3. Qed.

(** One character as the encoder writes it is read back as its code. *)
Lemma scan_string_escape_char (c : ascii) (r : list ascii) (acc : list N) (n : nat) :
  scan_string (list_ascii_of_string (escape_char c) ++ r) acc n
  = scan_string r (Py.code c :: acc) (n + String.length (escape_char c)).
Proof.
  unfold escape_char.
  destruct (eqc c dquote) eqn:E1.
  { apply Ascii.eqb_eq in E1. subst c. reflexivity. }
  destruct (eqc c backslash) eqn:E2.
  { apply Ascii.eqb_eq in E2. subst c. reflexivity. }
  destruct (Py.between 32 126 c) eqn:E3.
  { cbn [list_ascii_of_string app String.length]. rewrite Nat.add_1_r.
    apply scan_string_plain; [exact E1 | exact E2 |].
    unfold Py.between in E3. apply andb_true_iff in E3 as [E3 _].
    apply N.leb_le in E3. apply N.ltb_ge. exact E3. }
  destruct (eqc c "010") eqn:E4.
  { apply Ascii.eqb_eq in E4. subst c. reflexivity. }
  destruct (eqc c "013") eqn:E5.
  { apply Ascii.eqb_eq in E5. subst c. reflexivity. }
  destruct (eqc c "009") eqn:E6.
  { apply Ascii.eqb_eq in E6. subst c. reflexivity. }
  destruct (eqc c "008") eqn:E7.
  { apply Ascii.eqb_eq in E7. subst c. reflexivity. }
  destruct (eqc c "012") eqn:E8.
  { apply Ascii.eqb_eq in E8. subst c. reflexivity. }
  cbn [list_ascii_of_string append app String.length].
  apply scan_string_unicode; [apply hex4_hex_digit | apply code_not_surrogate].
Qed.

Lemma escape_app_chars (c : ascii) (s : string) :
  list_ascii_of_string (escape (String c s))
  = (list_ascii_of_string (escape_char c) ++ list_ascii_of_string (escape s))%list.
Proof. cbn [escape]. apply chars_app. Qed.

(** A whole string between its quotes. *)
Lemma scan_string_escape (s : string) (r : list ascii) (acc : list N) (n : nat) :
  scan_string (list_ascii_of_string (escape s) ++ dquote :: r) acc n
  = (TString (rev acc ++ ustr_of s)%list, S (n + String.length (escape s))).
Proof.
  revert acc n; induction s as [|c s IH]; intros acc n.
  - cbn [escape list_ascii_of_string app scan_string String.length].
    change (eqc dquote dquote) with true. cbv iota.
    now rewrite app_nil_r, Nat.add_0_r.
  - rewrite escape_app_chars, <- app_assoc, scan_string_escape_char, IH.
    cbn [escape]. f_equal.
    + unfold ustr_of. cbn [list_ascii_of_string map rev].
      rewrite <- app_assoc. reflexivity.
    + assert (L : forall a b, String.length (a ++ b) = String.length a + String.length b).
      { intros a b. induction a; cbn; congruence. }
      rewrite L. lia.
Qed.

Lemma tokenize_skip (p r : list ascii) :
  tokenize (List.length p) (p ++ r) = tokenize 0 r.
Proof.
  induction p as [|c p IH]; [reflexivity|].
  cbn [List.length app]. destruct r as [|d r].
  - rewrite app_nil_r. clear IH. cbn [tokenize].
    induction p as [|e p IH]; [reflexivity | exact IH].
  - cbn [tokenize]. exact IH.
Qed.

(** The token of a string the encoder wrote. *)
Lemma tokenize_dumps_str (s : string) (r : list ascii) :
  tokenize 0 (list_ascii_of_string (dumps_str s) ++ r)
  = TString (ustr_of s) :: tokenize 0 r.
Proof.
  unfold dumps_str, Py.dq. rewrite !chars_app.
  cbn [list_ascii_of_string app]. rewrite <- app_assoc. cbn [app tokenize].
  change (ascii_of_nat 34) with dquote.
  change (json_ws dquote) with false. change (punct dquote) with (@None token).
  change (eqc dquote dquote) with true. cbv iota.
  rewrite scan_string_escape. cbn [rev app]. f_equal.
  replace (S (0 + String.length (escape s)))
    with (List.length (list_ascii_of_string (escape s) ++ [dquote])%list)
    by (rewrite length_app, chars_length; cbn [List.length]; lia).
  replace (list_ascii_of_string (escape s) ++ dquote :: r)%list
    with ((list_ascii_of_string (escape s) ++ [dquote]) ++ r)%list
    by (rewrite <- app_assoc; reflexivity).
  apply tokenize_skip.
Qed.

Import Terms.

Lemma tokenize_items (l : list string) (r : list ascii) :
  (forall c r', r = c :: r' -> json_ws c = false) ->
  tokenize 0 (list_ascii_of_string (Py.join ", " (map dumps_str l)) ++ r)
  = (items_tokens l ++ tokenize 0 r)%list.
Proof.
  intros Hr. induction l as [|s l IH]; [reflexivity|].
  destruct l as [|s' l].
  - cbn [map Py.join items_tokens app]. apply tokenize_dumps_str.
  - change (Py.join ", " (map dumps_str (s :: s' :: l)))
      with (dumps_str s ++ ", " ++ Py.join ", " (map dumps_str (s' :: l))).
    rewrite chars_app, <- app_assoc, tokenize_dumps_str.
    change (items_tokens (s :: s' :: l))
      with (TString (ustr_of s) :: TComma :: items_tokens (s' :: l)).
    cbn [app]. f_equal. rewrite chars_app, <- app_assoc.
    cbn [list_ascii_of_string app tokenize].
    change (json_ws ",") with false. change (punct ",") with (Some TComma).
    change (json_ws " ") with true. cbv iota. f_equal. exact IH.
Qed.

Lemma run_items (l : list string) :
  forall (acc : list json) (e : expect),
    l <> [] -> e = Value \/ e = ValueOrClose ->
    run (items_tokens l ++ [TRBracket]) e [FList acc]
    = Return (JList (rev acc ++ map jstr l)).
Proof.
  induction l as [|s l IH]; intros acc e Hl He; [contradiction|].
  destruct l as [|s' l].
  - cbn [items_tokens app run].
    destruct He as [-> | ->]; reflexivity.
  - change (items_tokens (s :: s' :: l))
      with (TString (ustr_of s) :: TComma :: items_tokens (s' :: l)).
    cbn [app run].
    destruct He as [-> | ->]; cbn [step deliver];
      (rewrite IH by (discriminate || now left));
      cbn [rev map]; now rewrite <- app_assoc.
Qed.

(** X6.  The list of tool names that the prompt shows, as [json.dumps]
    writes it, is read back by [json.loads] as the same list of strings,
    whatever characters the names hold. *)
Theorem dumps_strs_round_trip (l : list string) :
  loads (dumps_strs l) = Return (JList (map jstr l)).
Proof.
  unfold loads, dumps_strs. rewrite !chars_app.
  cbn [list_ascii_of_string app tokenize].
  change (json_ws "[") with false. change (punct "[") with (Some TLBracket).
  cbv iota. rewrite tokenize_items by (intros c r' [= <- _]; reflexivity).
  cbn [tokenize]. change (json_ws "]") with false.
  change (punct "]") with (Some TRBracket). cbv iota.
  cbn [run step].
  change (open_container (FList []) ValueOrClose [])
    with (Return (A := expect * list frame) (ValueOrClose, [FList []])).
  cbv iota. destruct l as [|s l]; [reflexivity|].
  now rewrite run_items by (discriminate || now right).
Qed.

(** ** Objects of strings written by the encoder *)

Import Try.

Lemma escape_ascii_code (c : ascii) :
  Encoder.escape_ascii (Py.code c) = escape_char c.
Proof. destruct c as [[] [] [] [] [] [] [] []]; vm_compute; reflexivity. Qed.

Lemma append_empty (s : string) : s ++ "" = s.
Proof. induction s as [|c s IH]; cbn; congruence. Qed.

Lemma concat_cons (x : string) (l : list string) :
  String.concat "" (x :: l) = x ++ String.concat "" l.
Proof. destruct l; cbn [String.concat]; [now rewrite append_empty | reflexivity]. Qed.

Lemma encode_basestring_ascii (s : string) :
  Encoder.py_encode_basestring_ascii (ustr_of s) = dumps_str s.
Proof.
  unfold Encoder.py_encode_basestring_ascii, dumps_str. do 2 f_equal.
  unfold ustr_of. induction s as [|c s IH]; [reflexivity|].
  cbn [list_ascii_of_string map escape]. rewrite concat_cons, IH.
  change (N_of_ascii c) with (Py.code c). now rewrite escape_ascii_code.
Qed.

Lemma sequence_fields (floatstr : string -> string) (indent : option nat)
  (level : nat) (fields : list (string * string)) :
  sequence
    (map (fun kv : ustr * json =>
            and_then (Encoder.iterencode floatstr indent level (snd kv))
              (fun chunk =>
                 Return (Encoder.py_encode_basestring_ascii (fst kv) ++
                         Encoder.key_separator ++ chunk)))
       (map (fun kv : string * string => (key (fst kv), jstr (snd kv))) fields))
  = Return (map field_text fields).
Proof.
  induction fields as [|[k v] fields IH]; [reflexivity|].
  cbn [map sequence fst snd]. unfold jstr at 1. cbn [Encoder.iterencode and_then].
  rewrite IH. unfold field_text, key. cbn [fst snd].
  now rewrite !encode_basestring_ascii.
Qed.

(** What [json.dumps] writes for an object of strings. *)
Lemma dumps_flat_object (floatstr : string -> string) (indent : option nat)
  (fields : list (string * string)) :
  fields <> [] ->
  Encoder.dumps floatstr indent (flat_object fields)
  = Return (Encoder.container "{" "}" indent 0 (map field_text fields)).
Proof.
  intros H. destruct fields as [|kv fields]; [contradiction|].
  unfold Encoder.dumps, flat_object.
  change (map (fun kv0 : string * string => (key (fst kv0), jstr (snd kv0))) (kv :: fields))
    with ((key (fst kv), jstr (snd kv)) ::
          map (fun kv0 : string * string => (key (fst kv0), jstr (snd kv0))) fields).
  cbn [Encoder.iterencode].
  change (recursion_limit <=? 0)%nat with false. cbv iota.
  change ((key (fst kv), jstr (snd kv)) ::
          map (fun kv0 : string * string => (key (fst kv0), jstr (snd kv0))) fields)
    with (map (fun kv0 : string * string => (key (fst kv0), jstr (snd kv0))) (kv :: fields)).
  now rewrite sequence_fields.
Qed.

Lemma tokenize_ws (ws r : list ascii) :
  forallb json_ws ws = true -> tokenize 0 (ws ++ r) = tokenize 0 r.
Proof.
  induction ws as [|c ws IH]; [reflexivity|].
  cbn [forallb app tokenize]. intros H. apply andb_true_iff in H as [Hc Hws].
  rewrite Hc. now apply IH.
Qed.

Lemma tokenize_field (kv : string * string) (r : list ascii) :
  tokenize 0 (list_ascii_of_string (field_text kv) ++ r)
  = TString (ustr_of (fst kv)) :: TColon :: TString (ustr_of (snd kv)) :: tokenize 0 r.
Proof.
  unfold field_text. rewrite !chars_app, <- !app_assoc, tokenize_dumps_str.
  f_equal. cbn [list_ascii_of_string app tokenize].
  change (json_ws ":") with false. change (punct ":") with (Some TColon).
  change (json_ws " ") with true. cbv iota. f_equal.
  apply tokenize_dumps_str.
Qed.

Lemma tokenize_fields (ws : string) (fields : list (string * string)) (r : list ascii) :
  forallb json_ws (list_ascii_of_string ws) = true ->
  tokenize 0 (list_ascii_of_string (Py.join ("," ++ ws) (map field_text fields)) ++ r)
  = (fields_tokens fields ++ tokenize 0 r)%list.
Proof.
  intros Hws. induction fields as [|kv fields IH]; [reflexivity|].
  destruct fields as [|kv' fields].
  - cbn [map Py.join fields_tokens app]. apply tokenize_field.
  - change (Py.join ("," ++ ws) (map field_text (kv :: kv' :: fields)))
      with (field_text kv ++ ("," ++ ws) ++
            Py.join ("," ++ ws) (map field_text (kv' :: fields))).
    rewrite chars_app, <- app_assoc, tokenize_field.
    change (fields_tokens (kv :: kv' :: fields))
      with (TString (ustr_of (fst kv)) :: TColon :: TString (ustr_of (snd kv)) ::
            TComma :: fields_tokens (kv' :: fields)).
    cbn [app]. do 3 f_equal.
    rewrite !chars_app, <- !app_assoc. cbn [list_ascii_of_string app tokenize].
    change (json_ws ",") with false. change (punct ",") with (Some TComma).
    cbv iota. f_equal. rewrite tokenize_ws by exact Hws. exact IH.
Qed.

Lemma spaces_ws (n : nat) :
  forallb json_ws (list_ascii_of_string (Encoder.spaces n)) = true.
Proof.
  unfold Encoder.spaces. rewrite list_ascii_of_string_of_list_ascii.
  induction n as [|n IH]; [reflexivity | exact IH].
Qed.

Lemma newline_indent_ws (indent : option nat) (level : nat) :
  forallb json_ws (list_ascii_of_string (Encoder.newline_indent indent level)) = true.
Proof.
  destruct indent as [width|]; [|reflexivity].
  unfold Encoder.newline_indent. rewrite chars_app, forallb_app.
  now rewrite spaces_ws.
Qed.

Lemma item_separator_ws (indent : option nat) (level : nat) :
  exists ws,
    Encoder.item_separator indent ++ Encoder.newline_indent indent level = "," ++ ws /\
    forallb json_ws (list_ascii_of_string ws) = true.
Proof.
  destruct indent as [width|].
  - exists (Encoder.newline_indent (Some width) level).
    split; [reflexivity | apply newline_indent_ws].
  - exists " ". split; reflexivity.
Qed.

(** The tokens of an object of strings as the encoder writes it. *)
Lemma tokenize_container (indent : option nat) (fields : list (string * string)) :
  tokenize 0 (list_ascii_of_string
                (Encoder.container "{" "}" indent 0 (map field_text fields)))
  = (TLBrace :: fields_tokens fields ++ [TRBrace])%list.
Proof.
  unfold Encoder.container.
  destruct (item_separator_ws indent 1) as (ws & -> & Hws).
  rewrite !chars_app. cbn [list_ascii_of_string app tokenize].
  change (json_ws "{") with false. change (punct "{") with (Some TLBrace).
  cbv iota. f_equal.
  rewrite tokenize_ws by apply newline_indent_ws.
  rewrite tokenize_fields by exact Hws. f_equal.
  rewrite tokenize_ws by apply newline_indent_ws.
  reflexivity.
Qed.

Lemma dict_set_fresh (k : ustr) (v : json) (d : list (ustr * json)) :
  forallb (fun k' => negb (ustr_eqb k k')) (map fst d) = true ->
  dict_set k v d = (d ++ [(k, v)])%list.
Proof.
  induction d as [|[k' v'] d IH]; [reflexivity|].
  cbn [map fst forallb dict_set app]. intros H.
  apply andb_true_iff in H as [Hk Hd]. apply negb_true_iff in Hk.
  rewrite Hk. now rewrite IH.
Qed.

Lemma fold_dict_set (ps d : list (ustr * json)) :
  distinct (map fst d ++ map fst ps) = true ->
  fold_left (fun d kv => dict_set (fst kv) (snd kv) d) ps d = (d ++ ps)%list.
Proof.
  revert d; induction ps as [|[k v] ps IH]; intros d H.
  - now rewrite app_nil_r.
  - cbn [fold_left fst snd]. rewrite dict_set_fresh.
    + rewrite IH; [now rewrite <- app_assoc|].
      rewrite map_app. cbn [map fst app]. now rewrite <- app_assoc.
    + clear IH. cbn [map fst] in H. induction d as [|[k' v'] d IHd]; [reflexivity|].
      cbn [map fst app distinct forallb] in *.
      apply andb_true_iff in H as [Hf Hd].
      unfold fresh in Hf. rewrite forallb_app in Hf.
      apply andb_true_iff in Hf as [_ Hf]. cbn [forallb] in Hf.
      apply andb_true_iff in Hf as [Hf _]. rewrite Hf. now apply IHd.
Qed.

(** Pairs with distinct keys make the dict that lists them in order. *)
Lemma dict_of_pairs_distinct (ps : list (ustr * json)) :
  distinct (map fst ps) = true -> dict_of_pairs ps = ps.
Proof. intros H. unfold dict_of_pairs. now rewrite fold_dict_set. Qed.

Lemma run_fields (fields : list (string * string)) :
  forall (acc : list (ustr * json)) (e : expect),
    fields <> [] -> e = KeyOrClose \/ e = Key ->
    run (fields_tokens fields ++ [TRBrace]) e [FDict acc]
    = Return (JDict (dict_of_pairs
                       (rev acc ++
                        map (fun kv => (key (fst kv), jstr (snd kv))) fields))).
Proof.
  induction fields as [|kv fields IH]; intros acc e Hf He; [contradiction|].
  destruct fields as [|kv' fields].
  - cbn [fields_tokens app run].
    destruct He as [-> | ->]; reflexivity.
  - change (fields_tokens (kv :: kv' :: fields))
      with (TString (ustr_of (fst kv)) :: TColon :: TString (ustr_of (snd kv)) ::
            TComma :: fields_tokens (kv' :: fields)).
    cbn [app run].
    destruct He as [-> | ->]; cbn [step deliver];
      (rewrite IH by (discriminate || now right));
      cbn [rev map]; now rewrite <- app_assoc.
Qed.

(** What [json.loads] makes of an object of strings that the encoder
    wrote, with or without indent. *)
Lemma loads_flat_object (indent : option nat) (fields : list (string * string)) :
  fields <> [] ->
  distinct (map (fun kv => key (fst kv)) fields) = true ->
  loads (Encoder.container "{" "}" indent 0 (map field_text fields))
  = Return (flat_object fields).
Proof.
  intros Hf Hd. unfold loads. rewrite tokenize_container.
  cbn [run step].
  change (open_container (FDict []) KeyOrClose [])
    with (Return (A := expect * list frame) (KeyOrClose, [FDict []])).
  cbv iota. rewrite run_fields by (assumption || now left).
  cbn [rev app]. rewrite dict_of_pairs_distinct; [reflexivity|].
  now rewrite map_map.
Qed.

(** An object of strings survives the round trip through [json.dumps] and
    [json.loads]. *)
Lemma flat_object_round_trip (floatstr : string -> string) (indent : option nat)
  (fields : list (string * string)) :
  fields <> [] ->
  distinct (map (fun kv => key (fst kv)) fields) = true ->
  exists s, Encoder.dumps floatstr indent (flat_object fields) = Return s /\
            loads s = Return (flat_object fields).
Proof.
  intros Hf Hd. eexists. split; [now apply dumps_flat_object|].
  now apply loads_flat_object.
Qed.

(** ** The market data tool *)

Lemma error_reply (floatstr : string -> string) (fields : list (string * string)) :
  fields <> [] ->
  distinct (map (fun kv => key (fst kv)) fields) = true ->
  exists s, Encoder.dumps floatstr None (flat_object fields) = Return s /\
            loads s = Return (flat_object fields).
Proof. apply flat_object_round_trip. Qed.

(** A handler that answers with an object of strings turns every
    exception of the body into a text that parses back to that object, and
    never raises itself. *)
Lemma catch_error_reply (floatstr : string -> string) (body : outcome string)
  (fields : exn -> list (string * string)) (e : exn) :
  fields e <> [] ->
  distinct (map (fun kv => key (fst kv)) (fields e)) = true ->
  body = Raise e ->
  exists s,
    catch body (fun e => Encoder.dumps floatstr None (flat_object (fields e)))
    = Return s /\
    loads s = Return (flat_object (fields e)).
Proof. intros Hf Hd ->. cbn [catch]. now apply error_reply. Qed.

Lemma catch_returns (floatstr : string -> string) (body : outcome string)
  (fields : exn -> list (string * string)) :
  (forall e, fields e <> [] /\
             distinct (map (fun kv => key (fst kv)) (fields e)) = true) ->
  exists s,
    catch body (fun e => Encoder.dumps floatstr None (flat_object (fields e)))
    = Return s.
Proof.
  intros H. destruct body as [s|e] eqn:E; [now exists s|].
  destruct (H e) as [Hf Hd].
  destruct (catch_error_reply floatstr (Raise e) fields e Hf Hd eq_refl) as (s & Hs & _).
  now exists s.
Qed.

Lemma fetch_market_data_returns (w : World.world) (symbol : string) :
  exists s, MarketData.fetch_market_data w symbol = Return s.
Proof.
  apply (catch_returns _ _
           (fun e => [ ("error", exn_str e); ("symbol", symbol);
                       ("note", "Market data unavailable") ])).
  intros e. split; [discriminate | reflexivity].
Qed.

(** X7.  Whatever is raised inside the [try] of [fetch_market_data] (by the
    request, by reading the body, by the navigation of the answer, by the
    arithmetic or by the encoder) comes back as a JSON object: the text
    returned parses back to the message of the exception, the symbol and
    the fixed note, whatever characters the message and the symbol hold. *)
Theorem fetch_market_data_failure_reply (w : World.world) (symbol : string) (e : exn) :
  MarketData.fetch w symbol = Raise e ->
  exists s,
    MarketData.fetch_market_data w symbol = Return s /\
    loads s = Return (flat_object [ ("error", exn_str e); ("symbol", symbol);
                                    ("note", "Market data unavailable") ]).
Proof.
  intros H.
  apply (catch_error_reply _ _
           (fun e => [ ("error", exn_str e); ("symbol", symbol);
                       ("note", "Market data unavailable") ]));
    [discriminate | reflexivity | exact H].
Qed.

Lemma fetch_market_data_failure_reply_witness :
  exists s,
    MarketData.fetch_market_data
      (sample_world [] (Return "") (Return "")
         (Raise (Exn OtherError "Connection refused"))) "TCS.NS" = Return s /\
    loads s = Return (flat_object [ ("error", "Connection refused");
                                    ("symbol", "TCS.NS");
                                    ("note", "Market data unavailable") ]).
Proof.
  apply (fetch_market_data_failure_reply _ "TCS.NS" (Exn OtherError "Connection refused")).
  reflexivity.
Defined.

(** X8.  A status other than 200 is reported, not raised: the text returned
    parses back to an object with the line "Failed to fetch data: " followed
    by the status code, and the symbol. *)
Theorem fetch_market_data_bad_status (w : World.world) (symbol : string)
  (response : World.Response) (code : string) :
  World.requests_get w (chart_url symbol) chart_params 10 = Return response ->
  World.status_code response <> 200%Z ->
  Encoder.repr_int (World.status_code response) = Return code ->
  exists s,
    MarketData.fetch_market_data w symbol = Return s /\
    loads s = Return (flat_object [ ("error", "Failed to fetch data: " ++ code);
                                    ("symbol", symbol) ]).
Proof.
  intros Hr Hs Hc. unfold MarketData.fetch_market_data, MarketData.fetch.
  fold (chart_url symbol). fold chart_params. rewrite Hr. cbn [and_then].
  apply Z.eqb_neq in Hs. rewrite Hs, Hc. cbn [and_then].
  destruct (error_reply (World.floatstr w)
              [ ("error", "Failed to fetch data: " ++ code); ("symbol", symbol) ])
    as (s & Hd & Hl); [discriminate | reflexivity |].
  exists s. split; [|exact Hl].
  unfold flat_object in Hd. cbn [map fst snd] in Hd. rewrite Hd. reflexivity.
Qed.

Lemma fetch_market_data_bad_status_witness :
  exists s,
    MarketData.fetch_market_data
      (sample_world [] (Return "") (Return "")
         (Return (World.NewResponse 404 (Raise (Exn OtherError "no body")))))
      "TCS.NS" = Return s /\
    loads s = Return (flat_object [ ("error", "Failed to fetch data: " ++ "404");
                                    ("symbol", "TCS.NS") ]).
Proof.
  apply (fetch_market_data_bad_status _ "TCS.NS"
           (World.NewResponse 404 (Raise (Exn OtherError "no body"))) "404").
  - reflexivity.
  - discriminate.
  - reflexivity.
Defined.

(** X9.  A body that is not a JSON object is reported as an error of the
    interpreter: with status 200 and a body that decodes to a list, a
    string, a number, a truth value or null, the text returned parses back
    to the message that the value has no attribute [get], the symbol and
    the note. *)
Theorem fetch_market_data_body_not_object (w : World.world) (symbol : string)
  (response : World.Response) (data : json) :
  World.requests_get w (chart_url symbol) chart_params 10 = Return response ->
  World.status_code response = 200%Z ->
  World.json_ response = Return data ->
  is_dict data = false ->
  exists s,
    MarketData.fetch_market_data w symbol = Return s /\
    loads s = Return (flat_object
                        [ ("error", "'" ++ Value.type_name data ++
                                    "' object has no attribute 'get'");
                          ("symbol", symbol);
                          ("note", "Market data unavailable") ]).
Proof.
  intros Hr Hs Hj Hd.
  apply (catch_error_reply _ _
           (fun e => [ ("error", exn_str e); ("symbol", symbol);
                       ("note", "Market data unavailable") ])
           (Exn AttributeError
              ("'" ++ Value.type_name data ++ "' object has no attribute 'get'")));
    [discriminate | reflexivity |].
  unfold MarketData.fetch. fold (chart_url symbol). fold chart_params.
  rewrite Hr. cbn [and_then]. rewrite Hs. cbn [Z.eqb Pos.eqb and_then].
  rewrite Hj. cbn [and_then].
  destruct data; try reflexivity. discriminate.
Qed.

Lemma fetch_market_data_body_not_object_witness :
  exists s,
    MarketData.fetch_market_data
      (sample_world [] (Return "") (Return "")
         (Return (World.NewResponse 200 (Return (JList [])))))
      "TCS.NS" = Return s /\
    loads s = Return (flat_object
                        [ ("error", "'" ++ Value.type_name (JList []) ++
                                    "' object has no attribute 'get'");
                          ("symbol", "TCS.NS");
                          ("note", "Market data unavailable") ]).
Proof.
  apply (fetch_market_data_body_not_object _ "TCS.NS"
           (World.NewResponse 200 (Return (JList []))) (JList []));
    reflexivity.
Defined.

Lemma tokenize_punct (c : ascii) (t : token) (r : list ascii) :
  json_ws c = false -> punct c = Some t ->
  tokenize 0 (c :: r) = t :: tokenize 0 r.
Proof. intros Hw Hp. cbn [tokenize]. now rewrite Hw, Hp. Qed.

Lemma tokenize_space (c : ascii) (r : list ascii) :
  json_ws c = true -> tokenize 0 (c :: r) = tokenize 0 r.
Proof. intros Hw. cbn [tokenize]. now rewrite Hw. Qed.

Lemma tokenize_empty_market_data_head (r : list ascii) :
  tokenize 0 (list_ascii_of_string empty_market_data_head ++ r)
  = TLBrace :: TString (key "symbol") :: TColon :: tokenize 0 r.
Proof.
  change empty_market_data_head
    with ("{" ++ Py.newline ++ "  " ++ dumps_str "symbol" ++ ": ").
  rewrite !chars_app, <- !app_assoc. unfold Py.newline.
  cbn [list_ascii_of_string app].
  rewrite (tokenize_punct "{" TLBrace) by reflexivity.
  rewrite !tokenize_space by reflexivity.
  rewrite tokenize_dumps_str.
  rewrite (tokenize_punct ":" TColon) by reflexivity.
  rewrite !tokenize_space by reflexivity.
  reflexivity.
Qed.

Lemma dumps_empty_market_data (floatstr : string -> string) (symbol : string) :
  Encoder.dumps floatstr (Some 2) (empty_market_data symbol)
  = Return (empty_market_data_head ++ dumps_str symbol ++ empty_market_data_tail).
Proof.
  rewrite <- encode_basestring_ascii.
  unfold Encoder.dumps, empty_market_data, jstr.
  cbn [Encoder.iterencode map sequence and_then fst snd].
  change (recursion_limit <=? 0)%nat with false.
  change (recursion_limit <=? 1)%nat with false.
  cbv iota. cbn [and_then sequence].
  f_equal. unfold Encoder.container. cbn [Py.join].
  rewrite !append_assoc. reflexivity.
Qed.

Lemma loads_empty_market_data (symbol : string) :
  loads (empty_market_data_head ++ dumps_str symbol ++ empty_market_data_tail)
  = Return (empty_market_data symbol).
Proof.
  unfold loads. rewrite !chars_app, tokenize_empty_market_data_head.
  rewrite tokenize_dumps_str.
  let t := eval vm_compute in
             (tokenize 0 (list_ascii_of_string empty_market_data_tail)) in
  change (tokenize 0 (list_ascii_of_string empty_market_data_tail)) with t.
  reflexivity.
Qed.

(** X10.  An answer of the service that says nothing about the symbol is not
    an error: with status 200 and a JSON object without the key [chart],
    the defaults of the navigation give a record in which every field but
    the symbol is null, no arithmetic is done, and the text returned
    parses back to that record. *)
Theorem fetch_market_data_without_chart (w : World.world) (symbol : string)
  (response : World.Response) (d : list (ustr * json)) :
  World.requests_get w (chart_url symbol) chart_params 10 = Return response ->
  World.status_code response = 200%Z ->
  World.json_ response = Return (JDict d) ->
  dict_get (key "chart") d = None ->
  exists s,
    MarketData.fetch_market_data w symbol = Return s /\
    loads s = Return (empty_market_data symbol).
Proof.
  intros Hr Hs Hj Hd. exists (empty_market_data_head ++ dumps_str symbol ++ empty_market_data_tail).
  split; [|apply loads_empty_market_data].
  unfold MarketData.fetch_market_data, MarketData.fetch.
  fold (chart_url symbol). fold chart_params.
  rewrite Hr. cbn [and_then]. rewrite Hs. cbn [Z.eqb Pos.eqb and_then].
  rewrite Hj. cbn [and_then Value.get]. rewrite Hd.
  cbn [and_then Value.get Value.first_item dict_get Value.truth andb].
  fold (empty_market_data symbol). rewrite dumps_empty_market_data. reflexivity.
Qed.

Lemma fetch_market_data_without_chart_witness :
  exists s,
    MarketData.fetch_market_data
      (sample_world [] (Return "") (Return "")
         (Return (World.NewResponse 200 (Return (JDict [])))))
      "TCS.NS" = Return s /\
    loads s = Return (empty_market_data "TCS.NS").
Proof.
  apply (fetch_market_data_without_chart _ "TCS.NS"
           (World.NewResponse 200 (Return (JDict []))) []);
    reflexivity.
Defined.

(** ** The transcript tool *)

Section TranscriptTool.

Import QualitativeAnalysis.

Lemma initialize_vectorstore_none (w : World.world) (settings : Config.Settings)
  (transcripts_dir : string) (g : globals) :
  fst (initialize_vectorstore w settings transcripts_dir g) = None ->
  snd (initialize_vectorstore w settings transcripts_dir g) = g.
Proof.
  unfold initialize_vectorstore. destruct (_initialized g); [reflexivity|].
  destruct (build_vectorstore w settings transcripts_dir) as [[store|]|e];
    cbn [fst snd]; [discriminate | reflexivity | reflexivity].
Qed.

Lemma initialize_vectorstore_some (w : World.world) (settings : Config.Settings)
  (transcripts_dir : string) (g : globals) (store : World.Chroma) :
  fst (initialize_vectorstore w settings transcripts_dir g) = Some store ->
  _initialized (snd (initialize_vectorstore w settings transcripts_dir g)) = true /\
  _vectorstore (snd (initialize_vectorstore w settings transcripts_dir g)) = Some store.
Proof.
  unfold initialize_vectorstore. destruct (_initialized g) eqn:Ei.
  - cbn [fst snd]. auto.
  - destruct (build_vectorstore w settings transcripts_dir) as [[store'|]|e];
      cbn [fst snd]; [|discriminate|discriminate].
    intros [= ->]. auto.
Qed.

Lemma initialize_vectorstore_cached (w : World.world) (settings : Config.Settings)
  (transcripts_dir : string) (g : globals) :
  _initialized g = true ->
  initialize_vectorstore w settings transcripts_dir g = (_vectorstore g, g).
Proof. intros H. unfold initialize_vectorstore. now rewrite H. Qed.

(** X11.  The vector store is built once.  A call of [initialize_vectorstore]
    that returns a store leaves it in the globals, and every later call
    returns that store without looking at the world, whatever directory it
    is given; a call that returns nothing leaves the globals as they were,
    so the next call tries again. *)
Theorem initialize_vectorstore_caches (w : World.world) (settings : Config.Settings)
  (transcripts_dir : string) (g : globals) :
  match fst (initialize_vectorstore w settings transcripts_dir g) with
  | Some store =>
      forall w' settings' transcripts_dir',
        initialize_vectorstore w' settings' transcripts_dir'
          (snd (initialize_vectorstore w settings transcripts_dir g))
        = (Some store, snd (initialize_vectorstore w settings transcripts_dir g))
  | None => snd (initialize_vectorstore w settings transcripts_dir g) = g
  end.
Proof.
  destruct (fst (initialize_vectorstore w settings transcripts_dir g))
    as [store|] eqn:E.
  - apply initialize_vectorstore_some in E as [Hi Hv].
    intros w' settings' dir'.
    rewrite initialize_vectorstore_cached by exact Hi. now rewrite Hv.
  - now apply initialize_vectorstore_none.
Qed.

Lemma analyze_transcripts_unfold (w : World.world) (settings : Config.Settings)
  (query : string) (g : globals) :
  fst (analyze_transcripts w settings query g)
  = catch
      (analyze w settings query
         (fst (initialize_vectorstore w settings "data/transcripts" g)))
      (fun e =>
         Encoder.dumps (World.floatstr w) None (flat_object [("error", exn_str e)])).
Proof.
  unfold analyze_transcripts.
  now destruct (initialize_vectorstore w settings "data/transcripts" g).
Qed.

Lemma analyze_transcripts_returns (w : World.world) (settings : Config.Settings)
  (query : string) (g : globals) :
  exists s, fst (analyze_transcripts w settings query g) = Return s.
Proof.
  rewrite analyze_transcripts_unfold.
  apply (catch_returns _ _ (fun e => [("error", exn_str e)])).
  intros e. split; [discriminate | reflexivity].
Qed.

(** X12.  Whatever is raised inside the [try] of [analyze_transcripts] (by
    the construction of the model, by the retrieval chain) comes back as a
    JSON object: the text returned parses back to an object whose only
    field, [error], is the message of the exception. *)
Theorem analyze_transcripts_failure_reply (w : World.world)
  (settings : Config.Settings) (query : string) (g : globals) (e : exn) :
  analyze w settings query
    (fst (initialize_vectorstore w settings "data/transcripts" g)) = Raise e ->
  exists s,
    fst (analyze_transcripts w settings query g) = Return s /\
    loads s = Return (flat_object [("error", exn_str e)]).
Proof.
  intros H. rewrite analyze_transcripts_unfold.
  apply (catch_error_reply _ _ (fun e => [("error", exn_str e)]));
    [discriminate | reflexivity | exact H].
Qed.

Lemma analyze_transcripts_failure_reply_witness :
  exists s,
    fst (analyze_transcripts
           (sample_world one_chunk (Return "") (Raise (Exn OtherError "model not found"))
              (Raise (Exn OtherError "offline")))
           ollama_settings "What about AI?" no_globals) = Return s /\
    loads s = Return (flat_object [("error", "model not found")]).
Proof.
  apply (analyze_transcripts_failure_reply _ ollama_settings "What about AI?"
           no_globals (Exn OtherError "model not found")).
  reflexivity.
Defined.

(** X13.  Without a vector store the tool answers with a fixed object and
    asks nothing of a model: whatever the query, the text returned is the
    object with the fields [error] and [suggestion], and the globals are
    those that [initialize_vectorstore] left. *)
Theorem analyze_transcripts_without_store (w : World.world)
  (settings : Config.Settings) (query : string) (g : globals) :
  fst (initialize_vectorstore w settings "data/transcripts" g) = None ->
  analyze_transcripts w settings query g
  = (Return (sq "{'error': 'No transcripts loaded', 'suggestion': 'Add transcript files to data/transcripts/'}"),
     g).
Proof.
  intros H.
  pose proof (initialize_vectorstore_none w settings "data/transcripts" g H) as Hg.
  unfold analyze_transcripts.
  destruct (initialize_vectorstore w settings "data/transcripts" g) as [store g'].
  cbn [fst snd] in *. subst store g'. reflexivity.
Qed.

Lemma analyze_transcripts_without_store_witness :
  analyze_transcripts
    (sample_world [] (Return "") (Return "") (Raise (Exn OtherError "offline")))
    ollama_settings "What about AI?" no_globals
  = (Return (sq "{'error': 'No transcripts loaded', 'suggestion': 'Add transcript files to data/transcripts/'}"),
     no_globals).
Proof.
  apply (analyze_transcripts_without_store _ ollama_settings "What about AI?" no_globals).
  reflexivity.
Defined.

(** X14.  An answer of the retrieval chain that [json.loads] does not accept,
    for whatever reason, is wrapped, not refused: the text returned parses
    back to an object with the query as it was asked, the answer as it
    came, and the fixed source, whatever characters the two hold. *)
Theorem analyze_transcripts_wraps_plain_text (w : World.world)
  (settings : Config.Settings) (query : string) (g : globals) (result : string)
  (e : exn) :
  retrieval_answered w settings query g result ->
  loads result = Raise e ->
  exists s,
    fst (analyze_transcripts w settings query g) = Return s /\
    loads s = Return (flat_object [ ("query", query); ("analysis", result);
                                    ("source", "earnings_transcripts") ]).
Proof.
  intros (store & llm & Hs & Hl & Hr) He.
  destruct (flat_object_round_trip (World.floatstr w) (Some 2)
              [ ("query", query); ("analysis", result);
                ("source", "earnings_transcripts") ])
    as (s & Hd & Hp); [discriminate | reflexivity |].
  exists s. split; [|exact Hp].
  unfold analyze_transcripts.
  destruct (initialize_vectorstore w settings "data/transcripts" g) as [store' g'].
  cbn [fst] in *. subst store'. unfold analyze.
  rewrite Hl. cbn [and_then]. rewrite Hr. cbn [and_then]. rewrite He.
  cbn [and_then catch].
  unfold flat_object in Hd. cbn [map fst snd] in Hd. now rewrite Hd.
Qed.

Lemma analyze_transcripts_wraps_plain_text_witness :
  exists s,
    fst (analyze_transcripts
           (sample_world one_chunk (Return "") (Return "Management is upbeat.")
              (Raise (Exn OtherError "offline")))
           ollama_settings "What about AI?" no_globals) = Return s /\
    loads s = Return (flat_object [ ("query", "What about AI?");
                                    ("analysis", "Management is upbeat.");
                                    ("source", "earnings_transcripts") ]).
Proof.
  apply (analyze_transcripts_wraps_plain_text _ ollama_settings "What about AI?"
           no_globals "Management is upbeat." decode_error).
  - exists (World.NewChroma one_chunk
              (World.HuggingFaceEmbeddings "sentence-transformers/all-MiniLM-L6-v2")
              "tcs_transcripts").
    exists (World.ChatOllama "http://localhost:11434" "gemma2:9b" "0.3").
    split; [reflexivity | split; reflexivity].
  - reflexivity.
Defined.

End TranscriptTool.

(** ** The financial data tool *)

Section FinancialTool.

Import FinancialExtractor.

Lemma rmatch_any (c : ascii) (t : list ascii) (g : option string) (k : cont) :
  rmatch AnyChar (c :: t) g k = k t g.
Proof. reflexivity. Qed.

(** A greedy run of any characters followed by a closing brace stops at the
    last closing brace, when what follows the pattern accepts there. *)
Lemma greedy_any_last (k : cont) (g : option string) (m : match_object)
  (post : list ascii) :
  ~ In "}"%char post -> k post g = Some m ->
  forall (mid : list ascii) (n : nat),
    (List.length (mid ++ "}"%char :: post) <= n)%nat ->
    greedy_loop (rmatch AnyChar) (fun s' g' => rmatch (Lit "}") s' g' k) n
      (mid ++ "}"%char :: post)%list g
    = Some m.
Proof.
  intros Hpost Hk. induction mid as [|c mid IH]; intros n Hn.
  - cbn [app] in *. destruct n as [|n]; [cbn in Hn; lia|].
    cbn [greedy_loop]. rewrite rmatch_any.
    replace (List.length post <? List.length ("}"%char :: post))%nat with true
      by (symmetry; apply Nat.ltb_lt; cbn; lia).
    rewrite greedy_loop_none.
    + now rewrite rmatch_char.
    + intros s g0 k' Hk'. now apply rmatch_none.
    + intros s' g' [p ->]. apply (requires_sound "}"); [reflexivity|].
      intros Hin. apply Hpost, in_or_app. now right.
  - cbn [app] in *. destruct n as [|n]; [cbn in Hn; lia|].
    cbn [greedy_loop]. rewrite rmatch_any.
    replace (List.length (mid ++ "}"%char :: post) <?
             List.length (c :: mid ++ "}"%char :: post))%nat with true
      by (symmetry; apply Nat.ltb_lt; cbn; lia).
    rewrite IH by (cbn in Hn; lia). reflexivity.
Qed.

Lemma json_match_matches (mid : string) (post : list ascii) :
  ~ In "}"%char post ->
  rmatch json_match_pattern
    (list_ascii_of_string ("{" ++ mid ++ "}") ++ post)%list None matched
  = Some (MatchObject (Some ("{" ++ mid ++ "}"))).
Proof.
  intros Hpost. unfold json_match_pattern.
  rewrite rmatch_group, rmatch_cat.
  assert (E : (list_ascii_of_string ("{" ++ mid ++ "}") ++ post)%list =
              ("{"%char :: list_ascii_of_string mid ++ "}"%char :: post)%list).
  { rewrite !chars_app. cbn [list_ascii_of_string app].
    rewrite <- app_assoc. reflexivity. }
  rewrite E at 1. rewrite rmatch_char, rmatch_cat, rmatch_star.
  apply greedy_any_last; [exact Hpost | | lia].
  unfold matched. rewrite firstn_length_diff.
  now rewrite string_of_list_ascii_of_string.
Qed.

Lemma json_match_head_mismatch (c : ascii) (t : list ascii) (g : option string)
  (k : cont) :
  c <> "{"%char -> rmatch json_match_pattern (c :: t) g k = None.
Proof.
  intros H. unfold json_match_pattern. rewrite rmatch_group, rmatch_cat.
  apply rmatch_char_mismatch. congruence.
Qed.

(** The pattern finds the text from the first opening brace to the last
    closing brace. *)
Lemma search_json_match (pre mid post : string) :
  ~ occurs "{" pre -> ~ occurs "}" post ->
  search json_match_pattern (pre ++ ("{" ++ mid ++ "}") ++ post)
  = Some (MatchObject (Some ("{" ++ mid ++ "}"))).
Proof.
  intros Hpre Hpost. unfold search. rewrite chars_app, search_skips_prefix.
  - apply search_from_here. rewrite chars_app. now apply json_match_matches.
  - intros c t Hc. apply json_match_head_mismatch. intros ->. now apply Hpre.
Qed.

Lemma search_json_match_unclosed (result : string) :
  unclosed (list_ascii_of_string result) ->
  search json_match_pattern result = None.
Proof.
  unfold search.
  induction (list_ascii_of_string result) as [|c s IH]; intros Hs;
    cbn [search_from].
  - reflexivity.
  - unfold json_match_pattern at 1. rewrite rmatch_group.
    rewrite opening_needs_closing by (reflexivity || exact Hs).
    apply IH. eapply unclosed_suffix; [apply suffix_tail | exact Hs].
Qed.

Lemma extract_financial_data_returns (w : World.world) (settings : Config.Settings)
  (file_path : string) :
  exists s, extract_financial_data w settings file_path = Return s.
Proof.
  apply (catch_returns _ _ (fun e => [("error", exn_str e)])).
  intros e. split; [discriminate | reflexivity].
Qed.

(** What the function returns once the chain has answered. *)
Lemma extract_after_chain (w : World.world) (settings : Config.Settings)
  (file_path result : string) :
  chain_answered w settings file_path result ->
  extract w settings file_path = parse_and_validate w result.
Proof.
  intros (llm & loader & documents & Hl & Hi & Hd & Hn & Hr).
  unfold extract. rewrite Hl. cbn [and_then]. rewrite Hi. cbn [and_then].
  rewrite Hd. cbn [and_then]. destruct documents as [|d ds]; [contradiction|].
  rewrite Hr. reflexivity.
Qed.

(** X15.  Whatever is raised inside the outer [try] of
    [extract_financial_data] comes back as a JSON object: the text returned
    parses back to an object whose only field, [error], is the message of
    the exception. *)
Theorem extract_financial_data_failure_reply (w : World.world)
  (settings : Config.Settings) (file_path : string) (e : exn) :
  extract w settings file_path = Raise e ->
  exists s,
    extract_financial_data w settings file_path = Return s /\
    loads s = Return (flat_object [("error", exn_str e)]).
Proof.
  intros H.
  apply (catch_error_reply _ _ (fun e => [("error", exn_str e)]));
    [discriminate | reflexivity | exact H].
Qed.

Lemma extract_financial_data_failure_reply_witness :
  exists s,
    extract_financial_data
      (sample_world one_chunk (Raise (Exn OtherError "model not found")) (Return "")
         (Raise (Exn OtherError "offline")))
      ollama_settings "data/reports" = Return s /\
    loads s = Return (flat_object [("error", "model not found")]).
Proof.
  apply (extract_financial_data_failure_reply _ ollama_settings "data/reports"
           (Exn OtherError "model not found")).
  reflexivity.
Defined.

(** X16.  An answer of the chain that is valid JSON but not an object is
    turned into an error, although it parsed: the look-up of [quarter] for
    the log line fails on a list, a string, a number, a truth value or
    null, and the text returned parses back to the object whose field
    [error] says that the value has no attribute [get]. *)
Theorem extract_financial_data_rejects_non_object (w : World.world)
  (settings : Config.Settings) (file_path result : string) (v : json) :
  chain_answered w settings file_path result ->
  loads (Py.strip result) = Return v ->
  is_dict v = false ->
  exists s,
    extract_financial_data w settings file_path = Return s /\
    loads s = Return (flat_object
                        [("error", "'" ++ Value.type_name v ++
                                   "' object has no attribute 'get'")]).
Proof.
  intros Hc Hv Hd.
  apply (catch_error_reply _ _ (fun e => [("error", exn_str e)])
           (Exn AttributeError
              ("'" ++ Value.type_name v ++ "' object has no attribute 'get'")));
    [discriminate | reflexivity |].
  rewrite (extract_after_chain w settings file_path result Hc).
  unfold parse_and_validate. rewrite Hv. cbn [and_then].
  destruct v; try reflexivity. discriminate.
Qed.

Lemma extract_financial_data_rejects_non_object_witness :
  exists s,
    extract_financial_data
      (sample_world one_chunk (Return "[1, 2]") (Return "")
         (Raise (Exn OtherError "offline")))
      ollama_settings "data/reports" = Return s /\
    loads s = Return (flat_object
                        [("error", "'" ++ Value.type_name (JList [JInt 1; JInt 2]) ++
                                   "' object has no attribute 'get'")]).
Proof.
  apply (extract_financial_data_rejects_non_object _ ollama_settings "data/reports"
           "[1, 2]" (JList [JInt 1; JInt 2])).
  - exists (World.ChatOllama "http://localhost:11434" "gemma2:9b" "0.0").
    exists (DocumentLoader.Self
              (World.NewSplitter 2000 200 [Py.newline ++ Py.newline; Py.newline; " "; ""])).
    exists one_chunk.
    split; [reflexivity|]. split; [reflexivity|]. split; [reflexivity|].
    split; [discriminate | reflexivity].
  - reflexivity.
  - reflexivity.
Defined.

(** X17.  When the answer of the chain is not valid JSON but holds an opening
    brace and, after it, a closing brace, the tool returns the text from
    the first opening brace to the last closing brace as it is, without
    parsing it: the same span that [_extract_json] tries last. *)
Theorem extract_financial_data_returns_brace_span (w : World.world)
  (settings : Config.Settings) (file_path result pre mid post : string) :
  chain_answered w settings file_path result ->
  result = pre ++ ("{" ++ mid ++ "}") ++ post ->
  ~ occurs "{" pre -> ~ occurs "}" post ->
  decode_fails (loads (Py.strip result)) = true ->
  extract_financial_data w settings file_path = Return ("{" ++ mid ++ "}") /\
  Py.slice result (Py.find "{" result) (Py.rfind "}" result + 1) = "{" ++ mid ++ "}".
Proof.
  intros Hc -> Hpre Hpost Hd. split.
  - unfold extract_financial_data.
    rewrite (extract_after_chain w settings file_path _ Hc).
    unfold parse_and_validate.
    destruct (loads (Py.strip _)) as [v|e]; [discriminate|].
    cbn [decode_fails] in Hd. cbn [and_then]. rewrite Hd.
    rewrite search_json_match by assumption. reflexivity.
  - now apply outer_span.
Qed.

Lemma extract_financial_data_returns_brace_span_witness :
  extract_financial_data
    (sample_world one_chunk (Return "Here you go: {revenue: 5} (approx.)") (Return "")
       (Raise (Exn OtherError "offline")))
    ollama_settings "data/reports" = Return ("{" ++ "revenue: 5" ++ "}") /\
  Py.slice "Here you go: {revenue: 5} (approx.)"
    (Py.find "{" "Here you go: {revenue: 5} (approx.)")
    (Py.rfind "}" "Here you go: {revenue: 5} (approx.)" + 1)
  = "{" ++ "revenue: 5" ++ "}".
Proof.
  apply (extract_financial_data_returns_brace_span _ ollama_settings "data/reports"
           "Here you go: {revenue: 5} (approx.)" "Here you go: " "revenue: 5"
           " (approx.)").
  - exists (World.ChatOllama "http://localhost:11434" "gemma2:9b" "0.0").
    exists (DocumentLoader.Self
              (World.NewSplitter 2000 200 [Py.newline ++ Py.newline; Py.newline; " "; ""])).
    exists one_chunk.
    split; [reflexivity|]. split; [reflexivity|]. split; [reflexivity|].
    split; [discriminate | reflexivity].
  - reflexivity.
  - apply not_occurs_by_mem. reflexivity.
  - apply not_occurs_by_mem. reflexivity.
  - reflexivity.
Defined.

(** X18.  When the answer of the chain is not valid JSON and no closing brace
    follows an opening brace in it, the tool reports a parse failure: the
    text returned parses back to an object with the fixed message and,
    under [raw], the answer as it came, whatever characters it holds. *)
Theorem extract_financial_data_reports_unparsed_answer (w : World.world)
  (settings : Config.Settings) (file_path result : string) :
  chain_answered w settings file_path result ->
  unclosed (list_ascii_of_string result) ->
  decode_fails (loads (Py.strip result)) = true ->
  exists s,
    extract_financial_data w settings file_path = Return s /\
    loads s = Return (flat_object [ ("error", "Failed to parse LLM output");
                                    ("raw", result) ]).
Proof.
  intros Hc Hu Hd.
  destruct (error_reply (World.floatstr w)
              [("error", "Failed to parse LLM output"); ("raw", result)])
    as (s & Hs & Hp); [discriminate | reflexivity |].
  exists s. split; [|exact Hp].
  unfold extract_financial_data.
  rewrite (extract_after_chain w settings file_path _ Hc).
  unfold parse_and_validate.
  destruct (loads (Py.strip _)) as [v|e]; [discriminate|].
  cbn [decode_fails] in Hd. cbn [and_then]. rewrite Hd.
  rewrite search_json_match_unclosed by exact Hu.
  unfold flat_object in Hs. cbn [map fst snd] in Hs. rewrite Hs. reflexivity.
Qed.

Lemma unclosed_without_brace (s : string) :
  Re.mem "{" s = false -> unclosed (list_ascii_of_string s).
Proof.
  intros H p t E. exfalso. apply (not_occurs_by_mem "{" s H).
  unfold occurs. rewrite E. apply in_or_app. right. now left.
Qed.

Lemma extract_financial_data_reports_unparsed_answer_witness :
  exists s,
    extract_financial_data
      (sample_world one_chunk (Return "I found no figures.") (Return "")
         (Raise (Exn OtherError "offline")))
      ollama_settings "data/reports" = Return s /\
    loads s = Return (flat_object [ ("error", "Failed to parse LLM output");
                                    ("raw", "I found no figures.") ]).
Proof.
  apply (extract_financial_data_reports_unparsed_answer _ ollama_settings
           "data/reports" "I found no figures.").
  - exists (World.ChatOllama "http://localhost:11434" "gemma2:9b" "0.0").
    exists (DocumentLoader.Self
              (World.NewSplitter 2000 200 [Py.newline ++ Py.newline; Py.newline; " "; ""])).
    exists one_chunk.
    split; [reflexivity|]. split; [reflexivity|]. split; [reflexivity|].
    split; [discriminate | reflexivity].
  - apply unclosed_without_brace. reflexivity.
  - reflexivity.
Defined.

(** X19.  Without chunks the chain is not run: when model and loader are
    built and the path yields no chunk, the text returned is the fixed
    object that says that no documents were loaded. *)
Theorem extract_financial_data_without_documents (w : World.world)
  (settings : Config.Settings) (file_path : string) (llm : World.llm)
  (document_loader : DocumentLoader.DocumentLoader) :
  LlmProvider.get_llm w settings "0.0" = Return llm ->
  DocumentLoader.__init__ w 2000 200 = Return document_loader ->
  load_documents w document_loader file_path = Return [] ->
  extract_financial_data w settings file_path
  = Return (sq "{'error': 'No documents loaded'}").
Proof.
  intros Hl Hi Hd. unfold extract_financial_data, extract.
  rewrite Hl. cbn [and_then]. rewrite Hi. cbn [and_then]. rewrite Hd.
  reflexivity.
Qed.

Lemma extract_financial_data_without_documents_witness :
  extract_financial_data
    (sample_world [] (Return "{}") (Return "") (Raise (Exn OtherError "offline")))
    ollama_settings "data/reports"
  = Return (sq "{'error': 'No documents loaded'}").
Proof.
  apply (extract_financial_data_without_documents _ ollama_settings "data/reports"
           (World.ChatOllama "http://localhost:11434" "gemma2:9b" "0.0")
           (DocumentLoader.Self
              (World.NewSplitter 2000 200 [Py.newline ++ Py.newline; Py.newline; " "; ""])));
    reflexivity.
Defined.

End FinancialTool.

(** ** The document loader *)

Lemma load_files_flat_map (w : World.world) (self : DocumentLoader.DocumentLoader)
  (file_extension : string) (paths : list string) (all_chunks : list World.Document) :
  DocumentLoader.load_files w self file_extension paths all_chunks
  = (all_chunks ++ flat_map (chunks_of w self file_extension) paths)%list.
Proof.
  revert all_chunks; induction paths as [|p paths IH]; intros acc;
    cbn [DocumentLoader.load_files flat_map].
  - now rewrite app_nil_r.
  - rewrite IH, <- app_assoc. reflexivity.
Qed.

(** X20.  [load_directory] returns the chunks of the files that [glob] found,
    file by file in that order, each file read with the loader that the
    extension selects; a file whose loader raises adds nothing and does not
    stop the others. *)
Theorem load_directory_collects (w : World.world)
  (self : DocumentLoader.DocumentLoader) (directory_path file_extension : string)
  (paths : list string) :
  World.exists_ w directory_path = true ->
  World.glob w directory_path ("*" ++ file_extension) = Return paths ->
  DocumentLoader.load_directory w self directory_path file_extension
  = Return (flat_map (chunks_of w self file_extension) paths) /\
  (forall file_path e,
     (if String.eqb file_extension ".pdf" then World.PyPDFLoader_load w file_path
      else World.TextLoader_load w file_path) = Raise e ->
     chunks_of w self file_extension file_path = []).
Proof.
  intros He Hg. split.
  - unfold DocumentLoader.load_directory. rewrite He, Hg. cbn [negb and_then].
    now rewrite load_files_flat_map.
  - intros p e H. unfold chunks_of, DocumentLoader.load_pdf, DocumentLoader.load_text.
    destruct (String.eqb file_extension ".pdf"); now rewrite H.
Qed.

Lemma load_directory_collects_witness :
  (DocumentLoader.load_directory three_transcripts
     (DocumentLoader.Self (World.NewSplitter 1000 150 [])) "data/transcripts" ".txt"
   = Return (flat_map
               (chunks_of three_transcripts
                  (DocumentLoader.Self (World.NewSplitter 1000 150 [])) ".txt")
               ["q1.txt"; "q2.txt"; "q3.txt"]) /\
   flat_map
     (chunks_of three_transcripts
        (DocumentLoader.Self (World.NewSplitter 1000 150 [])) ".txt")
     ["q1.txt"; "q2.txt"; "q3.txt"]
   = [World.NewDocument "Transcript q1.txt" [];
      World.NewDocument "Transcript q3.txt" []]) /\
  chunks_of three_transcripts
    (DocumentLoader.Self (World.NewSplitter 1000 150 [])) ".txt" "q2.txt" = [].
Proof.
  pose proof (load_directory_collects three_transcripts
                (DocumentLoader.Self (World.NewSplitter 1000 150 []))
                "data/transcripts" ".txt" ["q1.txt"; "q2.txt"; "q3.txt"]
                eq_refl eq_refl) as [Hall Hone].
  split; [split; [exact Hall | reflexivity]|].
  apply (Hone "q2.txt" unreadable). reflexivity.
Defined.

(** ** The provider *)

(** X21.  The name that [get_provider_name] reports is the kind of model
    that [get_llm] builds: a model of OpenAI exactly when the name is
    "openai", which is exactly when a key is given and is not empty. *)
Theorem provider_name_matches_model (w : World.world) (settings : Config.Settings)
  (temperature : string) (model : World.llm) :
  LlmProvider.get_llm w settings temperature = Return model ->
  (is_ChatOpenAI model = true <-> LlmProvider.get_provider_name settings = "openai") /\
  (is_ChatOpenAI model = true <->
   exists k, Config.openai_api_key settings = Some k /\ k <> "").
Proof.
  unfold LlmProvider.get_llm, LlmProvider.get_provider_name, Config.use_openai.
  destruct (Config.openai_api_key settings) as [k|].
  - destruct (String.eqb k "") eqn:Ek; cbn [negb].
    + apply String.eqb_eq in Ek. destruct (World.llm_raises w _); [discriminate|].
      cbn [construct]. intros [= <-]. cbn [is_ChatOpenAI].
      split; split; try discriminate. intros (k' & [= <-] & Hk). contradiction.
    + apply String.eqb_neq in Ek. destruct (World.llm_raises w _); [discriminate|].
      cbn [construct]. intros [= <-]. cbn [is_ChatOpenAI].
      split; split; auto. intros _. now exists k.
  - destruct (World.llm_raises w _); [discriminate|].
    cbn [construct]. intros [= <-]. cbn [is_ChatOpenAI].
    split; split; try discriminate. intros (k' & [=] & _).
Qed.

Lemma provider_name_matches_model_witness :
  ((is_ChatOpenAI (World.ChatOllama "http://localhost:11434" "gemma2:9b" "0.2") = true <->
    LlmProvider.get_provider_name ollama_settings = "openai") /\
   (is_ChatOpenAI (World.ChatOllama "http://localhost:11434" "gemma2:9b" "0.2") = true <->
    exists k, Config.openai_api_key ollama_settings = Some k /\ k <> "")) /\
  ((is_ChatOpenAI (World.ChatOpenAI "gpt-4o-mini" "0.2" (Some "sk-test")) = true <->
    LlmProvider.get_provider_name openai_settings = "openai") /\
   (is_ChatOpenAI (World.ChatOpenAI "gpt-4o-mini" "0.2" (Some "sk-test")) = true <->
    exists k, Config.openai_api_key openai_settings = Some k /\ k <> "")).
Proof.
  split.
  - apply (provider_name_matches_model three_transcripts ollama_settings "0.2").
    reflexivity.
  - apply (provider_name_matches_model three_transcripts openai_settings "0.2").
    reflexivity.
Defined.

(** ** The pipeline on top of the tools *)

(** X22.  [generate_forecast] returns exactly when the model answers, its
    response can be read and the recovery returns; what it returns then is
    the recovered value, the names of the tools that answered, and, as
    [raw_output], the text of the model as it came. *)
Theorem generate_forecast_returns_iff (env : imports) (self : ForecastOrchestrator)
  (task : string) (r : forecast_result) :
  fst (run_generate_forecast env self task) = Return r <->
  exists response output_text forecast_json,
    llm_invoke self (prompt_of env self task) = Return response /\
    output_text_of env response = Return output_text /\
    _extract_json output_text = Return forecast_json /\
    r = ForecastResult forecast_json
          (expected_tools_used (financial env self) (transcripts env task) (market env))
          output_text.
Proof.
  unfold run_generate_forecast. rewrite generate_forecast_unfold. cbn [fst].
  split.
  - destruct (llm_invoke self (prompt_of env self task)) as [response|e] eqn:E1;
      [|discriminate].
    destruct (output_text_of env response) as [output_text|e] eqn:E2; [|discriminate].
    destruct (_extract_json output_text) as [forecast_json|e] eqn:E3; [|discriminate].
    intros [= <-]. exists response, output_text, forecast_json.
    split; [reflexivity | split; [exact E2 | split; [exact E3 | reflexivity]]].
  - intros (response & output_text & forecast_json & E1 & E2 & E3 & ->).
    now rewrite E1, E2, E3.
Qed.

(** X23.  With the tools of the repository behind the names that the
    orchestrator imports, no tool step ever takes its failure branch: each
    of the three tools returns a text whatever the world does, so the
    context holds three labelled tool outputs, never a placeholder, and
    [tools_used] always lists the three tools, also when every one of them
    reported an error. *)
Theorem repository_tools_always_count_as_used (w : World.world)
  (settings : Config.Settings) (g : QualitativeAnalysis.globals)
  (self : ForecastOrchestrator) (task : string) (st0 : state) :
  exists financial_data transcript_analysis market_data,
    var_tool_outputs
      (snd (generate_forecast (Stack.repository_imports w settings g) self task st0))
    = [ "Financial Data:" ++ Py.newline ++ financial_data;
        "Transcript Analysis:" ++ Py.newline ++ transcript_analysis;
        "Market Data:" ++ Py.newline ++ market_data ] /\
    var_tools_used
      (snd (generate_forecast (Stack.repository_imports w settings g) self task st0))
    = all_tools /\
    forall r,
      fst (generate_forecast (Stack.repository_imports w settings g) self task st0)
      = Return r ->
      tools_used r = all_tools.
Proof.
  destruct (extract_financial_data_returns w settings (reports_dir self)) as [s1 H1].
  destruct (analyze_transcripts_returns w settings (_extract_transcript_query task) g)
    as [s2 H2].
  destruct (fetch_market_data_returns w "TCS.NS") as [s3 H3].
  exists s1, s2, s3. rewrite generate_forecast_unfold. cbn [fst snd var_tool_outputs var_tools_used].
  unfold financial, transcripts, market, Stack.repository_imports.
  cbn [extract_financial_data analyze_transcripts fetch_market_data].
  rewrite H1, H2, H3.
  split; [reflexivity|]. split; [reflexivity|].
  intros r Hr.
  destruct (llm_invoke self _) as [response|e]; [|discriminate].
  destruct (output_text_of _ response) as [output_text|e]; [|discriminate].
  destruct (_extract_json output_text) as [forecast_json|e]; [|discriminate].
  injection Hr as <-. reflexivity.
Qed.

(** X24.  The directory of transcripts that the orchestrator is built with
    is never looked at: [generate_forecast] does the same, call for call,
    whatever [transcripts_dir] holds, and the transcript tool of the
    repository always reads "data/transcripts". *)
Theorem transcripts_dir_is_ignored (w : World.world) (settings : Config.Settings)
  (g : QualitativeAnalysis.globals) (self : ForecastOrchestrator)
  (transcripts_dir' task : string) (st0 : state) :
  generate_forecast (Stack.repository_imports w settings g)
    (Self (llm_invoke self) (reports_dir self) transcripts_dir') task st0
  = generate_forecast (Stack.repository_imports w settings g) self task st0 /\
  transcripts (Stack.repository_imports w settings g) task
  = Try.catch
      (QualitativeAnalysis.analyze w settings (_extract_transcript_query task)
         (fst (QualitativeAnalysis.initialize_vectorstore w settings
                 "data/transcripts" g)))
      (fun e =>
         Encoder.dumps (World.floatstr w) None (flat_object [("error", exn_str e)])).
Proof.
  split.
  - rewrite !generate_forecast_unfold. reflexivity.
  - unfold transcripts, Stack.repository_imports.
    cbn [analyze_transcripts]. apply analyze_transcripts_unfold.
Qed.

(** ** Values written by the encoder and read by the decoder *)

(** *** Integers *)

Lemma fold_digits_acc (u : Decimal.uint) :
  forall acc : positive,
    fold_left (fun acc c => acc * 10 + digit_value c)%Z
      (list_ascii_of_string (NilEmpty.string_of_uint u)) (Z.pos acc)
    = Z.pos (Pos.of_uint_acc u acc).
Proof.
  induction u; intros acc;
    cbn [NilEmpty.string_of_uint list_ascii_of_string fold_left Pos.of_uint_acc];
    try reflexivity;
    match goal with
    | |- fold_left _ _ ?a = _ =>
        match goal with
        | |- _ = Z.pos (Pos.of_uint_acc _ ?b) =>
            replace a with (Z.pos b) by (vm_compute digit_value; lia)
        end
    end; apply IHu.
Qed.

Lemma fold_digits (u : Decimal.uint) :
  fold_left (fun acc c => acc * 10 + digit_value c)%Z
    (list_ascii_of_string (NilEmpty.string_of_uint u)) 0%Z
  = Z.of_N (Pos.of_uint u).
Proof.
  induction u;
    cbn [NilEmpty.string_of_uint list_ascii_of_string fold_left Pos.of_uint];
    try reflexivity; try exact IHu;
    match goal with
    | |- fold_left _ _ ?a = Z.of_N (N.pos (Pos.of_uint_acc _ ?b)) =>
        change a with (Z.pos b); rewrite fold_digits_acc; reflexivity
    end.
Qed.

Lemma int_of_digits (z : Z) :
  int_of (z <? 0)%Z (list_ascii_of_string (digits_of z)) = z.
Proof.
  unfold int_of, digits_of. rewrite fold_digits.
  change (Pos.of_uint (N.to_uint (Z.abs_N z))) with (N.of_uint (N.to_uint (Z.abs_N z))).
  rewrite DecimalN.Unsigned.of_to. destruct z; cbn; lia.
Qed.

Lemma digits_all (u : Decimal.uint) :
  forallb is_digit (list_ascii_of_string (NilEmpty.string_of_uint u)) = true.
Proof.
  induction u; cbn [NilEmpty.string_of_uint list_ascii_of_string forallb];
    [reflexivity | ..]; rewrite IHu; reflexivity.
Qed.

Lemma nzhead_not_D0 (d u : Decimal.uint) : Decimal.nzhead d <> Decimal.D0 u.
Proof. induction d; cbn [Decimal.nzhead]; try discriminate. exact IHd. Qed.

Lemma to_uint_normal (n : N) : Decimal.unorm (N.to_uint n) = N.to_uint n.
Proof.
  rewrite <- (DecimalN.Unsigned.of_to n) at 2.
  symmetry. apply DecimalN.Unsigned.to_of.
Qed.

(** The digits of a number are not empty, and start with a zero only when
    the number is zero. *)
Lemma digits_of_shape (z : Z) :
  exists c ds,
    list_ascii_of_string (digits_of z) = c :: ds /\
    (eqc c "0" = true -> ds = []).
Proof.
  unfold digits_of. pose proof (to_uint_normal (Z.abs_N z)) as Hn.
  destruct (N.to_uint (Z.abs_N z)) as [|u|u|u|u|u|u|u|u|u|u] eqn:E;
    cbn [NilEmpty.string_of_uint list_ascii_of_string];
    try (eexists; eexists; split; [reflexivity | discriminate]).
  - exfalso. destruct (Z.abs_N z); [discriminate|].
    cbn [N.to_uint] in E. now apply (DecimalPos.Unsigned.to_uint_nonnil p).
  - exists "0"%char, (list_ascii_of_string (NilEmpty.string_of_uint u)).
    split; [reflexivity|]. intros _.
    unfold Decimal.unorm in Hn. cbn [Decimal.nzhead] in Hn.
    destruct (Decimal.nzhead u) eqn:Eh;
      try (exfalso; apply (nzhead_not_D0 u u); congruence).
    injection Hn as <-. reflexivity.
Qed.

Lemma repr_int_text (z : Z) (s : string) :
  Encoder.repr_int z = Return s ->
  s = (if (z <? 0)%Z then "-" else "") ++ digits_of z /\
  (String.length (digits_of z) <= max_str_digits)%nat.
Proof.
  unfold Encoder.repr_int. fold (digits_of z).
  destruct (max_str_digits <? String.length (digits_of z))%nat eqn:E; [discriminate|].
  intros [= <-]. apply Nat.ltb_ge in E. split; [|exact E].
  unfold digits_of. destruct z as [|p|p]; cbn [Z.to_int Z.abs_N Z.ltb Z.compare N.to_uint].
  - reflexivity.
  - cbn [NilZero.string_of_int NilZero.string_of_uint append].
    pose proof (DecimalPos.Unsigned.to_uint_nonnil p).
    now destruct (Pos.to_uint p).
  - cbn [NilZero.string_of_int NilZero.string_of_uint append].
    pose proof (DecimalPos.Unsigned.to_uint_nonnil p).
    now destruct (Pos.to_uint p).
Qed.

Lemma span_digits_end (ds rest : list ascii) :
  forallb is_digit ds = true -> value_end rest = true ->
  span_digits (ds ++ rest) = (ds, rest).
Proof.
  intros Hd Hr. induction ds as [|c ds IH]; cbn [app].
  - destruct rest as [|c rest]; [reflexivity|]. cbn [span_digits].
    cbn [value_end] in Hr. apply negb_true_iff in Hr.
    apply orb_false_iff in Hr as [Hr _]. apply orb_false_iff in Hr as [Hr _].
    apply orb_false_iff in Hr as [Hr _]. now rewrite Hr.
  - cbn [forallb] in Hd. apply andb_true_iff in Hd as [Hc Hd].
    cbn [span_digits]. rewrite Hc, IH by exact Hd. reflexivity.
Qed.

(** A digit is none of the other characters the scanner looks for. *)
Lemma digit_is_not (c x : ascii) :
  is_digit c = true -> is_digit x = false -> eqc c x = false.
Proof.
  intros Hc Hx. destruct (eqc c x) eqn:E; [|reflexivity].
  apply Ascii.eqb_eq in E. subst x. congruence.
Qed.

Lemma scan_number_digits (c : ascii) (ds rest : list ascii) :
  forallb is_digit (c :: ds) = true ->
  (eqc c "0" = true -> ds = []) ->
  value_end rest = true ->
  scan_number (c :: ds ++ rest) = Some (TInt false (c :: ds), S (List.length ds)).
Proof.
  intros Hd H0 Hr. pose proof Hd as Hd'. cbn [forallb] in Hd'.
  apply andb_true_iff in Hd' as [Hc Hds].
  unfold scan_number.
  rewrite (digit_is_not c "-" Hc eq_refl).
  assert (E : (if eqc c "0" then ([c], (ds ++ rest)%list)
               else span_digits (c :: ds ++ rest)) = (c :: ds, rest)).
  { destruct (eqc c "0") eqn:E0.
    - rewrite (H0 eq_refl). reflexivity.
    - change (c :: ds ++ rest)%list with ((c :: ds) ++ rest)%list.
      now apply span_digits_end. }
  rewrite E.
  destruct rest as [|d rest].
  - cbn [app List.length]. rewrite app_nil_r. reflexivity.
  - cbn [value_end] in Hr. apply negb_true_iff in Hr.
    apply orb_false_iff in Hr as [Hr HE]. apply orb_false_iff in Hr as [Hr He].
    apply orb_false_iff in Hr as [_ Hdot].
    rewrite Hdot, He, HE. cbn [orb app List.length]. rewrite app_nil_r. reflexivity.
Qed.

Lemma scan_number_negative (c : ascii) (ds rest : list ascii) :
  forallb is_digit (c :: ds) = true ->
  (eqc c "0" = true -> ds = []) ->
  value_end rest = true ->
  scan_number ("-"%char :: c :: ds ++ rest)
  = Some (TInt true (c :: ds), S (S (List.length ds))).
Proof.
  intros Hd H0 Hr. pose proof Hd as Hd'. cbn [forallb] in Hd'.
  apply andb_true_iff in Hd' as [Hc Hds].
  unfold scan_number. change (eqc "-" "-") with true. cbv iota.
  assert (E : (if eqc c "0" then ([c], (ds ++ rest)%list)
               else span_digits (c :: ds ++ rest)) = (c :: ds, rest)).
  { destruct (eqc c "0") eqn:E0.
    - rewrite (H0 eq_refl). reflexivity.
    - change (c :: ds ++ rest)%list with ((c :: ds) ++ rest)%list.
      now apply span_digits_end. }
  rewrite E.
  destruct rest as [|d rest].
  - cbn [app List.length]. rewrite app_nil_r. reflexivity.
  - cbn [value_end] in Hr. apply negb_true_iff in Hr.
    apply orb_false_iff in Hr as [Hr HE]. apply orb_false_iff in Hr as [Hr He].
    apply orb_false_iff in Hr as [_ Hdot].
    rewrite Hdot, He, HE. cbn [orb app List.length]. rewrite app_nil_r. reflexivity.
Qed.

Lemma starts_mismatch (x : ascii) (p : string) (c : ascii) (r : list ascii) :
  eqc x c = false -> starts (String x p) (c :: r) = false.
Proof. intros H. cbn [starts]. now rewrite H. Qed.

Lemma eqc_sym (a b : ascii) : eqc a b = eqc b a.
Proof. unfold eqc. apply Ascii.eqb_sym. Qed.

Ltac digit_tests c Hc :=
  repeat match goal with
         | |- context [eqc c ?x] => rewrite (digit_is_not c x Hc (eq_refl false))
         | |- context [eqc ?x c] =>
             rewrite (eqc_sym x c), (digit_is_not c x Hc (eq_refl false))
         end.

(** The token of an integer as the encoder writes it. *)
Lemma tokenize_int (z : Z) (rest : list ascii) :
  value_end rest = true ->
  tokenize 0
    (list_ascii_of_string ((if (z <? 0)%Z then "-" else "") ++ digits_of z) ++ rest)
  = TInt (z <? 0)%Z (list_ascii_of_string (digits_of z)) :: tokenize 0 rest.
Proof.
  intros Hr. destruct (digits_of_shape z) as (c & ds & E & H0).
  assert (Hd : forallb is_digit (c :: ds) = true).
  { rewrite <- E. apply digits_all. }
  pose proof Hd as Hd'. cbn [forallb] in Hd'. apply andb_true_iff in Hd' as [Hc _].
  rewrite chars_app, E, <- app_assoc.
  destruct (z <? 0)%Z; cbn [list_ascii_of_string app tokenize].
  - change (json_ws "-") with false. change (punct "-") with (@None token).
    change (eqc "-" dquote) with false. cbv iota.
    unfold scan_atom.
    rewrite !starts_mismatch by reflexivity.
    rewrite scan_number_negative by assumption.
    cbn [Nat.sub]. f_equal. apply (tokenize_skip (c :: ds) rest).
  - assert (Hw : json_ws c = false).
    { unfold json_ws. digit_tests c Hc. reflexivity. }
    assert (Hp : punct c = None).
    { unfold punct. digit_tests c Hc. reflexivity. }
    rewrite Hw, Hp, (digit_is_not c dquote Hc eq_refl).
    unfold scan_atom. cbn [starts]. digit_tests c Hc. cbn [andb].
    rewrite scan_number_digits by assumption.
    cbn [Nat.sub]. rewrite Nat.sub_0_r. f_equal. apply (tokenize_skip ds rest).
Qed.

(** *** Strings of any code points *)

Ltac euclid := zify; Z.to_euclidean_division_equations; lia.

Lemma hexval_hex_digit (x : N) : (x < 16)%N -> hexval (hex_digit x) = Some x.
Proof.
  intros H. destruct x as [|p]; [reflexivity|].
  destruct p as [[[[p|p|]|[p|p|]|]|[[p|p|]|[p|p|]|]|]|[[[p|p|]|[p|p|]|]|[[p|p|]|[p|p|]|]|]|];
    try reflexivity; exfalso; lia.
Qed.

Lemma hex4_hex4_of (n : N) :
  (n < 65536)%N ->
  hex4 (hex_digit (n / 4096)) (hex_digit (n / 256 mod 16))
    (hex_digit (n / 16 mod 16)) (hex_digit (n mod 16))
  = Some n.
Proof.
  intros H. unfold hex4.
  rewrite !hexval_hex_digit by euclid. f_equal. euclid.
Qed.

Lemma lor_above (x y k : N) :
  (y < 2 ^ k)%N -> N.lor (x * 2 ^ k) y = (x * 2 ^ k + y)%N.
Proof.
  intros H. rewrite <- N.shiftl_mul_pow2.
  assert (E : N.land (N.shiftl x k) y = 0%N).
  { apply N.bits_inj_0. intros i. rewrite N.land_spec.
    destruct (N.lt_ge_cases i k) as [Hi | Hi].
    - now rewrite N.shiftl_spec_low.
    - destruct (N.eq_dec y 0) as [-> | Hy].
      + now rewrite N.bits_0, andb_false_r.
      + rewrite (N.bits_above_log2 y i), andb_false_r; [reflexivity|].
        apply N.lt_le_trans with k; [|exact Hi].
        apply N.log2_lt_pow2; lia. }
  rewrite <- N.lxor_lor by exact E. symmetry. now apply N.add_nocarry_lxor.
Qed.

(** The two halves of a code point beyond the basic plane, as the encoder
    computes them. *)
Lemma surrogate_pair (n : N) :
  (65536 <= n < 1114112)%N ->
  let m := (n - 65536)%N in
  let s1 := N.lor 55296 (N.land (N.shiftr m 10) 1023) in
  let s2 := N.lor 56320 (N.land m 1023) in
  (s1 < 65536)%N /\ (s2 < 65536)%N /\
  high_surrogate s1 = true /\ low_surrogate s2 = true /\
  join_surrogates s1 s2 = n.
Proof.
  intros H m s1 s2.
  assert (E1 : s1 = (55296 + m / 1024)%N).
  { unfold s1. change 1023%N with (N.ones 10).
    rewrite N.land_ones, N.shiftr_div_pow2. change (2 ^ 10)%N with 1024%N.
    rewrite N.mod_small by (unfold m; euclid).
    change 55296%N with (54 * 2 ^ 10)%N. apply lor_above.
    change (2 ^ 10)%N with 1024%N. unfold m. euclid. }
  assert (E2 : s2 = (56320 + m mod 1024)%N).
  { unfold s2. change 1023%N with (N.ones 10).
    rewrite N.land_ones. change (2 ^ 10)%N with 1024%N.
    change 56320%N with (55 * 2 ^ 10)%N. apply lor_above.
    change (2 ^ 10)%N with 1024%N. euclid. }
  assert (B1 : (m / 1024 < 1024)%N) by (unfold m; euclid).
  assert (B2 : (m mod 1024 < 1024)%N) by euclid.
  assert (Em : (m / 1024 * 1024 + m mod 1024 = n - 65536)%N) by (unfold m; euclid).
  clearbody s1 s2. subst s1 s2.
  generalize dependent (m / 1024)%N. generalize dependent (m mod 1024)%N.
  intros lo B2 hi B1 Em.
  split; [lia|]. split; [lia|].
  split; [unfold high_surrogate; apply andb_true_iff; split; apply N.leb_le; lia|].
  split; [unfold low_surrogate; apply andb_true_iff; split; apply N.leb_le; lia|].
  unfold join_surrogates.
  replace (55296 + hi - 55296)%N with hi by lia.
  replace (56320 + lo - 56320)%N with lo by lia.
  rewrite N.shiftl_mul_pow2, lor_above by (change (2 ^ 10)%N with 1024%N; lia).
  change (2 ^ 10)%N with 1024%N. lia.
Qed.

Lemma scan_string_pair (h1 h2 h3 h4 l1 l2 l3 l4 : ascii) (u u2 : N)
  (r : list ascii) (acc : list N) (n : nat) :
  hex4 h1 h2 h3 h4 = Some u -> high_surrogate u = true ->
  hex4 l1 l2 l3 l4 = Some u2 -> low_surrogate u2 = true ->
  scan_string
    (backslash :: "u"%char :: h1 :: h2 :: h3 :: h4 ::
     backslash :: "u"%char :: l1 :: l2 :: l3 :: l4 :: r) acc n
  = scan_string r (join_surrogates u u2 :: acc) (n + 12).
Proof.
  intros Hh Hs Hl Hw. cbn [scan_string].
  change (eqc backslash dquote) with false.
  change (eqc backslash backslash) with true.
  change (eqc "u" "u") with true. cbv iota.
  rewrite Hh, Hs, Hl, Hw. reflexivity.
Qed.

Lemma code_of_code (n : N) : (n < 256)%N -> Py.code (ascii_of_N n) = n.
Proof. apply N_ascii_embedding. Qed.

(** One code point as the encoder writes it is read back as itself. *)
Lemma scan_string_escape_ascii (n : N) (r : list ascii) (acc : list N) (k : nat) :
  plain_code n = true ->
  scan_string (list_ascii_of_string (Encoder.escape_ascii n) ++ r) acc k
  = scan_string r (n :: acc) (k + String.length (Encoder.escape_ascii n)).
Proof.
  intros Hp. unfold plain_code in Hp. apply andb_true_iff in Hp as [Hb Hs].
  apply N.ltb_lt in Hb. apply negb_true_iff in Hs.
  unfold Encoder.escape_ascii.
  destruct ((n =? 92) || (n =? 34) || negb ((32 <=? n) && (n <=? 126)))%N eqn:E.
  - unfold Encoder.replace.
    destruct (n =? 92)%N eqn:E1; [apply N.eqb_eq in E1; subst n; reflexivity|].
    destruct (n =? 34)%N eqn:E2; [apply N.eqb_eq in E2; subst n; reflexivity|].
    destruct (n =? 8)%N eqn:E3; [apply N.eqb_eq in E3; subst n; reflexivity|].
    destruct (n =? 12)%N eqn:E4; [apply N.eqb_eq in E4; subst n; reflexivity|].
    destruct (n =? 10)%N eqn:E5; [apply N.eqb_eq in E5; subst n; reflexivity|].
    destruct (n =? 13)%N eqn:E6; [apply N.eqb_eq in E6; subst n; reflexivity|].
    destruct (n =? 9)%N eqn:E7; [apply N.eqb_eq in E7; subst n; reflexivity|].
    destruct (n <? 65536)%N eqn:E8.
    + apply N.ltb_lt in E8. cbn [Encoder.unicode_escape Encoder.hex4_of
        list_ascii_of_string app String.length].
      apply scan_string_unicode; [now apply hex4_hex4_of | exact Hs].
    + apply N.ltb_ge in E8.
      destruct (surrogate_pair n (conj E8 Hb)) as (B1 & B2 & H1 & H2 & J).
      cbv zeta. rewrite chars_app, <- app_assoc.
      cbn [Encoder.unicode_escape Encoder.hex4_of list_ascii_of_string app].
      rewrite (scan_string_pair _ _ _ _ _ _ _ _ _ _ _ _ _
                 (hex4_hex4_of _ B1) H1 (hex4_hex4_of _ B2) H2).
      cbv zeta in J. rewrite J. reflexivity.
  - apply orb_false_iff in E as [E Er]. apply orb_false_iff in E as [E1 E2].
    apply negb_false_iff, andb_true_iff in Er as [Elo Ehi].
    apply N.leb_le in Elo, Ehi. apply N.eqb_neq in E1, E2.
    cbn [list_ascii_of_string app String.length]. rewrite Nat.add_1_r.
    rewrite <- (code_of_code n) at 2 by lia.
    apply scan_string_plain.
    + destruct (eqc (ascii_of_N n) dquote) eqn:Eq; [|reflexivity].
      apply Ascii.eqb_eq in Eq. apply (f_equal Py.code) in Eq.
      rewrite code_of_code in Eq by lia. now subst n.
    + destruct (eqc (ascii_of_N n) backslash) eqn:Eq; [|reflexivity].
      apply Ascii.eqb_eq in Eq. apply (f_equal Py.code) in Eq.
      rewrite code_of_code in Eq by lia. now subst n.
    + rewrite code_of_code by lia. apply N.ltb_ge. exact Elo.
Qed.

Lemma scan_string_basestring (s : ustr) (r : list ascii) :
  plain_ustr s = true ->
  forall (acc : list N) (k : nat),
    scan_string
      (list_ascii_of_string (String.concat "" (map Encoder.escape_ascii s)) ++
       dquote :: r) acc k
    = (TString (rev acc ++ s)%list,
       S (k + String.length (String.concat "" (map Encoder.escape_ascii s)))).
Proof.
  induction s as [|n s IH]; intros Hp acc k.
  - cbn [map String.concat list_ascii_of_string app scan_string String.length].
    change (eqc dquote dquote) with true. cbv iota.
    now rewrite app_nil_r, Nat.add_0_r.
  - cbn [plain_ustr forallb] in Hp. apply andb_true_iff in Hp as [Hn Hs].
    cbn [map]. rewrite concat_cons, chars_app, <- app_assoc.
    rewrite scan_string_escape_ascii by exact Hn.
    rewrite IH by exact Hs. rewrite length_append. cbn [rev].
    rewrite <- app_assoc. cbn [app]. f_equal. lia.
Qed.

(** The token of a string of plain code points as the encoder writes it. *)
Lemma tokenize_basestring (s : ustr) (r : list ascii) :
  plain_ustr s = true ->
  tokenize 0 (list_ascii_of_string (Encoder.py_encode_basestring_ascii s) ++ r)
  = TString s :: tokenize 0 r.
Proof.
  intros Hp. unfold Encoder.py_encode_basestring_ascii, Py.dq.
  rewrite !chars_app. cbn [list_ascii_of_string app]. rewrite <- app_assoc.
  cbn [app tokenize]. change (ascii_of_nat 34) with dquote.
  change (json_ws dquote) with false. change (punct dquote) with (@None token).
  change (eqc dquote dquote) with true. cbv iota.
  rewrite scan_string_basestring by exact Hp. cbn [rev app]. f_equal.
  set (body := String.concat "" (map Encoder.escape_ascii s)).
  replace (S (0 + String.length body))
    with (List.length (list_ascii_of_string body ++ [dquote])%list)
    by (rewrite length_app, chars_length; cbn [List.length]; lia).
  replace (list_ascii_of_string body ++ dquote :: r)%list
    with ((list_ascii_of_string body ++ [dquote]) ++ r)%list
    by (rewrite <- app_assoc; reflexivity).
  apply tokenize_skip.
Qed.

(** *** Containers *)

Lemma json_induction (P : json -> Prop) :
  P JNull -> (forall b, P (JBool b)) -> (forall z, P (JInt z)) ->
  (forall lexeme, P (JFloat lexeme)) -> (forall s, P (JStr s)) ->
  (forall l, Forall P l -> P (JList l)) ->
  (forall d, Forall (fun kv => P (snd kv)) d -> P (JDict d)) ->
  forall v, P v.
Proof.
  intros Hnull Hbool Hint Hfloat Hstr Hlist Hdict.
  fix IH 1. intros [ |b|z|lexeme|s|l|d].
  - exact Hnull.
  - apply Hbool.
  - apply Hint.
  - apply Hfloat.
  - apply Hstr.
  - apply Hlist. induction l as [|x l IHl]; constructor; [apply IH | exact IHl].
  - apply Hdict. induction d as [|[k x] d IHd]; constructor; [apply IH | exact IHd].
Qed.

(** Chunks that are read as token runs, joined by the item separator. *)
Lemma tokenize_joined (ws : string) (parts : list (string * list token)) :
  forallb json_ws (list_ascii_of_string ws) = true ->
  Forall (fun p => forall rest, value_end rest = true ->
                   tokenize 0 (list_ascii_of_string (fst p) ++ rest)
                   = (snd p ++ tokenize 0 rest)%list) parts ->
  forall rest, value_end rest = true ->
    tokenize 0 (list_ascii_of_string (Py.join ("," ++ ws) (map fst parts)) ++ rest)
    = (separated (map snd parts) ++ tokenize 0 rest)%list.
Proof.
  intros Hws Hparts. induction Hparts as [|p parts Hp _ IH]; intros rest Hr.
  - reflexivity.
  - destruct parts as [|p' parts].
    + cbn [map Py.join separated]. now apply Hp.
    + change (Py.join ("," ++ ws) (map fst (p :: p' :: parts)))
        with (fst p ++ ("," ++ ws) ++ Py.join ("," ++ ws) (map fst (p' :: parts))).
      change (separated (map snd (p :: p' :: parts)))
        with (snd p ++ TComma :: separated (map snd (p' :: parts)))%list.
      rewrite chars_app, <- app_assoc, Hp by reflexivity.
      rewrite <- app_assoc. f_equal.
      rewrite !chars_app, <- !app_assoc. cbn [list_ascii_of_string app].
      rewrite (tokenize_punct "," TComma) by reflexivity.
      cbn [app]. f_equal. rewrite tokenize_ws by exact Hws. now apply IH.
Qed.

Lemma value_end_newline_indent (indent : option nat) (level : nat) (c : ascii)
  (r : list ascii) :
  is_digit c = false -> eqc c "." = false -> eqc c "e" = false -> eqc c "E" = false ->
  value_end (list_ascii_of_string (Encoder.newline_indent indent level) ++ c :: r)
  = true.
Proof.
  intros H1 H2 H3 H4. destruct indent as [width|].
  - reflexivity.
  - cbn [Encoder.newline_indent list_ascii_of_string app value_end].
    now rewrite H1, H2, H3, H4.
Qed.

(** A container as the encoder writes it, from the token runs of its
    chunks. *)
Lemma tokenize_container_of (opening closing : string) (o c : ascii) (topen tclose : token)
  (indent : option nat) (level : nat) (parts : list (string * list token))
  (rest : list ascii) :
  opening = String o "" -> closing = String c "" ->
  json_ws o = false -> punct o = Some topen ->
  json_ws c = false -> punct c = Some tclose ->
  is_digit c = false -> eqc c "." = false -> eqc c "e" = false -> eqc c "E" = false ->
  Forall (fun p => forall rest, value_end rest = true ->
                   tokenize 0 (list_ascii_of_string (fst p) ++ rest)
                   = (snd p ++ tokenize 0 rest)%list) parts ->
  tokenize 0
    (list_ascii_of_string
       (Encoder.container opening closing indent level (map fst parts)) ++ rest)
  = (topen :: separated (map snd parts) ++ tclose :: tokenize 0 rest)%list.
Proof.
  intros -> -> Hwo Hpo Hwc Hpc Hd H1 H2 H3 Hparts.
  unfold Encoder.container.
  destruct (item_separator_ws indent (S level)) as (ws & -> & Hws).
  rewrite !chars_app, <- !app_assoc. cbn [list_ascii_of_string app].
  rewrite (tokenize_punct o topen) by assumption. f_equal.
  rewrite tokenize_ws by apply newline_indent_ws.
  rewrite tokenize_joined; [| exact Hws | exact Hparts |].
  - f_equal. rewrite tokenize_ws by apply newline_indent_ws.
    now apply tokenize_punct.
  - now apply value_end_newline_indent.
Qed.

Lemma depth_item (A : Type) (f : A -> nat) (x : A) (l : list A) :
  In x l -> (f x <= list_max (map f l))%nat.
Proof.
  induction l as [|y l IH]; [contradiction|].
  cbn [map list_max fold_right]. intros [-> | H]; [lia|].
  specialize (IH H). unfold list_max in IH. lia.
Qed.

(** What the encoder writes for a portable value is read as the tokens of
    that value, whatever permitted text follows. *)
Lemma iterencode_tokens (floatstr : string -> string) (indent : option nat) (v : json) :
  forall (level : nat) (rest : list ascii),
    portable v = true ->
    (level + depth v <= recursion_limit)%nat ->
    value_end rest = true ->
    exists s,
      Encoder.iterencode floatstr indent level v = Return s /\
      tokenize 0 (list_ascii_of_string s ++ rest) = (tokens v ++ tokenize 0 rest)%list.
Proof.
  induction v as [ |b|z|lexeme|s|l IH|d IH] using json_induction;
    intros level rest Hp Hd Hr.
  - exists "null". split; reflexivity.
  - destruct b; [exists "true" | exists "false"]; split; reflexivity.
  - cbn [portable] in Hp. apply Nat.leb_le in Hp.
    exists ((if (z <? 0)%Z then "-" else "") ++ digits_of z). split.
    + cbn [Encoder.iterencode]. unfold Encoder.repr_int. fold (digits_of z).
      replace (max_str_digits <? String.length (digits_of z))%nat with false
        by (symmetry; apply Nat.ltb_ge; exact Hp).
      pose proof (repr_int_text z) as Ht. unfold Encoder.repr_int in Ht.
      fold (digits_of z) in Ht.
      replace (max_str_digits <? String.length (digits_of z))%nat with false in Ht
        by (symmetry; apply Nat.ltb_ge; exact Hp).
      destruct (Ht _ eq_refl) as [-> _]. reflexivity.
    + now apply tokenize_int.
  - discriminate.
  - exists (Encoder.py_encode_basestring_ascii s). split; [reflexivity|].
    now apply tokenize_basestring.
  - (* lists *)
    destruct l as [|x l'].
    { exists "[]". split; reflexivity. }
    set (l := x :: l') in *.
    assert (Hlevel : (recursion_limit <=? level)%nat = false).
    { apply Nat.leb_gt. cbn [depth] in Hd. lia. }
    assert (Hparts : exists parts : list (string * list token),
               sequence (map (Encoder.iterencode floatstr indent (S level)) l)
               = Return (map fst parts) /\
               map snd parts = map tokens l /\
               Forall (fun p => forall rest, value_end rest = true ->
                                tokenize 0 (list_ascii_of_string (fst p) ++ rest)
                                = (snd p ++ tokenize 0 rest)%list) parts).
    { cbn [portable] in Hp. cbn [depth] in Hd.
      assert (Hdl : forall y, In y l -> (S level + depth y <= recursion_limit)%nat).
      { intros y Hy. pose proof (depth_item _ depth y l Hy). lia. }
      clearbody l. clear Hd Hlevel.
      induction IH as [|y l Hy _ IHl].
      - exists []. split; [reflexivity | split; [reflexivity | constructor]].
      - cbn [forallb] in Hp. apply andb_true_iff in Hp as [Hpy Hpl].
        destruct IHl as (parts & Hs & Ht & Hf);
          [exact Hpl | intros; apply Hdl; now right |].
        assert (Hy' : forall rest, value_end rest = true ->
                  exists s,
                    Encoder.iterencode floatstr indent (S level) y = Return s /\
                    tokenize 0 (list_ascii_of_string s ++ rest)
                    = (tokens y ++ tokenize 0 rest)%list).
        { intros r Hr'. apply Hy; [exact Hpy | apply Hdl; now left | exact Hr']. }
        destruct (Hy' [] eq_refl) as (s & Hs0 & _).
        exists ((s, tokens y) :: parts). cbn [map fst snd sequence].
        rewrite Hs0, Hs, Ht. split; [reflexivity | split; [reflexivity|]].
        constructor; [|exact Hf]. cbn [fst snd]. intros r Hr'.
        destruct (Hy' r Hr') as (s' & Hs' & Htok). congruence. }
    destruct Hparts as (parts & Hs & Ht & Hf).
    exists (Encoder.container "[" "]" indent level (map fst parts)). split.
    + change (Encoder.iterencode floatstr indent level (JList l))
        with (if (recursion_limit <=? level)%nat then Raise Encoder.depth_error
              else and_then
                     (sequence (map (Encoder.iterencode floatstr indent (S level)) l))
                     (fun chunks => Return (Encoder.container "[" "]" indent level chunks))).
      now rewrite Hlevel, Hs.
    + rewrite (tokenize_container_of "[" "]" "[" "]" TLBracket TRBracket)
        by (reflexivity || exact Hf).
      cbn [tokens]. rewrite Ht. cbn [app]. now rewrite <- app_assoc.
  - (* dicts *)
    destruct d as [|kv d'].
    { exists "{}". split; reflexivity. }
    set (d := kv :: d') in *.
    assert (Hlevel : (recursion_limit <=? level)%nat = false).
    { apply Nat.leb_gt. cbn [depth] in Hd. lia. }
    set (chunk_of := fun kv : ustr * json =>
           and_then (Encoder.iterencode floatstr indent (S level) (snd kv))
             (fun chunk =>
                Return (Encoder.py_encode_basestring_ascii (fst kv) ++
                        Encoder.key_separator ++ chunk))).
    assert (Hparts : exists parts : list (string * list token),
               sequence (map chunk_of d) = Return (map fst parts) /\
               map snd parts
               = map (fun kv => TString (fst kv) :: TColon :: tokens (snd kv)) d /\
               Forall (fun p => forall rest, value_end rest = true ->
                                tokenize 0 (list_ascii_of_string (fst p) ++ rest)
                                = (snd p ++ tokenize 0 rest)%list) parts).
    { cbn [portable] in Hp. apply andb_true_iff in Hp as [Hp _]. cbn [depth] in Hd.
      assert (Hdl : forall y, In y d -> (S level + depth (snd y) <= recursion_limit)%nat).
      { intros y Hy. pose proof (depth_item _ (fun kv => depth (snd kv)) y d Hy). lia. }
      clearbody d. clear Hd Hlevel.
      induction IH as [|y d Hy _ IHd].
      - exists []. split; [reflexivity | split; [reflexivity | constructor]].
      - cbn [forallb] in Hp. apply andb_true_iff in Hp as [Hpy Hpd].
        apply andb_true_iff in Hpy as [Hk Hpy].
        destruct IHd as (parts & Hs & Ht & Hf);
          [exact Hpd | intros; apply Hdl; now right |].
        assert (Hy' : forall rest, value_end rest = true ->
                  exists s,
                    Encoder.iterencode floatstr indent (S level) (snd y) = Return s /\
                    tokenize 0 (list_ascii_of_string s ++ rest)
                    = (tokens (snd y) ++ tokenize 0 rest)%list).
        { intros r Hr'. apply Hy; [exact Hpy | apply Hdl; now left | exact Hr']. }
        destruct (Hy' [] eq_refl) as (s & Hs0 & _).
        exists ((Encoder.py_encode_basestring_ascii (fst y) ++
                 Encoder.key_separator ++ s,
                 TString (fst y) :: TColon :: tokens (snd y)) :: parts).
        cbn [map fst snd sequence]. unfold chunk_of at 1.
        rewrite Hs0, Hs, Ht. cbn [and_then].
        split; [reflexivity | split; [reflexivity|]].
        constructor; [|exact Hf]. cbn [fst snd]. intros r Hr'.
        destruct (Hy' r Hr') as (s' & Hs' & Htok).
        assert (s' = s) by congruence. subst s'.
        rewrite !chars_app, <- !app_assoc.
        rewrite tokenize_basestring by exact Hk. cbn [app]. f_equal.
        unfold Encoder.key_separator. cbn [list_ascii_of_string app].
        rewrite (tokenize_punct ":" TColon) by reflexivity. f_equal.
        rewrite tokenize_space by reflexivity. exact Htok. }
    destruct Hparts as (parts & Hs & Ht & Hf).
    exists (Encoder.container "{" "}" indent level (map fst parts)). split.
    + change (Encoder.iterencode floatstr indent level (JDict d))
        with (if (recursion_limit <=? level)%nat then Raise Encoder.depth_error
              else and_then (sequence (map chunk_of d))
                     (fun chunks => Return (Encoder.container "{" "}" indent level chunks))).
      now rewrite Hlevel, Hs.
    + rewrite (tokenize_container_of "{" "}" "{" "}" TLBrace TRBrace)
        by (reflexivity || exact Hf).
      cbn [tokens]. rewrite Ht. cbn [app]. now rewrite <- app_assoc.
Qed.

(** The parser reads the tokens of a portable value as that value. *)
Lemma run_tokens (v : json) :
  forall (ts : list token) (e : expect) (st : list frame),
    e = Value \/ e = ValueOrClose ->
    portable v = true ->
    (List.length st + depth v <= recursion_limit)%nat ->
    run (tokens v ++ ts) e st = delivered v ts st.
Proof.
  induction v as [ |b|z|lexeme|s|l IH|d IH] using json_induction;
    intros ts e st He Hp Hd.
  - destruct He as [-> | ->]; reflexivity.
  - destruct He as [-> | ->]; reflexivity.
  - cbn [portable] in Hp. apply Nat.leb_le in Hp.
    cbn [tokens app run].
    assert (E : step (TInt (z <? 0)%Z (list_ascii_of_string (digits_of z))) e st
                = deliver (JInt z) st).
    { destruct He as [-> | ->]; cbn [step]; rewrite chars_length;
        (replace (max_str_digits <? String.length (digits_of z))%nat with false
           by (symmetry; apply Nat.ltb_ge; exact Hp));
        now rewrite int_of_digits. }
    now rewrite E.
  - discriminate.
  - destruct He as [-> | ->]; reflexivity.
  - (* lists *)
    assert (Hopen : open_container (FList []) ValueOrClose st
                    = Return (ValueOrClose, FList [] :: st)).
    { unfold open_container.
      replace (recursion_limit <=? List.length st)%nat with false; [reflexivity|].
      symmetry. apply Nat.leb_gt. cbn [depth] in Hd. lia. }
    assert (Hstep : step TLBracket e st = Return (ValueOrClose, FList [] :: st)).
    { destruct He as [-> | ->]; exact Hopen. }
    cbn [tokens app run]. rewrite Hstep.
    destruct l as [|x l'].
    { reflexivity. }
    set (l := x :: l') in *.
    assert (Hl : l <> []) by discriminate.
    cbn [portable] in Hp. cbn [depth] in Hd.
    assert (Hdl : forall y, In y l -> (S (List.length st) + depth y <= recursion_limit)%nat).
    { intros y Hy. pose proof (depth_item _ depth y l Hy). lia. }
    rewrite <- app_assoc. cbn [app].
    assert (Hitems : forall acc e', e' = Value \/ e' = ValueOrClose ->
              run (separated (map tokens l) ++ TRBracket :: ts) e' (FList acc :: st)
              = delivered (JList (rev acc ++ l)) ts st).
    { clearbody l. clear Hd Hopen Hstep.
      induction IH as [|y l Hy _ IHl]; intros acc e' He'; [contradiction|].
      cbn [forallb] in Hp. apply andb_true_iff in Hp as [Hpy Hpl].
      destruct l as [|y' l''].
      + cbn [map separated]. rewrite Hy; [| exact He' | exact Hpy |].
        * unfold delivered at 1. cbn [deliver run step rev]. reflexivity.
        * cbn [List.length]. apply Hdl. now left.
      + change (separated (map tokens (y :: y' :: l'')))
          with (tokens y ++ TComma :: separated (map tokens (y' :: l'')))%list.
        rewrite <- app_assoc. rewrite Hy; [| exact He' | exact Hpy |].
        * unfold delivered at 1. cbn [deliver app run step].
          rewrite IHl;
            [| exact Hpl | discriminate | intros; apply Hdl; now right | now left].
          cbn [rev]. now rewrite <- app_assoc.
        * cbn [List.length]. apply Hdl. now left. }
    apply (Hitems [] ValueOrClose). now right.
  - (* dicts *)
    assert (Hopen : open_container (FDict []) KeyOrClose st
                    = Return (KeyOrClose, FDict [] :: st)).
    { unfold open_container.
      replace (recursion_limit <=? List.length st)%nat with false; [reflexivity|].
      symmetry. apply Nat.leb_gt. cbn [depth] in Hd. lia. }
    assert (Hstep : step TLBrace e st = Return (KeyOrClose, FDict [] :: st)).
    { destruct He as [-> | ->]; exact Hopen. }
    cbn [tokens app run]. rewrite Hstep.
    destruct d as [|kv d'].
    { reflexivity. }
    set (d := kv :: d') in *.
    assert (Hl : d <> []) by discriminate.
    cbn [portable] in Hp. apply andb_true_iff in Hp as [Hp Hk]. cbn [depth] in Hd.
    assert (Hdl : forall y, In y d ->
                            (S (List.length st) + depth (snd y) <= recursion_limit)%nat).
    { intros y Hy. pose proof (depth_item _ (fun kv => depth (snd kv)) y d Hy). lia. }
    rewrite <- app_assoc. cbn [app].
    assert (Hitems : forall acc e', e' = KeyOrClose \/ e' = Key ->
              run (separated
                     (map (fun kv => TString (fst kv) :: TColon :: tokens (snd kv)) d) ++
                   TRBrace :: ts) e' (FDict acc :: st)
              = delivered (JDict (dict_of_pairs (rev acc ++ d))) ts st).
    { clearbody d. clear Hd Hopen Hstep Hk.
      induction IH as [|y d Hy _ IHd]; intros acc e' He'; [contradiction|].
      cbn [forallb] in Hp. apply andb_true_iff in Hp as [Hpy Hpd].
      apply andb_true_iff in Hpy as [_ Hpy].
      assert (Hkey : forall ts',
                run (TString (fst y) :: TColon :: ts') e' (FDict acc :: st)
                = run ts' Value (FKey acc (fst y) :: st)).
      { intros ts'. destruct He' as [-> | ->]; reflexivity. }
      destruct d as [|y' d''].
      + cbn [map separated app]. rewrite Hkey.
        rewrite Hy; [| now left | exact Hpy |].
        * unfold delivered at 1. cbn [deliver run step rev].
          destruct y. reflexivity.
        * cbn [List.length]. apply Hdl. now left.
      + change (separated
                  (map (fun kv => TString (fst kv) :: TColon :: tokens (snd kv))
                     (y :: y' :: d'')))
          with ((TString (fst y) :: TColon :: tokens (snd y)) ++
                TComma ::
                separated
                  (map (fun kv => TString (fst kv) :: TColon :: tokens (snd kv))
                     (y' :: d'')))%list.
        rewrite <- app_assoc. cbn [app]. rewrite Hkey.
        rewrite Hy; [| now left | exact Hpy |].
        * unfold delivered at 1. cbn [deliver app run step].
          rewrite IHd;
            [| exact Hpd | discriminate | intros; apply Hdl; now right | now right].
          cbn [rev]. rewrite <- app_assoc. destruct y. reflexivity.
        * cbn [List.length]. apply Hdl. now left. }
    rewrite (Hitems [] KeyOrClose) by now left.
    cbn [rev app]. now rewrite dict_of_pairs_distinct.
Qed.

(** A portable value that is not nested too deep survives the round trip
    through [json.dumps], with or without indent, and [json.loads]. *)
Lemma dumps_loads_round_trip (floatstr : string -> string) (indent : option nat)
  (v : json) :
  portable v = true -> (depth v <= 100)%nat ->
  exists s, Encoder.dumps floatstr indent v = Return s /\ loads s = Return v.
Proof.
  intros Hp Hd.
  assert (Hd' : (0 + depth v <= recursion_limit)%nat).
  { unfold recursion_limit. lia. }
  destruct (iterencode_tokens floatstr indent v 0 [] Hp Hd' eq_refl) as (s & Hs & Ht).
  exists s. split; [exact Hs|].
  unfold loads. rewrite app_nil_r in Ht. rewrite Ht.
  rewrite run_tokens; [reflexivity | now left | exact Hp | exact Hd'].
Qed.

(** X25.  An answer of the retrieval chain that is valid JSON is written
    again with an indent of two, and nothing of it is lost: when the
    answer parses to a value without floats whose strings hold no high
    surrogate and which is nested at most a hundred deep, the text returned
    parses back to the same value. *)
Theorem analyze_transcripts_preserves_json (w : World.world)
  (settings : Config.Settings) (query : string) (g : QualitativeAnalysis.globals)
  (result : string) (v : json) :
  retrieval_answered w settings query g result ->
  loads result = Return v ->
  portable v = true -> (depth v <= 100)%nat ->
  exists s,
    fst (QualitativeAnalysis.analyze_transcripts w settings query g) = Return s /\
    loads s = Return v.
Proof.
  intros (store & llm & Hs & Hl & Hr) Hv Hp Hd.
  destruct (dumps_loads_round_trip (World.floatstr w) (Some 2) v Hp Hd)
    as (s & Hdumps & Hloads).
  exists s. split; [|exact Hloads].
  rewrite analyze_transcripts_unfold, Hs. unfold QualitativeAnalysis.analyze.
  rewrite Hl. cbn [and_then]. rewrite Hr. cbn [and_then]. rewrite Hv.
  cbn [and_then]. rewrite Hdumps. reflexivity.
Qed.

Lemma analyze_transcripts_preserves_json_witness :
  exists s,
    fst (QualitativeAnalysis.analyze_transcripts
           (sample_world one_chunk (Return "")
              (Return (sq "{'sentiment': 'positive', 'themes': ['AI', 'cloud'], 'quotes': 3}"))
              (Raise (Exn OtherError "offline")))
           ollama_settings "What about AI?" no_globals) = Return s /\
    loads s = Return (JDict [ (key "sentiment", jstr "positive");
                              (key "themes", JList [jstr "AI"; jstr "cloud"]);
                              (key "quotes", JInt 3) ]).
Proof.
  apply (analyze_transcripts_preserves_json _ ollama_settings "What about AI?"
           no_globals
           (sq "{'sentiment': 'positive', 'themes': ['AI', 'cloud'], 'quotes': 3}")).
  - exists (World.NewChroma one_chunk
              (World.HuggingFaceEmbeddings "sentence-transformers/all-MiniLM-L6-v2")
              "tcs_transcripts").
    exists (World.ChatOllama "http://localhost:11434" "gemma2:9b" "0.3").
    split; [reflexivity | split; reflexivity].
  - reflexivity.
  - reflexivity.
  - cbn. lia.
Defined.

(** X26.  An answer of the extraction chain that is a JSON object is written
    again with an indent of two, and nothing of it is lost: when the
    stripped answer parses to an object without floats whose strings hold
    no high surrogate and which is nested at most a hundred deep, the text
    returned parses back to the same object. *)
Theorem extract_financial_data_preserves_object (w : World.world)
  (settings : Config.Settings) (file_path result : string)
  (d : list (ustr * json)) :
  chain_answered w settings file_path result ->
  loads (Py.strip result) = Return (JDict d) ->
  portable (JDict d) = true -> (depth (JDict d) <= 100)%nat ->
  exists s,
    FinancialExtractor.extract_financial_data w settings file_path = Return s /\
    loads s = Return (JDict d).
Proof.
  intros Hc Hv Hp Hd.
  destruct (dumps_loads_round_trip (World.floatstr w) (Some 2) (JDict d) Hp Hd)
    as (s & Hdumps & Hloads).
  exists s. split; [|exact Hloads].
  unfold FinancialExtractor.extract_financial_data.
  rewrite (extract_after_chain w settings file_path result Hc).
  unfold FinancialExtractor.parse_and_validate. rewrite Hv.
  cbn [and_then Value.get]. rewrite Hdumps. reflexivity.
Qed.

Lemma extract_financial_data_preserves_object_witness :
  exists s,
    FinancialExtractor.extract_financial_data
      (sample_world one_chunk
         (Return (sq " {'quarter': 'Q1', 'year': 2024, 'net_profit': null} "))
         (Return "") (Raise (Exn OtherError "offline")))
      ollama_settings "data/reports" = Return s /\
    loads s = Return (JDict [ (key "quarter", jstr "Q1"); (key "year", JInt 2024);
                              (key "net_profit", JNull) ]).
Proof.
  apply (extract_financial_data_preserves_object _ ollama_settings "data/reports"
           (sq " {'quarter': 'Q1', 'year': 2024, 'net_profit': null} ")).
  - exists (World.ChatOllama "http://localhost:11434" "gemma2:9b" "0.0").
    exists (DocumentLoader.Self
              (World.NewSplitter 2000 200 [Py.newline ++ Py.newline; Py.newline; " "; ""])).
    exists one_chunk.
    split; [reflexivity|]. split; [reflexivity|]. split; [reflexivity|].
    split; [discriminate | reflexivity].
  - reflexivity.
  - reflexivity.
  - cbn. lia.
Defined.
